(** * procmon: a shallow embedding of the process monitor (src/procmon.c)

    Integer types and error numbers come first, then the [Process] and
    [LockData] records and the world the program runs in (the files under
    /tmp, the process table of the kernel, the descriptors owned by the
    supervisor), then the functions of the C file from the leaves up: the
    lockfile protocol, the start engine, the per-process monitor, the
    command-line operations.  Each function carries the name it has in the
    source and the lines it is taken from.  Pointers to [Process] objects
    are handles into an arena; a handle that does not resolve plays the part
    of the NULL pointer.  The properties follow the definitions. *)

From Stdlib Require Import ZArith Lia Bool.
From stdpp Require Import gmap strings list fin_maps pretty.

Open Scope Z_scope.

(** ** Machine integers

    [int] and [pid_t] are 32-bit signed, [long] and [time_t] 64-bit signed,
    [size_t] 64-bit unsigned, [unsigned int] and [uint32_t] 32-bit unsigned.  Values are kept
    as [Z]; every operation that can leave the range is wrapped. *)

Module CInt.

Definition to_int (z : Z) : Z := (z + 2 ^ 31) mod 2 ^ 32 - 2 ^ 31.
Definition to_long (z : Z) : Z := (z + 2 ^ 63) mod 2 ^ 64 - 2 ^ 63.
Definition to_size_t (z : Z) : Z := z mod 2 ^ 64.
Definition to_uint (z : Z) : Z := z mod 2 ^ 32.

Definition INT_MAX : Z := 2 ^ 31 - 1.
Definition INT_MIN : Z := - 2 ^ 31.

End CInt.

(** ** Error numbers (errno.h) and signals *)

Definition EOK : Z := 0.
Definition EPERM : Z := 1.
Definition ENOENT : Z := 2.
Definition ESRCH : Z := 3.
Definition EAGAIN : Z := 11.
Definition EINVAL : Z := 22.

Definition SIGKILL : Z := 9.

(** ** printf conversions used by the program *)

Module Fmt.

(** [%d] and [%ld]: signed decimal. *)
Definition d (z : Z) : string := pretty z.

(** [%02d]: signed decimal, padded on the left with zeros to width 2. *)
Definition d02 (z : Z) : string :=
  if (String.length (pretty z) <? 2)%nat then "0" +:+ pretty z else pretty z.

(** [snprintf (buf, len, ...)]: at most [len - 1] characters of the
    formatted text are stored; with [len = 0] the buffer is left alone. *)
Definition snprintf (buf : string) (len : Z) (text : string) : string :=
  if len <=? 0 then buf else String.substring 0 (Z.to_nat (len - 1)) text.

End Fmt.

(** ** Type definitions (procmon.c, 74-197) *)

Inductive ProcState :=
| PROCSTATE_eINIT
| PROCSTATE_eSTARTED
| PROCSTATE_eRUNNING
| PROCSTATE_eTERMINATED
| PROCSTATE_eWAITING.

#[global] Instance ProcState_eq_dec : EqDecision ProcState.
Proof. solve_decision. Defined.

(** The LockData object at the head of every lockfile.  The fields carry
    the prefix [ld_] because [pid] and [runcount] are also fields of
    [Process] and [terminate] is also a function. *)
Record LockData := mkLockData {
  ld_pid : Z;          (* pid_t *)
  ld_terminate : Z;    (* uint32_t *)
  ld_runcount : Z;     (* size_t *)
  ld_starttime : Z     (* time_t *)
}.

(** The two terminate commands. *)
Definition SUSPEND : Z := 0xDEADBEEF.
Definition ABORT : Z := 0xDEAFBABE.

(** A [Process *] is a handle into the arena of descriptors. *)
Abbreviation handle := nat.

Record Process := mkProcess {
  id : option string;              (* char *id; None is NULL *)
  state : ProcState;
  exec : option string;            (* char *exec *)
  wait : Z;                        (* int *)
  restart_delay : Z;               (* int *)
  restart_on_parent_death : bool;
  monitored : bool;
  verbose : bool;
  skip : bool;
  pid : Z;                         (* pid_t *)
  runcount : Z;                    (* size_t *)
  thread : option nat;             (* pthread_t: the thread created last *)
  pDepends : list string;          (* the "depends" array *)
  pParents : list handle;          (* ProcessNode list *)
  pChildren : list handle          (* ProcessNode list *)
}.

(** ** The world

    A lockfile holds a [LockData] header followed by the command line.  The
    window in which a freshly created lockfile is still shorter than its
    header is not modelled: every file that exists has a complete header. *)
Record File := mkFile {
  f_ldata : LockData;
  f_exec : string
}.

(** Calls to the system, recorded in the order in which they are made. *)
Inductive Event :=
| EvOpen (path : string) (fd : Z)
| EvCreat (path : string) (fd : Z)
| EvUnlink (path : string) (rc : Z)
| EvKill (pid sig : Z) (rc : Z)
| EvSleep (sec : Z)
| EvUsleep (usec : Z)
| EvPthreadCreate (arg : handle) (rc : Z)
| EvFork (rc : Z)
| EvWaitpid (pid : Z)
| EvFcntl (fd cmd : Z).

(** [procs] and [pFirst] are the memory of the supervisor: the descriptors
    by handle, and the process configuration list of ProcmonState.  [fs]
    holds the files by absolute path.  [fds] is the descriptor table of the
    caller, slot [i] standing for descriptor [3 + i].  [ptab] has the live
    processes, with [true] for those the caller may signal.  [children] are
    the children of the caller not yet waited for, [self] is what getpid
    returns, [clock] counts microseconds since the epoch.  [stack_ldata] is
    what an uninitialised LockData local holds.  [threads] lists the monitor
    threads created so far by their argument, and [trace] the system calls
    of the caller, oldest first. *)
Record World := mkWorld {
  procs : list Process;
  pFirst : list handle;
  fs : gmap string File;
  fds : list (option string);
  ptab : gmap Z bool;
  children : list Z;
  self : Z;
  clock : Z;
  errno : Z;
  stack_ldata : LockData;
  threads : list handle;
  trace : list Event
}.

Definition set_procs (v : list Process) (w : World) : World :=
  mkWorld v (pFirst w) (fs w) (fds w) (ptab w) (children w)
          (self w) (clock w) (errno w) (stack_ldata w) (threads w) (trace w).
Definition set_pFirst (v : list handle) (w : World) : World :=
  mkWorld (procs w) v (fs w) (fds w) (ptab w) (children w)
          (self w) (clock w) (errno w) (stack_ldata w) (threads w) (trace w).
Definition set_fs (v : gmap string File) (w : World) : World :=
  mkWorld (procs w) (pFirst w) v (fds w) (ptab w) (children w)
          (self w) (clock w) (errno w) (stack_ldata w) (threads w) (trace w).
Definition set_fds (v : list (option string)) (w : World) : World :=
  mkWorld (procs w) (pFirst w) (fs w) v (ptab w) (children w)
          (self w) (clock w) (errno w) (stack_ldata w) (threads w) (trace w).
Definition set_ptab (v : gmap Z bool) (w : World) : World :=
  mkWorld (procs w) (pFirst w) (fs w) (fds w) v (children w)
          (self w) (clock w) (errno w) (stack_ldata w) (threads w) (trace w).
Definition set_children (v : list Z) (w : World) : World :=
  mkWorld (procs w) (pFirst w) (fs w) (fds w) (ptab w) v
          (self w) (clock w) (errno w) (stack_ldata w) (threads w) (trace w).
Definition set_self (v : Z) (w : World) : World :=
  mkWorld (procs w) (pFirst w) (fs w) (fds w) (ptab w) (children w)
          v (clock w) (errno w) (stack_ldata w) (threads w) (trace w).
Definition set_clock (v : Z) (w : World) : World :=
  mkWorld (procs w) (pFirst w) (fs w) (fds w) (ptab w) (children w)
          (self w) v (errno w) (stack_ldata w) (threads w) (trace w).
Definition set_errno (v : Z) (w : World) : World :=
  mkWorld (procs w) (pFirst w) (fs w) (fds w) (ptab w) (children w)
          (self w) (clock w) v (stack_ldata w) (threads w) (trace w).
Definition set_threads (v : list handle) (w : World) : World :=
  mkWorld (procs w) (pFirst w) (fs w) (fds w) (ptab w) (children w)
          (self w) (clock w) (errno w) (stack_ldata w) v (trace w).
Definition set_trace (v : list Event) (w : World) : World :=
  mkWorld (procs w) (pFirst w) (fs w) (fds w) (ptab w) (children w)
          (self w) (clock w) (errno w) (stack_ldata w) (threads w) v.

Definition log (e : Event) (w : World) : World := set_trace (trace w ++ [e]) w.

(** Field updates of a descriptor, [pProcess->field = v]. *)
Definition set_state (v : ProcState) (p : Process) : Process :=
  mkProcess (id p) v (exec p) (wait p) (restart_delay p)
            (restart_on_parent_death p) (monitored p) (verbose p) (skip p)
            (pid p) (runcount p) (thread p) (pDepends p) (pParents p)
            (pChildren p).
Definition set_restart_delay (v : Z) (p : Process) : Process :=
  mkProcess (id p) (state p) (exec p) (wait p) v
            (restart_on_parent_death p) (monitored p) (verbose p) (skip p)
            (pid p) (runcount p) (thread p) (pDepends p) (pParents p)
            (pChildren p).
Definition set_pid (v : Z) (p : Process) : Process :=
  mkProcess (id p) (state p) (exec p) (wait p) (restart_delay p)
            (restart_on_parent_death p) (monitored p) (verbose p) (skip p)
            v (runcount p) (thread p) (pDepends p) (pParents p)
            (pChildren p).
Definition set_runcount (v : Z) (p : Process) : Process :=
  mkProcess (id p) (state p) (exec p) (wait p) (restart_delay p)
            (restart_on_parent_death p) (monitored p) (verbose p) (skip p)
            (pid p) v (thread p) (pDepends p) (pParents p)
            (pChildren p).
Definition set_thread (v : option nat) (p : Process) : Process :=
  mkProcess (id p) (state p) (exec p) (wait p) (restart_delay p)
            (restart_on_parent_death p) (monitored p) (verbose p) (skip p)
            (pid p) (runcount p) v (pDepends p) (pParents p)
            (pChildren p).
Definition set_pParents (v : list handle) (p : Process) : Process :=
  mkProcess (id p) (state p) (exec p) (wait p) (restart_delay p)
            (restart_on_parent_death p) (monitored p) (verbose p) (skip p)
            (pid p) (runcount p) (thread p) (pDepends p) v
            (pChildren p).
Definition set_pChildren (v : list handle) (p : Process) : Process :=
  mkProcess (id p) (state p) (exec p) (wait p) (restart_delay p)
            (restart_on_parent_death p) (monitored p) (verbose p) (skip p)
            (pid p) (runcount p) (thread p) (pDepends p) (pParents p)
            v.

(** [update h f w]: apply [f] to the descriptor behind [h]. *)
Definition update (h : handle) (f : Process -> Process) (w : World) : World :=
  set_procs (alter f h (procs w)) w.

(** What the program does not decide: the other threads and processes
    that run while the caller sleeps, and the answers of the kernel that
    depend on more than the files and the process table. *)
Record Env := mkEnv {
  (* the others, during a sleep of the caller *)
  yield : World -> World;
  (* the result of pthread_create *)
  pthread_create_rc : World -> handle -> Z;
  (* what fork returns: the pid of the child, -1, or 0 in the child *)
  fork_rc : World -> Z;
  (* whether execvp succeeds in the child *)
  execvp_ok : World -> handle -> bool;
  (* fcntl (fd, cmd, &lock): 0 or the errno, None while it blocks *)
  fcntl_lock : World -> Z -> Z -> option Z;
  (* kill (pid, sig) with pid <= 0: return value, errno, and the world *)
  kill_group : World -> Z -> Z -> (Z * Z) * World
}.

Section Procmon.

Variable E : Env.

(** ** System calls *)

Definition time (w : World) : Z := clock w / 1000000.

(** The trace, errno and the descriptors belong to the caller: whatever
    the environment makes of the world, they stay as the caller has them. *)
Definition keep_private (w w' : World) : World :=
  set_trace (trace w) (set_errno (errno w) (set_fds (fds w) w')).

(** [sleep] and [usleep] are the points at which the rest of the system
    is seen to run.  [sleep] takes an [unsigned int], and its callers hold
    the number of seconds in an [int]: MonitorThread, where the number can
    be negative, passes it through [CInt.to_uint]; in WaitProcess it is
    positive, and the conversion leaves it as it is. *)
Definition others (w : World) : World := keep_private w (yield E w).

Definition sleep (sec : Z) (w : World) : World :=
  others (set_clock (clock w + sec * 1000000) (log (EvSleep sec) w)).

Definition usleep (usec : Z) (w : World) : World :=
  others (set_clock (clock w + usec) (log (EvUsleep usec) w)).

(** Descriptors are handed out in sequence from 3 and are not reused. *)
Definition fd_path (w : World) (fd : Z) : option string :=
  if fd <? 3 then None else mjoin (fds w !! Z.to_nat (fd - 3)).

Definition fd_file (w : World) (fd : Z) : option File :=
  path ← fd_path w fd; fs w !! path.

(** [open (path, O_RDWR)] *)
Definition sys_open (w : World) (path : string) : Z * World :=
  match fs w !! path with
  | Some _ =>
      let fd := 3 + Z.of_nat (length (fds w)) in
      (fd, log (EvOpen path fd) (set_fds (fds w ++ [Some path]) w))
  | None => (-1, log (EvOpen path (-1)) (set_errno ENOENT w))
  end.

(** [open (path, O_RDWR | O_CREAT, S_IRUSR | S_IWUSR)]: a file that is
    missing is created, with a zeroed header. *)
Definition sys_creat (w : World) (path : string) : Z * World :=
  let fd := 3 + Z.of_nat (length (fds w)) in
  let w := match fs w !! path with
           | Some _ => w
           | None =>
               set_fs (<[path := mkFile (mkLockData 0 0 0 0) ""]> (fs w)) w
           end in
  (fd, log (EvCreat path fd) (set_fds (fds w ++ [Some path]) w)).

Definition sys_close (w : World) (fd : Z) : World :=
  if fd <? 3 then w else set_fds (<[Z.to_nat (fd - 3) := None]> (fds w)) w.

Definition sizeof_LockData : Z := 24.

(** [read (fd, &ldata, sizeof (LockData))] at offset 0: the object read,
    or [ldata] as it was when nothing is read, and the byte count. *)
Definition read_ldata (w : World) (fd : Z) (ldata : LockData) : LockData * Z :=
  match fd_file w fd with
  | Some f => (f_ldata f, sizeof_LockData)
  | None => (ldata, -1)
  end.

(** Writes through a descriptor: [upd] is applied to the file behind
    [fd]; the result is the byte count [len], or -1. *)
Definition write_file (w : World) (fd : Z) (len : Z) (upd : File -> File)
  : Z * World :=
  match fd_path w fd with
  | Some path =>
      match fs w !! path with
      | Some f => (len, set_fs (<[path := upd f]> (fs w)) w)
      | None => (-1, set_errno EINVAL w)
      end
  | None => (-1, set_errno EINVAL w)
  end.

(** [lseek (fd, 0, SEEK_SET); write (fd, &ldata, sizeof (LockData))] *)
Definition write_ldata (w : World) (fd : Z) (ldata : LockData) : Z * World :=
  write_file w fd sizeof_LockData (fun f => mkFile ldata (f_exec f)).

(** [lseek] to the offset of [terminate]; [write] of its 4 bytes. *)
Definition write_terminate (w : World) (fd : Z) (v : Z) : Z * World :=
  write_file w fd 4
    (fun f => mkFile (mkLockData (ld_pid (f_ldata f)) v
                                 (ld_runcount (f_ldata f))
                                 (ld_starttime (f_ldata f))) (f_exec f)).

(** [lseek] to the offset of [starttime]; [write] of its 8 bytes. *)
Definition write_starttime (w : World) (fd : Z) (v : Z) : Z * World :=
  write_file w fd 8
    (fun f => mkFile (mkLockData (ld_pid (f_ldata f))
                                 (ld_terminate (f_ldata f))
                                 (ld_runcount (f_ldata f)) v) (f_exec f)).

(** [write (fd, exec, strlen (exec))] after the header: the bytes of
    [exec] replace the head of what follows the header. *)
Definition write_exec (w : World) (fd : Z) (e : string) : Z * World :=
  write_file w fd (Z.of_nat (String.length e))
    (fun f => mkFile (f_ldata f)
                (e +:+ String.substring (String.length e)
                         (String.length (f_exec f) - String.length e)
                         (f_exec f))).

Definition sys_unlink (w : World) (path : string) : Z * World :=
  match fs w !! path with
  | Some _ => (0, log (EvUnlink path 0) (set_fs (delete path (fs w)) w))
  | None => (-1, log (EvUnlink path (-1)) (set_errno ENOENT w))
  end.

(** [kill (pid, sig)]: the return value and the world.  Signal 0 only
    probes; the program sends no signal other than SIGKILL. *)
Definition sys_kill (w : World) (pid sig : Z) : Z * World :=
  if 0 <? pid then
    match ptab w !! pid with
    | None => (-1, log (EvKill pid sig (-1)) (set_errno ESRCH w))
    | Some false => (-1, log (EvKill pid sig (-1)) (set_errno EPERM w))
    | Some true =>
        (0, log (EvKill pid sig 0)
              (if sig =? 0 then w else set_ptab (delete pid (ptab w)) w))
    end
  else
    let '((rc, err), w') := kill_group E w pid sig in
    let w := keep_private w w' in
    (rc, log (EvKill pid sig rc) (if rc =? 0 then w else set_errno err w)).

(** ** Lockfile protocol *)

Definition lockfile_path (name : string) : string := "/tmp/procmon." +:+ name.

(** The path is built with [sprintf (lockfile, "/tmp/procmon.%s", name)]
    in a local buffer whose size is not checked against the name:
    [char lockfile[256]] in open_lockfile (2172-2180), get_pid_from_lockfile
    (2219-2226) and create_lockfile (2103-2122), [char lockfile[64]] in
    remove_lockfile (2615-2620).  The functions below describe the code for
    the names whose path, with its terminating NUL, is held by the buffer:
    at most 242 characters for the first three, at most 50 for
    remove_lockfile.  For a longer name the sprintf writes past the end of
    the buffer, and nothing is said here about what the code does then. *)
Definition fits (size : Z) (name : string) : Prop :=
  Z.of_nat (String.length (lockfile_path name)) < size.

#[global] Instance fits_dec size name : Decision (fits size name).
Proof. unfold fits. apply _. Defined.

(** Every descriptor has an id that the buffers of 256 bytes hold. *)
Definition ids_fit (w : World) : Prop :=
  Forall (fun q => from_option (fits 256) True (id q)) (procs w).

(** Every lockfile there is has a path that the buffer of remove_lockfile,
    the smallest, holds. *)
Definition tmp_fits (w : World) : Prop :=
  map_Forall (fun path (_ : File) =>
                String.prefix "/tmp/procmon." path = true ->
                Z.of_nat (String.length path) < 64)
             (fs w).

(** open_lockfile (procmon.c, 2170-2194).  The loop
    [while ((tries++ < 5) && (fd == -1))] is run on fuel; six rounds are
    enough (see [open_lockfile_loop_spec]). *)
Fixpoint open_lockfile_loop (fuel : nat) (lockfile : string)
    (tries : Z) (fd : Z) (w : World) : option (Z * World) :=
  match fuel with
  | O => None
  | S fuel =>
      let test := tries <? 5 in
      let tries := tries + 1 in
      if test && (fd =? -1) then
        let '(fd, w) := sys_open w lockfile in
        let w := if fd =? -1 then usleep 100000 w else w in
        open_lockfile_loop fuel lockfile tries fd w
      else Some (fd, w)
  end.

Definition open_lockfile_fuel (fuel : nat) (w : World) (name : option string)
  : option (Z * World) :=
  match name with
  | Some n => open_lockfile_loop fuel (lockfile_path n) 0 (-1) w
  | None => Some (-1, w)
  end.

Definition open_lockfile (w : World) (name : option string) : Z * World :=
  default (-1, w) (open_lockfile_fuel 6 w name).

(** create_lockfile (procmon.c, 2101-2151) *)
Definition create_lockfile (w : World) (p : Process) : Z * World :=
  match id p with
  | Some name =>
      let '(fd, w) := sys_creat w (lockfile_path name) in
      if negb (fd =? -1) then
        let ldata := mkLockData (pid p) 0 1 (time w) in
        let '(n, w) := write_ldata w fd ldata in
        if n =? sizeof_LockData then
          match exec p with
          | Some e => (fd, snd (write_exec w fd e))
          | None => (fd, w)
          end
        else (fd, w)
      else (fd, w)
  | None => (-1, w)
  end.

(** remove_lockfile (procmon.c, 2613-2632) *)
Definition remove_lockfile (w : World) (name : option string) : Z * World :=
  match name with
  | Some n =>
      let '(rc, w) := sys_unlink w (lockfile_path n) in
      if rc =? -1 then (errno w, w) else (EOK, w)
  | None => (EINVAL, w)
  end.

(** get_pid_from_lockfile (procmon.c, 2217-2262).  [ldata] is not
    initialised: when the open fails the tests on [ldata.terminate] read
    whatever the stack holds, which in the code is what earlier calls left
    there.  [stack_ldata] stands for that value at the time of the call;
    how it comes about is not followed, so that a result which depends on
    it is known only for the worlds that fix it. *)
Definition get_pid_from_lockfile (w : World) (name : option string)
  : Z * World :=
  match name with
  | Some n =>
      let pid := 0 in
      let ldata := stack_ldata w in
      let '(fd, w) := sys_open w (lockfile_path n) in
      let '(ldata, pid, w) :=
        if negb (fd =? -1) then
          let ldata := fst (read_ldata w fd ldata) in
          (ldata, ld_pid ldata, sys_close w fd)
        else (ldata, pid, w) in
      let pid := if ld_terminate ldata =? 0xDEADBEEF then -1 else pid in
      let pid := if ld_terminate ldata =? 0xDEAFBABE then -2 else pid in
      if 0 <? pid then
        let '(rc, w) := sys_kill w pid 0 in
        if rc =? -1 then
          if errno w =? ESRCH then (0, w) else (pid, w)
        else (pid, w)
      else (pid, w)
  | None => (0, w)
  end.

(** ResetStartTime (procmon.c, 2557-2595) *)
Definition ResetStartTime (w : World) (fd : Z) : Z * World :=
  if negb (fd =? -1) then
    let '(n, w) := write_starttime w fd (time w) in
    if negb (n =? 8) then (errno w, w) else (EOK, w)
  else (EINVAL, w).

(** start (procmon.c, 2285-2330) *)
Definition start (w : World) (name : option string) : Z * World :=
  match name with
  | Some _ =>
      let '(fd, w) := open_lockfile w name in
      if negb (fd =? -1) then
        let '(n, w) := write_terminate w fd 0 in
        let result := if n =? 4 then EOK else errno w in
        (result, sys_close w fd)
      else (errno w, w)
  | None => (EINVAL, w)
  end.

(** restart (procmon.c, 2349-2387) *)
Definition restart (w : World) (name : option string) : Z * World :=
  match name with
  | Some _ =>
      let '(fd, w) := open_lockfile w name in
      if negb (fd =? -1) then
        let ldata := fst (read_ldata w fd (stack_ldata w)) in
        let pid := ld_pid ldata in
        let w := sys_close w fd in
        let '(result, w) := sys_kill w pid SIGKILL in
        if negb (result =? EOK) then (errno w, w) else (result, w)
      else (errno w, w)
  | None => (EINVAL, w)
  end.

(** terminate_command (procmon.c, 2477-2538) *)
Definition terminate_command (w : World) (name : option string) (cmd : Z)
  : Z * World :=
  match name with
  | Some _ =>
      let '(fd, w) := open_lockfile w name in
      if negb (fd =? -1) then
        let ldata := fst (read_ldata w fd (stack_ldata w)) in
        let pid := ld_pid ldata in
        let '(_, w) := ResetStartTime w fd in
        let '(n, w) := write_terminate w fd cmd in
        let '(result, w) :=
          if n =? 4 then
            let '(result, w) := sys_kill w pid SIGKILL in
            if negb (result =? EOK) then (errno w, w) else (result, w)
          else (errno w, w) in
        (result, sys_close w fd)
      else (errno w, w)
  | None => (EINVAL, w)
  end.

(** terminate_and_stop_monitoring (procmon.c, 2414-2417) *)
Definition terminate_and_stop_monitoring (w : World) (name : option string)
  : Z * World :=
  terminate_command w name 0xDEAFBABE.

(** terminate (procmon.c, 2441-2444) *)
Definition terminate (w : World) (name : option string) : Z * World :=
  terminate_command w name 0xDEADBEEF.

(** ** Advisory locks *)

Definition F_UNLCK : Z := 2.
Definition F_SETLK : Z := 6.
Definition F_SETLKW : Z := 7.
Definition EDEADLK : Z := 35.
Definition ENOTSUP : Z := 95.

(** lock (procmon.c, 2022-2053).  [None] while the call blocks. *)
Definition lock (w : World) (fd : Z) (cmd : Z) : option Z * World :=
  if negb (fd =? -1) then
    if (cmd =? F_SETLKW) || (cmd =? F_SETLK) || (cmd =? F_UNLCK) then
      (fcntl_lock E w fd cmd, log (EvFcntl fd cmd) w)
    else (Some ENOTSUP, w)
  else (Some EINVAL, w).

(** waitlock (procmon.c, 1989-1992) *)
Definition waitlock (w : World) (fd : Z) : option Z * World :=
  lock w fd F_SETLKW.

(** unlock (procmon.c, 2076-2079) *)
Definition unlock (w : World) (fd : Z) : option Z * World :=
  lock w fd F_UNLCK.

(** makelock (procmon.c, 1897-1964) *)
Definition makelock (w : World) (p : Process) : option Z * World :=
  let rc := EOK in
  let ldata := mkLockData 0 0 0 0 in
  let '(fd, w) := open_lockfile w (id p) in
  let '(fd, rc, w) :=
    if fd =? -1 then
      let '(fd, w) := create_lockfile w p in (fd, rc, w)
    else
      let '(ldata, n) := read_ldata w fd ldata in
      if n =? sizeof_LockData then
        let ldata := mkLockData (pid p) (ld_terminate ldata)
                       (CInt.to_size_t (ld_runcount ldata + 1)) (time w) in
        let '(n, w) := write_ldata w fd ldata in
        if negb (n =? sizeof_LockData) then (fd, errno w, w) else (fd, rc, w)
      else (fd, rc, w) in
  if rc =? EOK then lock w fd F_SETLK else (Some rc, w).

(** ** Start engine *)

(** GetParentRuncount (procmon.c, 1780-1805): the body of the loop over
    the parent list, then the function. *)
Definition GetParentRuncount_step (w : World) (runcount_ : Z) (pNode : handle)
  : Z :=
  match procs w !! pNode with
  | Some pParent =>
      if runcount pParent >? runcount_ then runcount pParent else runcount_
  | None => runcount_
  end.

Definition GetParentRuncount (w : World) (h : handle) : Z :=
  match procs w !! h with
  | Some p => foldl (GetParentRuncount_step w) 0 (pParents p)
  | None => 0
  end.

(** Runnable (procmon.c, 1292-1319): the scan of the parent list. *)
Fixpoint Runnable_scan (w : World) (nodes : list handle) : Z :=
  match nodes with
  | [] => EOK
  | node :: rest =>
      match procs w !! node with
      | Some q =>
          if decide (state q = PROCSTATE_eRUNNING) then Runnable_scan w rest
          else EAGAIN
      | None => Runnable_scan w rest
      end
  end.

Definition Runnable (w : World) (h : handle) : Z :=
  match procs w !! h with
  | Some p => Runnable_scan w (pParents p)
  | None => EINVAL
  end.

(** InitProcess (procmon.c, 1416-1439).  A thread that is created starts
    MonitorThread on the descriptor; it is entered in [threads]. *)
Definition InitProcess (w : World) (h : handle) : Z * World :=
  match procs w !! h with
  | Some _ =>
      let result := pthread_create_rc E w h in
      let w := log (EvPthreadCreate h result) w in
      if result =? EOK then
        let tid := length (threads w) in
        let w := set_threads (threads w ++ [h]) w in
        let w := update h (set_thread (Some tid)) w in
        (result, update h (set_state PROCSTATE_eSTARTED) w)
      else (result, w)
  | None => (EINVAL, w)
  end.

(** WaitProcess (procmon.c, 1376-1396) *)
Definition WaitProcess (w : World) (h : handle) : World :=
  match procs w !! h with
  | Some p =>
      if wait p >? 0 then
        let '(pid_, w) := get_pid_from_lockfile w (id p) in
        if pid_ =? 0 then
          if monitored p || (runcount p <? GetParentRuncount w h) then
            let w := update h (set_state PROCSTATE_eWAITING) w in
            sleep (wait p) w
          else w
        else w
      else w
  | None => w
  end.

(** Run (procmon.c, 1338-1356) *)
Definition Run (w : World) (h : handle) : Z * World :=
  match procs w !! h with
  | Some p =>
      let w :=
        if negb (skip p) then
          let '(_, w) := InitProcess w h in
          WaitProcess w h
        else w in
      (EOK, update h (set_state PROCSTATE_eRUNNING) w)
  | None => (EINVAL, w)
  end.

(** [Run] on those descriptors of [nodes] that have [skip] set, in the
    order of the list. *)
Definition Run_skipped (w : World) (nodes : list handle) : World :=
  foldl (fun w node =>
           match procs w !! node with
           | Some q => if skip q then snd (Run w node) else w
           | None => w
           end) w nodes.

(** RunProcesses (procmon.c, 1240-1271): one pass of the inner loop over
    the process list, then the outer [while (running == false)] on fuel;
    [result] is never assigned after its initialisation. *)
Fixpoint RunProcesses_sweep (nodes : list handle) (running : bool) (w : World)
  : bool * World :=
  match nodes with
  | [] => (running, w)
  | pProcess :: rest =>
      if Runnable w pProcess =? EOK then
        let '(_, w) := Run w pProcess in
        RunProcesses_sweep rest running w
      else RunProcesses_sweep rest false w
  end.

Fixpoint RunProcesses_loop (fuel : nat) (running : bool) (w : World)
  : option World :=
  if running then Some w
  else
    match fuel with
    | O => None
    | S fuel =>
        let '(running, w) := RunProcesses_sweep (pFirst w) true w in
        RunProcesses_loop fuel running w
    end.

Definition RunProcesses (fuel : nat) (w : World) : option (Z * World) :=
  let result := EINVAL in
  w ← RunProcesses_loop fuel false w;
  Some (result, w).

(** ** Dependent restart *)

(** RestartDependent (procmon.c, 1734-1763) *)
Definition RestartDependent (w : World) (h : handle) (wait_ : Z) : Z * World :=
  match procs w !! h with
  | Some p =>
      if restart_on_parent_death p && negb (skip p)
         && negb (bool_decide (state p = PROCSTATE_eINIT)) then
        let w := update h (set_restart_delay wait_) w in
        if monitored p then restart w (id p)
        else InitProcess w h
      else (EOK, w)
  | None => (EINVAL, w)
  end.

(** RestartDependents (procmon.c, 1680-1706) *)
Fixpoint RestartDependents_loop (h : handle) (nodes : list handle)
    (result : Z) (w : World) : Z * World :=
  match nodes with
  | [] => (result, w)
  | node :: rest =>
      let wait_ := from_option wait 0 (procs w !! h) in
      let '(rc, w) := RestartDependent w node wait_ in
      let result := if negb (rc =? EOK) then EOK else result in
      RestartDependents_loop h rest result w
  end.

Definition RestartDependents (w : World) (h : handle) : Z * World :=
  match procs w !! h with
  | Some p => RestartDependents_loop h (pChildren p) EOK w
  | None => (EINVAL, w)
  end.

(** ** Per-process monitor *)

Definition ECHILD : Z := 10.

(** RunProcess (procmon.c, 1461-1520), in the child.  [None]: execvp
    replaced the process image and the function does not return. *)
Definition RunProcess (w : World) (h : handle) : option Z * World :=
  match procs w !! h with
  | Some p =>
      let w :=
        if monitored p then
          let w := update h (set_pid (self w)) w in
          snd (makelock w (set_pid (self w) p))
        else w in
      if execvp_ok E w h then (None, w) else (Some (errno w), w)
  | None => (Some EINVAL, w)
  end.

(** [fork ()].  To the parent the kernel returns the pid of the child, or
    -1; the child works on a copy of the memory of the parent, and of what
    it does only the files and the process table are seen by the parent.
    The child is taken to run up to its execvp before the parent goes on;
    a child whose thread function returns is a process that ends.  A
    result of 0 is the view of the child, which goes on in the same code. *)
Definition sys_fork (w : World) (h : handle) : Z * World :=
  let rc := fork_rc E w in
  let w := log (EvFork rc) w in
  if 0 <? rc then
    let w := set_ptab (<[rc := true]> (ptab w)) w in
    let '(r, wc) := RunProcess (set_self rc w) h in
    let wc := match r with
              | None => wc
              | Some _ => set_ptab (delete rc (ptab wc)) wc
              end in
    (rc, set_children (rc :: children w)
           (set_clock (clock wc) (set_ptab (ptab wc) (set_fs (fs wc) w))))
  else (rc, w).

(** [waitpid (pid, &wstatus, 0)]: [None] while the child lives. *)
Definition sys_waitpid (w : World) (pid_ : Z) : option World :=
  if bool_decide (pid_ ∈ children w) then
    match ptab w !! pid_ with
    | Some _ => None
    | None =>
        Some (log (EvWaitpid pid_)
                (set_children (filter (fun c => c ≠ pid_) (children w)) w))
    end
  else Some (log (EvWaitpid pid_) (set_errno ECHILD w)).

(** MonitorThread (procmon.c, 1540-1656) as a machine: the places at which
    the thread can be found, and the step from each to the next.  The
    blocking calls are the places [PcMonitor] (waitlock, inside Monitor,
    procmon.c 1829-1878) and [PcWaitpid], [PcWaitpidOnce] (waitpid). *)
Inductive Pc :=
| PcEntry                       (* created, MonitorThread not yet entered *)
| PcLoop                        (* at [while (run)], with run = true *)
| PcMonitor (pid_ : Z) (fd : Z) (* monitored: in Monitor, at waitlock (fd) *)
| PcWaitpid (pid_ : Z)          (* monitored: at waitpid *)
| PcWaitpidOnce (pid_ : Z)      (* not monitored: at waitpid *)
| PcExec                        (* the child after execvp: no thread is left *)
| PcReturn.                     (* return NULL *)

(** Monitor (procmon.c, 1829-1878) up to its loop: the descriptor on which
    it will wait, -1 when it returns at once. *)
Definition Monitor_open (w : World) (name : option string) (fd : Z)
  : Z * World :=
  match name with
  | Some _ => if fd =? -1 then open_lockfile w name else (fd, w)
  | None => (-1, w)
  end.

(** The parent after the fork, or with the pid of a process found alive. *)
Definition MonitorThread_parent (w : World) (h : handle) (pid_ : Z)
  : World * Pc :=
  match procs w !! h with
  | Some p =>
      if monitored p then
        let '(_, w) := RestartDependents w h in
        let w := usleep 500000 w in
        let '(fd, w) := Monitor_open w (id p) (-1) in
        if negb (fd =? -1) then (w, PcMonitor pid_ fd)
        else (w, PcWaitpid pid_)
      else (w, PcWaitpidOnce pid_)
  | None => (w, PcReturn)
  end.

Definition MonitorThread_step (w : World) (h : handle) (pc : Pc)
  : option (World * Pc) :=
  match pc with
  | PcEntry =>
      match procs w !! h with
      | Some p =>
          if negb (monitored p) && (runcount p >=? GetParentRuncount w h)
          then Some (w, PcReturn)
          else Some (w, PcLoop)
      | None => Some (w, PcReturn)
      end
  | PcLoop =>
      match procs w !! h with
      | Some p =>
          let '(pid_, w) := get_pid_from_lockfile w (id p) in
          if pid_ =? -2 then
            let '(_, w) := remove_lockfile w (id p) in
            Some (w, PcReturn)
          else if pid_ =? -1 then
            Some (sleep 1 w, PcLoop)
          else
            let '(pid_, w) :=
              if pid_ =? 0 then
                let w :=
                  update h
                    (fun p => set_runcount (CInt.to_size_t (runcount p + 1)) p)
                    w in
                let w := if negb (restart_delay p =? 0)
                         then sleep (CInt.to_uint (restart_delay p)) w
                         else w in
                sys_fork w h
              else (pid_, w) in
            if pid_ =? 0 then
              match RunProcess w h with
              | (None, w) => Some (w, PcExec)
              | (Some _, w) => Some (w, PcReturn)
              end
            else Some (MonitorThread_parent w h pid_)
      | None => Some (w, PcReturn)
      end
  | PcMonitor pid_ fd =>
      match waitlock w fd with
      | (None, _) => None
      | (Some rc, w) =>
          if rc =? EOK then
            let '(_, w) := unlock w fd in
            Some (sys_close w fd, PcWaitpid pid_)
          else if rc =? EDEADLK then Some (sleep 1 w, PcMonitor pid_ fd)
          else Some (w, PcWaitpid pid_)
      end
  | PcWaitpid pid_ =>
      w ← sys_waitpid w pid_; Some (w, PcLoop)
  | PcWaitpidOnce pid_ =>
      w ← sys_waitpid w pid_;
      let '(_, w) := RestartDependents w h in
      Some (w, PcReturn)
  | PcExec => None
  | PcReturn => None
  end.

(** The thread run until it blocks, ends, or the fuel is spent. *)
Fixpoint MonitorThread (fuel : nat) (w : World) (h : handle) (pc : Pc)
  : World * Pc :=
  match fuel with
  | O => (w, pc)
  | S fuel =>
      match MonitorThread_step w h pc with
      | Some (w, pc) => MonitorThread fuel w h pc
      | None => (w, pc)
      end
  end.

(** ** CLI control plane: the Since column

    GetProcessTime (procmon.c, 2848-2894).

    [runtime] is a [long]; [days], [hours], [mins] and [secs] are [int]s, so
    every assignment to them converts to [int], and the products
    [mins * 60], [hours * 3600], [days * 86400] are [int] products.  The
    buffer is [None] for a NULL pointer. *)

Definition GetProcessTime (runtime : Z) (buf : option string) (len : Z)
  : Z * option string :=
  match buf with
  | None => (EINVAL, None)
  | Some b =>
      let text :=
        if runtime <? 60 then
          Fmt.d runtime +:+ "s"
        else if runtime <? 3600 then
          let mins := CInt.to_int (runtime ÷ 60) in
          let runtime := CInt.to_long (runtime - CInt.to_int (mins * 60)) in
          let secs := CInt.to_int runtime in
          Fmt.d mins +:+ "m" +:+ Fmt.d02 secs +:+ "s"
        else if runtime <? 86400 then
          let hours := CInt.to_int (runtime ÷ 3600) in
          let runtime := CInt.to_long (runtime - CInt.to_int (hours * 3600)) in
          let mins := CInt.to_int (runtime ÷ 60) in
          let runtime := CInt.to_long (runtime - CInt.to_int (mins * 60)) in
          let secs := CInt.to_int runtime in
          Fmt.d hours +:+ "h" +:+ Fmt.d02 mins +:+ "m" +:+ Fmt.d02 secs +:+ "s"
        else
          let days := CInt.to_int (runtime ÷ 86400) in
          let runtime := CInt.to_long (runtime - CInt.to_int (days * 86400)) in
          let hours := CInt.to_int (runtime ÷ 3600) in
          let runtime := CInt.to_long (runtime - CInt.to_int (hours * 3600)) in
          let mins := CInt.to_int (runtime ÷ 60) in
          let runtime := CInt.to_long (runtime - CInt.to_int (mins * 60)) in
          let secs := CInt.to_int runtime in
          Fmt.d days +:+ "d" +:+ Fmt.d02 hours +:+ "h" +:+ Fmt.d02 mins +:+ "m"
            +:+ Fmt.d02 secs +:+ "s"
      in (EOK, Some (Fmt.snprintf b len text))
  end.

(** The rendering the specification describes: the euclidean decomposition
    of the number of seconds into days, hours, minutes and seconds, with
    the leading fields dropped while they are zero. *)
Definition since_spec (t : Z) : string :=
  let dd := t / 86400 in
  let hh := (t / 3600) mod 24 in
  let mm := (t / 60) mod 60 in
  let ss := t mod 60 in
  if t <? 60 then Fmt.d ss +:+ "s"
  else if t <? 3600 then Fmt.d mm +:+ "m" +:+ Fmt.d02 ss +:+ "s"
  else if t <? 86400 then
    Fmt.d hh +:+ "h" +:+ Fmt.d02 mm +:+ "m" +:+ Fmt.d02 ss +:+ "s"
  else
    Fmt.d dd +:+ "d" +:+ Fmt.d02 hh +:+ "h" +:+ Fmt.d02 mm +:+ "m"
      +:+ Fmt.d02 ss +:+ "s".

(** The first runtime at which [days * 86400] no longer fits an [int]:
    24856 days. *)
Definition since_overflow : Z := 24856 * 86400.

(** ** CLI control plane: shutdown *)

(** The names [readdir] returns for [dir]: the files directly in it. *)
Definition string_drop (n : nat) (s : string) : string :=
  String.substring n (String.length s - n) s.

Definition has_slash (s : string) : bool :=
  match String.index 0 "/" s with Some _ => true | None => false end.

Definition readdir (w : World) (dir : string) : list string :=
  omap (fun path =>
          if String.prefix (dir +:+ "/") path then
            let d_name := string_drop (String.length dir + 1) path in
            if has_slash d_name then None else Some d_name
          else None)
       (map_to_list (fs w)).*1.

(** ShutdownAllProcesses (procmon.c, 2913-2977): the loop over the
    directory entries. *)
Fixpoint ShutdownAllProcesses_loop (entries : list string) (result : Z)
    (w : World) : Z * World :=
  match entries with
  | [] => (result, w)
  | d_name :: rest =>
      if String.prefix "procmon." d_name then
        let pName := string_drop 8 d_name in
        if negb (String.prefix "procmon" pName) then
          let '(rc, w) := terminate_and_stop_monitoring w (Some pName) in
          if negb (rc =? EOK) then
            let '(_, w) := remove_lockfile w (Some pName) in
            ShutdownAllProcesses_loop rest rc w
          else ShutdownAllProcesses_loop rest result w
        else ShutdownAllProcesses_loop rest result w
      else ShutdownAllProcesses_loop rest result w
  end.

Definition ShutdownAllProcesses (w : World) : Z * World :=
  let result := EOK in
  let '(result, w) := ShutdownAllProcesses_loop (readdir w "/tmp") result w in
  let w := sleep 1 w in
  let '(_, w) := terminate_and_stop_monitoring w (Some "procmon1") in
  let '(_, w) := terminate_and_stop_monitoring w (Some "procmon1") in
  let w := sleep 1 w in
  let '(_, w) := remove_lockfile w (Some "procmon1") in
  let '(_, w) := remove_lockfile w (Some "procmon2") in
  (result, w).

(** ** Configuration *)

(** An element of the "processes" array, as the JSON accessors return it;
    [cfg_wait] is the value of [atoi] on the "wait" string. *)
Record ProcessConfig := mkProcessConfig {
  cfg_id : option string;
  cfg_exec : option string;
  cfg_wait : Z;
  cfg_monitored : bool;
  cfg_verbose : bool;
  cfg_skip : bool;
  cfg_restart_on_parent_death : bool;
  cfg_depends : list string
}.

(** SetupProcess (procmon.c, 659-723) *)
Definition SetupProcess (w : World) (c : ProcessConfig) : Z * World :=
  let p := mkProcess (cfg_id c) PROCSTATE_eINIT (cfg_exec c) (cfg_wait c) 0
             (cfg_restart_on_parent_death c) (cfg_monitored c) (cfg_verbose c)
             (cfg_skip c) 0 0 None (cfg_depends c) [] [] in
  let h := length (procs w) in
  (EOK, set_pFirst (pFirst w ++ [h]) (set_procs (procs w ++ [p]) w)).

(** FindProcess (procmon.c, 747-776) *)
Fixpoint FindProcess_scan (w : World) (name : string) (nodes : list handle)
  : option handle :=
  match nodes with
  | [] => None
  | node :: rest =>
      match procs w !! node with
      | Some p =>
          match id p with
          | Some i => if String.eqb name i then Some node
                      else FindProcess_scan w name rest
          | None => FindProcess_scan w name rest
          end
      | None => FindProcess_scan w name rest
      end
  end.

Definition FindProcess (w : World) (name : option string) : option handle :=
  match name with
  | Some n => FindProcess_scan w n (pFirst w)
  | None => None
  end.

(** AddChild (procmon.c, 925-954) *)
Definition AddChild (w : World) (pParent pChild : handle) : Z * World :=
  match procs w !! pParent, procs w !! pChild with
  | Some p, Some _ =>
      if negb (pParent =? pChild)%nat then
        (EOK, update pParent (set_pChildren (pChild :: pChildren p)) w)
      else (EINVAL, w)
  | _, _ => (EINVAL, w)
  end.

(** AddParent (procmon.c, 978-1007) *)
Definition AddParent (w : World) (pChild pParent : handle) : Z * World :=
  match procs w !! pParent, procs w !! pChild with
  | Some _, Some c =>
      if negb (pParent =? pChild)%nat then
        let w := update pChild (set_pParents (pParent :: pParents c)) w in
        AddChild w pParent pChild
      else (EINVAL, w)
  | _, _ => (EINVAL, w)
  end.

(** AddParents (procmon.c, 851-901) *)
Fixpoint AddParents_loop (h : handle) (names : list string) (result : Z)
    (w : World) : Z * World :=
  match names with
  | [] => (result, w)
  | name :: rest =>
      match FindProcess w (Some name) with
      | Some p =>
          let '(rc, w) := AddParent w h p in
          AddParents_loop h rest (if negb (rc =? EOK) then rc else result) w
      | None => (ENOENT, w)
      end
  end.

Definition AddParents (w : World) (h : handle) : Z * World :=
  match procs w !! h with
  | Some p => AddParents_loop h (pDepends p) EOK w
  | None => (EINVAL, w)
  end.

(** BuildDependencyLists (procmon.c, 799-828) *)
Definition BuildDependencyLists (w : World) : Z * World :=
  foldl (fun '(result, w) h =>
           let '(rc, w) := AddParents w h in
           (if negb (rc =? EOK) then rc else result, w))
        (EOK, w) (pFirst w).

(** ProcessConfigFile (procmon.c, 607-629), from the parsed "processes"
    array on; DisplayConfig only prints. *)
Definition ProcessConfigFile (fuel : nat) (w : World)
    (processes : list ProcessConfig) : option (Z * World) :=
  let w := foldl (fun w c => snd (SetupProcess w c)) w processes in
  let '(rc, w) := BuildDependencyLists w in
  if rc =? EOK then
    '(_, w) ← RunProcesses fuel w;
    Some (EOK, w)
  else Some (EINVAL, w).

End Procmon.

(** ** Observing the calls

    [emits P w w']: the calls recorded in [w'] are those recorded in [w]
    followed by calls that all satisfy [P]. *)
Definition emits (P : Event -> Prop) (w w' : World) : Prop :=
  exists evs, trace w' = trace w ++ evs /\ Forall P evs.

(** ** Scenarios

    The worlds on which the program is run below. *)

Module Scenario.

(** A quiet system: nobody else runs while the caller sleeps, threads and
    processes can be created, execvp succeeds, a blocking lock request
    stays blocked and the other lock requests succeed, and no process
    group answers to kill. *)
Definition env : Env :=
  mkEnv (fun w => w)
        (fun _ _ => EOK)
        (fun w => 100 + Z.of_nat (size (ptab w)))
        (fun _ _ => true)
        (fun _ _ cmd => if cmd =? F_SETLKW then None else Some EOK)
        (fun w _ _ => ((-1, ESRCH), w)).

(** The supervisor before it reads its configuration: pid 1, no file in
    /tmp, an uninitialised LockData that reads as zeros. *)
Definition boot : World :=
  mkWorld [] [] ∅ [] ∅ [] 1 0 0 (mkLockData 0 0 0 0) [] [].

Definition service (name : string) (depends : list string) : ProcessConfig :=
  mkProcessConfig (Some name) (Some "/bin/sleep 3600") 0 true false false false
                  depends.

(** Two monitored services, B depending on A, with B declared first. *)
Definition child_first : list ProcessConfig :=
  [service "B" ["A"]; service "A" []].

Definition B : handle := 0%nat.
Definition A : handle := 1%nat.

(** [child_first] loaded, the dependency lists built, nothing started. *)
Definition loaded : World :=
  snd (BuildDependencyLists
         (foldl (fun w c => snd (SetupProcess w c)) boot child_first)).

(** The shell from which [procmon -x] is run: the two supervisors (pids 10
    and 11) and one service, web (pid 12), are alive and have their
    lockfiles. *)
Definition lockfile_of (pid_ : Z) (cmdline : string) : File :=
  mkFile (mkLockData pid_ 0 1 1700000000) cmdline.

Definition at_shutdown : World :=
  mkWorld [] []
    (<["/tmp/procmon.procmon1" := lockfile_of 10 "procmon -F cfg.json"]>
       (<["/tmp/procmon.procmon2" := lockfile_of 11 "procmon -f cfg.json"]>
          (<["/tmp/procmon.web" := lockfile_of 12 "/usr/bin/web"]> ∅)))
    [] (<[10 := true]> (<[11 := true]> (<[12 := true]> ∅))) [] 50
    1700000100000000 0 (mkLockData 0 0 0 0) [] [].


(** A lockfile for web whose record holds -1 where the pid should be, and
    no command. *)
Definition stray : World :=
  mkWorld [] [] (<["/tmp/procmon.web" := lockfile_of (-1) "/usr/bin/web"]> ∅)
    [] ∅ [] 50 1700000100000000 0 (mkLockData 0 0 0 0) [] [].

(** A name of 243 characters: its path has 256, one more than
    [char lockfile[256]] holds before the terminating NUL. *)
Definition long_name : string :=
  Nat.iter 243 (String.append "x") EmptyString.


(** A supervisor whose descriptors P (monitored) and Q (run to exit,
    depending on P) have both been run once. *)
Definition one_shot_done : World :=
  mkWorld
    [mkProcess (Some "P") PROCSTATE_eRUNNING (Some "/bin/p") 0 0 false true
               false false 0 1 (Some 0%nat) [] [] [1%nat];
     mkProcess (Some "Q") PROCSTATE_eRUNNING (Some "/bin/q") 0 0 true false
               false false 0 1 (Some 1%nat) ["P"] [0%nat] []]
    [0%nat; 1%nat] ∅ [] ∅ [] 1 0 0 (mkLockData 0 0 0 0) [0%nat; 1%nat] [].

(** A supervisor with a skipped descriptor S and a service T that depends
    on it, nothing started. *)
Definition skipped_parent : World :=
  mkWorld
    [mkProcess (Some "S") PROCSTATE_eINIT (Some "/bin/s") 3 0 false true
               false true 0 0 None [] [] [1%nat];
     mkProcess (Some "T") PROCSTATE_eINIT (Some "/bin/t") 0 0 false true
               false false 0 0 None ["S"] [0%nat] []]
    [0%nat; 1%nat] ∅ [] ∅ [] 1 0 0 (mkLockData 0 0 0 0) [] [].

End Scenario.

(** ** The two supervisors

    The fields of ProcmonState that ProcessOptions sets from the command
    line; main goes on only when [configFile] is not NULL. *)
Record ProcmonState := mkProcmonState {
  ps_verbose : bool;
  argv0 : string;
  configFile : string;
  primary : bool
}.

(** stdio.h (glibc) *)
Definition BUFSIZ : Z := 8192.

(** The command line built in [cmd]: "%s -v %s %s" or "%s %s %s" of
    argv0, [fileArg] and the configuration file. *)
Definition procmon_cmd (ps : ProcmonState) (fileArg : string) : string :=
  Fmt.snprintf "" BUFSIZ
    (argv0 ps +:+ (if ps_verbose ps then " -v " else " ") +:+ fileArg
     +:+ " " +:+ configFile ps).

(** MakeOwnLock (procmon.c, 3058-3104).  The descriptor comes from calloc:
    the fields that are not assigned are zero.  calloc and strdup are taken
    to succeed. *)
Definition MakeOwnLock (E : Env) (w : World) (ps : ProcmonState)
  : option Z * World :=
  let p :=
    mkProcess (Some (if primary ps then "procmon1" else "procmon2"))
      PROCSTATE_eINIT
      (Some (procmon_cmd ps (if primary ps then "-F" else "-f")))
      0 0 false false (ps_verbose ps) false (self w) 0 None [] [] [] in
  makelock E w p.

(** MonitorProcmon (procmon.c, 2997-3035).  The descriptor is kept in
    pMonitoredProcess: it is in the arena and not in the process list. *)
Definition MonitorProcmon (E : Env) (w : World) (ps : ProcmonState)
  : Z * World :=
  let p :=
    mkProcess (Some (if primary ps then "procmon2" else "procmon1"))
      PROCSTATE_eINIT
      (Some (procmon_cmd ps (if primary ps then "-f" else "-F")))
      0 0 false true (ps_verbose ps) false 0 0 None [] [] [] in
  let h := length (procs w) in
  InitProcess E (set_procs (procs w ++ [p]) w) h.

(** The state of the supervisor of the other role, started by this one:
    same program, same configuration file, same verbosity. *)
Definition peer_of (ps : ProcmonState) : ProcmonState :=
  mkProcmonState (ps_verbose ps) (argv0 ps) (configFile ps)
                 (negb (primary ps)).

(** ** Assumptions on the rest of the system *)

(** The others never create [path]: a file that is missing stays so over
    a sleep of the caller. *)
Definition never_creates (E : Env) (path : string) : Prop :=
  forall w, fs w !! path = None -> fs (yield E w) !! path = None.

(** The others leave the files and the process table alone. *)
Definition left_alone (E : Env) : Prop :=
  forall w, fs (yield E w) = fs w /\ ptab (yield E w) = ptab w.

(** Every file holds the pid of a process: a positive number. *)
Definition holds_pids (w : World) : Prop :=
  map_Forall (fun _ g => 0 < ld_pid (f_ldata g)) (fs w).

(** The lockfile [path] is there and holds [pid_]. *)
Definition pending (w : World) (path : string) (pid_ : Z) : Prop :=
  exists g, fs w !! path = Some g /\ ld_pid (f_ldata g) = pid_.

(** The lockfile [path] is removed, or it holds [pid_] and the command to
    stop monitoring for good; [pid_] is not the pid of a process the caller
    may signal. *)
Definition stopped (w : World) (path : string) (pid_ : Z) : Prop :=
  match fs w !! path with
  | Some g => ld_terminate (f_ldata g) = ABORT /\ ld_pid (f_ldata g) = pid_
  | None => True
  end /\
  ptab w !! pid_ ≠ Some true.

(** [start_frame h w w']: the process list is the same in both worlds, and
    so are the state, the skip flag and the parent list of every
    descriptor, the state of the descriptor behind [h] excepted. *)
Definition masked (h : option handle) (n : handle) (p : Process)
  : ProcState * bool * list handle :=
  (if decide (h = Some n) then PROCSTATE_eINIT else state p,
   skip p, pParents p).

Definition start_frame (h : option handle) (w w' : World) : Prop :=
  pFirst w' = pFirst w /\
  forall n, masked h n <$> procs w' !! n = masked h n <$> procs w !! n.

(** The others leave the process list and, of every descriptor, the
    state, the skip flag and the parent list as they are. *)
Definition steady (E : Env) : Prop :=
  forall w, start_frame None w (yield E w).

(** Every descriptor in [S] is short of RUNNING and has a parent in [S]. *)
Definition stuck (S : handle -> Prop) (w : World) : Prop :=
  forall h, S h ->
    exists p, procs w !! h = Some p /\ state p ≠ PROCSTATE_eRUNNING /\
              exists n, n ∈ pParents p /\ S n.



(** ** What linking leaves alone

    [same_but_links w w']: the two worlds differ at most in the parent and
    child lists of their descriptors. *)
Definition unlinked (p : Process) : Process :=
  set_pChildren [] (set_pParents [] p).

Definition same_but_links (w w' : World) : Prop :=
  set_procs (unlinked <$> procs w') w' = set_procs (unlinked <$> procs w) w.

(** The dependencies of the descriptor behind [h] resolve: each name of
    its "depends" array is found by FindProcess, as a descriptor other
    than [h] itself. *)
Definition resolves (w : World) (h : handle) : Prop :=
  exists p, procs w !! h = Some p /\
    forall name, name ∈ pDepends p ->
      exists q, FindProcess w (Some name) = Some q /\ q ≠ h.

(** The parent list and the child list of the descriptor behind [h], and
    the descriptors its "depends" array names, in the order of the
    array. *)
Definition parents_of (w : World) (h : handle) : list handle :=
  from_option pParents [] (procs w !! h).

Definition children_of (w : World) (h : handle) : list handle :=
  from_option pChildren [] (procs w !! h).

Definition depends_of (w : World) (h : handle) : list handle :=
  omap (fun name => FindProcess w (Some name))
       (from_option pDepends [] (procs w !! h)).

(** Every link is entered at both ends: [j] is in the child list of [i]
    exactly when [i] is in the parent list of [j]. *)
Definition linked_both_ways (w : World) : Prop :=
  forall i j, j ∈ children_of w i <-> i ∈ parents_of w j.


(** ** Further scenarios *)

Module Cases.

(** A supervisor (pid 1) with one monitored service, web, whose child
    (pid 12) is alive and has its lockfile. *)
Definition web : Process :=
  mkProcess (Some "web") PROCSTATE_eRUNNING (Some "/usr/bin/web") 0 0 false
            true false false 0 1 (Some 0%nat) [] [] [].

Definition supervising : World :=
  mkWorld [web] [0%nat]
    (<["/tmp/procmon.web" := Scenario.lockfile_of 12 "/usr/bin/web"]> ∅)
    [] (<[12 := true]> ∅) [12] 1 1700000100000000 0 (mkLockData 0 0 0 0)
    [0%nat] [].

(** The same supervisor before web is first spawned: no lockfile, no
    child. *)
Definition idle : World :=
  mkWorld [web] [0%nat] ∅ [] ∅ [] 1 1700000100000000 0 (mkLockData 0 0 0 0)
    [0%nat] [].

(** The same supervisor when web has died: its lockfile is there, the
    process is not. *)
Definition crashed : World :=
  mkWorld [web] [0%nat]
    (<["/tmp/procmon.web" := Scenario.lockfile_of 12 "/usr/bin/web"]> ∅)
    [] ∅ [] 1 1700000100000000 0 (mkLockData 0 0 0 0) [0%nat] [].


(** Two services that depend on each other, loaded. *)
Definition cyclic : World :=
  snd (BuildDependencyLists
         (foldl (fun w c => snd (SetupProcess w c)) Scenario.boot
                [Scenario.service "A" ["B"]; Scenario.service "B" ["A"]])).



(** The primary supervisor as started by [procmon -F cfg.json]. *)
Definition as_primary : ProcmonState :=
  mkProcmonState false "procmon" "cfg.json" true.

End Cases.

(** * Properties *)

(** ** Machine integers and formatting *)

Lemma to_int_id z : CInt.INT_MIN <= z <= CInt.INT_MAX -> CInt.to_int z = z.
Proof.
  unfold CInt.to_int, CInt.INT_MIN, CInt.INT_MAX. intros H.
  rewrite Z.mod_small by lia. lia.
Qed.

Lemma to_long_id z : - 2 ^ 63 <= z < 2 ^ 63 -> CInt.to_long z = z.
Proof.
  unfold CInt.to_long. intros H. rewrite Z.mod_small by lia. lia.
Qed.

Lemma substring_all (s : string) (n : nat) :
  (String.length s <= n)%nat -> String.substring 0 n s = s.
Proof.
  revert n. induction s as [|c s IH]; intros n Hn.
  - by destruct n.
  - destruct n as [|n]; simpl in *; [lia|].
    rewrite IH; [done|lia].
Qed.

Lemma snprintf_fits buf len text :
  Z.of_nat (String.length text) < len -> Fmt.snprintf buf len text = text.
Proof.
  intros H. unfold Fmt.snprintf.
  destruct (Z.leb_spec len 0) as [Hle|Hgt]; [lia|].
  apply substring_all. lia.
Qed.

(** ** GetProcessTime *)

(** One round of [q = runtime / u; runtime -= (q * u)]: while the product
    fits an [int] the quotient and the remainder are the euclidean ones. *)
Lemma peel_unit t u :
  0 <= t < 2 ^ 63 -> 0 < u <= 86400 -> t / u * u <= CInt.INT_MAX ->
  CInt.to_int (t ÷ u) = t / u /\
  CInt.to_long (t - CInt.to_int (CInt.to_int (t ÷ u) * u)) = t mod u.
Proof.
  intros Ht Hu Hfit. unfold CInt.INT_MAX in Hfit.
  rewrite Z.quot_div_nonneg by lia.
  assert (Hq : 0 <= t / u) by (apply Z.div_pos; lia).
  assert (Hm : 0 <= t mod u < u) by (apply Z.mod_pos_bound; lia).
  assert (Hd : t = u * (t / u) + t mod u) by (apply Z.div_mod; lia).
  rewrite (to_int_id (t / u)) by (unfold CInt.INT_MIN, CInt.INT_MAX; nia).
  split; [done|].
  rewrite to_int_id by (unfold CInt.INT_MIN, CInt.INT_MAX; nia).
  rewrite to_long_id by nia. nia.
Qed.

Lemma since_hours t : 0 <= t -> (t mod 86400) / 3600 = (t / 3600) mod 24.
Proof. intros. Z.to_euclidean_division_equations. lia. Qed.

Lemma since_minutes t :
  0 <= t -> ((t mod 86400) mod 3600) / 60 = (t / 60) mod 60.
Proof. intros. Z.to_euclidean_division_equations. lia. Qed.

Lemma since_seconds t : 0 <= t -> ((t mod 86400) mod 3600) mod 60 = t mod 60.
Proof. intros. Z.to_euclidean_division_equations. lia. Qed.

(** C8, as the claim states it, fails: at 24856 days the [int] product
    [days * 86400] overflows and the hours, minutes and seconds printed are
    not those of the decomposition. *)
Lemma GetProcessTime_overflow :
  0 <= since_overflow /\
  GetProcessTime since_overflow (Some "") 64
    = (EOK, Some "24856d1193046h71582816m32s") /\
  since_spec since_overflow = "24856d00h00m00s" /\
  GetProcessTime since_overflow (Some "") 64
    <> (EOK, Some (since_spec since_overflow)).
Proof. vm_compute. repeat split; congruence. Qed.

(** C8 (amended): for every runtime from 0 up to, and not including,
    24856 days, and a buffer that holds the text, GetProcessTime succeeds
    and stores <d>d<hh>h<mm>m<ss>s, <h>h<mm>m<ss>s under a day, <m>m<ss>s
    under an hour and <s>s under a minute, the fields being the euclidean
    decomposition of the runtime. *)
Theorem GetProcessTime_since (t : Z) (buf : string) (len : Z) :
  0 <= t < since_overflow ->
  Z.of_nat (String.length (since_spec t)) < len ->
  GetProcessTime t (Some buf) len = (EOK, Some (since_spec t)).
Proof.
  unfold since_overflow. intros Ht Hlen.
  unfold GetProcessTime. f_equal. f_equal.
  rewrite <- (snprintf_fits buf len (since_spec t) Hlen). f_equal.
  unfold since_spec.
  destruct (Z.ltb_spec t 60) as [H60|H60].
  { by rewrite Z.mod_small by lia. }
  destruct (Z.ltb_spec t 3600) as [H3600|H3600].
  { destruct (peel_unit t 60) as [Hq Hr];
      [lia|lia|unfold CInt.INT_MAX; Z.to_euclidean_division_equations; lia|].
    cbv zeta. rewrite Hr, Hq.
    rewrite to_int_id
      by (unfold CInt.INT_MIN, CInt.INT_MAX;
          Z.to_euclidean_division_equations; lia).
    rewrite (Z.mod_small (t / 60) 60)
      by (Z.to_euclidean_division_equations; lia).
    done. }
  assert (Hs : 0 <= t mod 86400 < 86400) by (apply Z.mod_pos_bound; lia).
  assert (Hs' : 0 <= (t mod 86400) mod 3600 < 3600)
    by (apply Z.mod_pos_bound; lia).
  destruct (Z.ltb_spec t 86400) as [Hday|Hday]; cbv zeta.
  - destruct (peel_unit t 3600) as [Hq Hr];
      [lia|lia|unfold CInt.INT_MAX; Z.to_euclidean_division_equations; lia|].
    rewrite Hr, Hq.
    destruct (peel_unit (t mod 3600) 60) as [Hq' Hr'];
      [Z.to_euclidean_division_equations; lia|lia
      |unfold CInt.INT_MAX; Z.to_euclidean_division_equations; lia|].
    rewrite Hr', Hq'.
    rewrite to_int_id
      by (unfold CInt.INT_MIN, CInt.INT_MAX;
          Z.to_euclidean_division_equations; lia).
    replace (t / 3600 mod 24) with (t / 3600)
      by (Z.to_euclidean_division_equations; lia).
    replace (t mod 3600 / 60) with (t / 60 mod 60)
      by (Z.to_euclidean_division_equations; lia).
    replace ((t mod 3600) mod 60) with (t mod 60)
      by (Z.to_euclidean_division_equations; lia).
    done.
  - destruct (peel_unit t 86400) as [Hq Hr];
      [lia|lia|unfold CInt.INT_MAX; Z.to_euclidean_division_equations; lia|].
    rewrite Hr, Hq.
    destruct (peel_unit (t mod 86400) 3600) as [Hq' Hr'];
      [lia|lia|unfold CInt.INT_MAX; Z.to_euclidean_division_equations; lia|].
    rewrite Hr', Hq'.
    destruct (peel_unit ((t mod 86400) mod 3600) 60) as [Hq2 Hr2];
      [lia|lia|unfold CInt.INT_MAX; Z.to_euclidean_division_equations; lia|].
    rewrite Hr2, Hq2.
    rewrite to_int_id
      by (unfold CInt.INT_MIN, CInt.INT_MAX;
          Z.to_euclidean_division_equations; lia).
    rewrite since_hours, since_minutes, since_seconds by lia.
    done.
Qed.

(** ** Descriptors *)

Lemma lookup_update h f w n :
  procs (update h f w) !! n
  = if decide (h = n) then f <$> procs w !! n else procs w !! n.
Proof.
  unfold update; simpl. rewrite list_lookup_alter.
  repeat case_decide; subst; done.
Qed.

Lemma lookup_update_eq h f w p :
  procs w !! h = Some p -> procs (update h f w) !! h = Some (f p).
Proof. intros H. rewrite lookup_update, decide_True, H; done. Qed.

Lemma lookup_update_ne h f w n :
  h ≠ n -> procs (update h f w) !! n = procs w !! n.
Proof. intros H. by rewrite lookup_update, decide_False. Qed.

(** ** GetParentRuncount is the largest runcount among the parents *)

Lemma GetParentRuncount_fold_ge w nodes acc :
  acc <= foldl (GetParentRuncount_step w) acc nodes.
Proof.
  revert acc. induction nodes as [|n nodes IH]; intros acc; simpl; [lia|].
  etrans; [|apply IH]. unfold GetParentRuncount_step.
  destruct (procs w !! n) as [q|]; [|lia].
  destruct (Z.gtb_spec (runcount q) acc); lia.
Qed.

Lemma GetParentRuncount_fold_upper w nodes acc n q :
  n ∈ nodes -> procs w !! n = Some q ->
  runcount q <= foldl (GetParentRuncount_step w) acc nodes.
Proof.
  revert acc. induction nodes as [|m nodes IH]; intros acc Hin Hq.
  - by apply elem_of_nil in Hin.
  - apply elem_of_cons in Hin as [->|Hin]; simpl.
    + etrans; [|apply GetParentRuncount_fold_ge].
      unfold GetParentRuncount_step. rewrite Hq.
      destruct (Z.gtb_spec (runcount q) acc); lia.
    + by apply IH.
Qed.

Lemma GetParentRuncount_fold_attained w nodes acc :
  foldl (GetParentRuncount_step w) acc nodes = acc \/
  exists n q, n ∈ nodes /\ procs w !! n = Some q /\
              runcount q = foldl (GetParentRuncount_step w) acc nodes /\
              acc < runcount q.
Proof.
  revert acc. induction nodes as [|m nodes IH]; intros acc; simpl; [by left|].
  destruct (IH (GetParentRuncount_step w acc m))
    as [Heq|(n & q & Hin & Hq & Hr & Hlt)].
  - rewrite Heq. unfold GetParentRuncount_step.
    destruct (procs w !! m) as [q|] eqn:Hm; [|by left].
    destruct (Z.gtb_spec (runcount q) acc); [|by left].
    right. exists m, q. repeat split; [apply elem_of_cons; by left|done|lia].
  - right. exists n, q. repeat split; [apply elem_of_cons; by right|done..|].
    pose proof (GetParentRuncount_fold_ge w [m] acc) as Hge. simpl in Hge. lia.
Qed.

Lemma GetParentRuncount_unfold w h p :
  procs w !! h = Some p ->
  GetParentRuncount w h = foldl (GetParentRuncount_step w) 0 (pParents p).
Proof. intros H. unfold GetParentRuncount. by rewrite H. Qed.

Lemma GetParentRuncount_upper w h p n q :
  procs w !! h = Some p -> n ∈ pParents p -> procs w !! n = Some q ->
  runcount q <= GetParentRuncount w h.
Proof.
  intros Hp Hin Hq. rewrite (GetParentRuncount_unfold w h p Hp).
  by eapply GetParentRuncount_fold_upper.
Qed.

Lemma GetParentRuncount_attained w h p :
  procs w !! h = Some p ->
  GetParentRuncount w h = 0 \/
  exists n q, n ∈ pParents p /\ procs w !! n = Some q /\
              runcount q = GetParentRuncount w h.
Proof.
  intros Hp. rewrite (GetParentRuncount_unfold w h p Hp).
  destruct (GetParentRuncount_fold_attained w (pParents p) 0)
    as [H|(n & q & ? & ? & ? & ?)]; [by left|right; eauto].
Qed.

(** ** MonitorThread: the suppression of run-to-exit tasks *)

(** C5: a descriptor that is not monitored and whose runcount is at least
    the runcount of each of its parents has a monitor thread that returns
    at once, the world as it was: no lockfile opened, no process forked,
    nothing slept.  And when the thread of a descriptor that is not
    monitored does enter its loop, one of the parents has a runcount
    greater than its own. *)
Theorem MonitorThread_suppressed (E : Env) (w : World) (h : handle)
    (p : Process) :
  procs w !! h = Some p -> monitored p = false -> 0 <= runcount p ->
  ((forall n q, n ∈ pParents p -> procs w !! n = Some q ->
                runcount q <= runcount p) ->
   forall fuel, MonitorThread E (S fuel) w h PcEntry = (w, PcReturn)) /\
  (forall w', MonitorThread_step E w h PcEntry = Some (w', PcLoop) ->
     w' = w /\
     exists n q, n ∈ pParents p /\ procs w !! n = Some q /\
                 runcount p < runcount q).
Proof.
  intros Hp Hmon Hrc. split.
  - intros Hall fuel. simpl. rewrite Hp, Hmon. simpl.
    assert (Hle : GetParentRuncount w h <= runcount p).
    { destruct (GetParentRuncount_attained w h p Hp)
        as [->|(n & q & Hin & Hq & <-)]; [done|by eapply Hall]. }
    destruct (Z.geb_spec (runcount p) (GetParentRuncount w h)); [|lia].
    by destruct fuel.
  - intros w'. simpl. rewrite Hp, Hmon. simpl.
    destruct (Z.geb_spec (runcount p) (GetParentRuncount w h)) as [|Hlt];
      [done|].
    intros [= <-]. split; [done|].
    destruct (GetParentRuncount_attained w h p Hp)
      as [H0|(n & q & Hin & Hq & Hr)]; [lia|].
    exists n, q. repeat split; [done..|lia].
Qed.

(** ** Runnable *)

Lemma Runnable_scan_EOK w nodes :
  Runnable_scan w nodes = EOK <->
  (forall n q, n ∈ nodes -> procs w !! n = Some q ->
               state q = PROCSTATE_eRUNNING).
Proof.
  induction nodes as [|m nodes IH]; simpl.
  - split; [|done]. intros _ n q Hin. by apply elem_of_nil in Hin.
  - destruct (procs w !! m) as [qm|] eqn:Hm.
    + case_decide as Hst.
      * rewrite IH. split.
        -- intros H n q Hin Hq. apply elem_of_cons in Hin as [->|Hin];
             [congruence|by eapply H].
        -- intros H n q Hin Hq. eapply H; [|done]. apply elem_of_cons; by right.
      * split; [done|]. intros H. exfalso. apply Hst.
        eapply H; [|done]. apply elem_of_cons; by left.
    + rewrite IH. split.
      * intros H n q Hin Hq. apply elem_of_cons in Hin as [->|Hin];
          [congruence|by eapply H].
      * intros H n q Hin Hq. eapply H; [|done]. apply elem_of_cons; by right.
Qed.

(** What the code's predicate is: every parent RUNNING, and nothing on
    whether the descriptor itself was launched. *)
Lemma Runnable_EOK w h :
  Runnable w h = EOK <->
  exists p, procs w !! h = Some p /\
            forall n q, n ∈ pParents p -> procs w !! n = Some q ->
                        state q = PROCSTATE_eRUNNING.
Proof.
  unfold Runnable. destruct (procs w !! h) as [p|] eqn:Hp.
  - rewrite Runnable_scan_EOK. split; [eauto|]. by intros (p' & [= <-] & H).
  - split; [done|]. by intros (p' & ? & _).
Qed.

(** ** Run on a skipped descriptor *)

Lemma Run_skip_eq E w h p :
  procs w !! h = Some p -> skip p = true ->
  Run E w h = (EOK, update h (set_state PROCSTATE_eRUNNING) w).
Proof. intros Hp Hs. unfold Run. by rewrite Hp, Hs. Qed.

Lemma Run_skipped_cons E w m nodes :
  Run_skipped E w (m :: nodes)
  = Run_skipped E
      (match procs w !! m with
       | Some q => if skip q then snd (Run E w m) else w
       | None => w
       end) nodes.
Proof. done. Qed.

Lemma Run_skipped_lookup E nodes w n :
  procs (Run_skipped E w nodes) !! n
  = (fun q => if skip q && bool_decide (n ∈ nodes)
              then set_state PROCSTATE_eRUNNING q else q) <$> procs w !! n.
Proof.
  revert w. induction nodes as [|m nodes IH]; intros w.
  - simpl. destruct (procs w !! n) as [q|]; simpl; [|done].
    by rewrite andb_false_r.
  - rewrite Run_skipped_cons, IH. clear IH.
    destruct (procs w !! m) as [qm|] eqn:Hm.
    + destruct (skip qm) eqn:Hs.
      * rewrite (Run_skip_eq E w m qm Hm Hs); cbn [snd]. rewrite lookup_update.
        case_decide as Hmn.
        -- subst n. rewrite !Hm. simpl. rewrite Hs. simpl.
           rewrite ?(bool_decide_true (m ∈ m :: nodes))
             by (apply elem_of_cons; by left).
           rewrite ?Hm; simpl; rewrite ?Hs; simpl.
           by destruct (bool_decide (m ∈ nodes)).
        -- destruct (procs w !! n) as [q|]; simpl; [|done].
           rewrite (bool_decide_ext (n ∈ m :: nodes) (n ∈ nodes)); [done|].
           rewrite elem_of_cons. split; [by intros [?|?]|by right].
      * destruct (procs w !! n) as [q|] eqn:Hn; simpl; [|done].
        destruct (decide (n = m)) as [->|Hne].
        -- assert (q = qm) as -> by congruence. by rewrite Hs.
        -- rewrite (bool_decide_ext (n ∈ m :: nodes) (n ∈ nodes)); [done|].
           rewrite elem_of_cons. split; [by intros [?|?]|by right].
    + destruct (procs w !! n) as [q|] eqn:Hn; simpl; [|done].
      destruct (decide (n = m)) as [->|Hne]; [congruence|].
      rewrite (bool_decide_ext (n ∈ m :: nodes) (n ∈ nodes)); [done|].
      rewrite elem_of_cons. split; [by intros [?|?]|by right].
Qed.

Lemma Run_skipped_quiet E nodes w :
  threads (Run_skipped E w nodes) = threads w /\
  trace (Run_skipped E w nodes) = trace w /\
  clock (Run_skipped E w nodes) = clock w /\
  children (Run_skipped E w nodes) = children w.
Proof.
  revert w. induction nodes as [|m nodes IH]; intros w; [done|].
  rewrite Run_skipped_cons.
  destruct (procs w !! m) as [qm|] eqn:Hm; [|apply IH].
  destruct (skip qm) eqn:Hs; [|apply IH].
  rewrite (Run_skip_eq E w m qm Hm Hs); simpl.
  destruct (IH (update m (set_state PROCSTATE_eRUNNING) w))
    as (-> & -> & -> & ->).
  done.
Qed.

(** C9: Run on a descriptor with skip set returns EOK and changes nothing
    but the state of that descriptor, which becomes RUNNING: no thread is
    created, nothing is forked, nothing is slept.  Once Run has been applied
    to its skipped parents, a descriptor whose other parents are RUNNING is
    runnable, and still no thread exists for any of the skipped parents. *)
Theorem Run_skip (E : Env) (w : World) :
  (forall h p, procs w !! h = Some p -> skip p = true ->
     Run E w h = (EOK, update h (set_state PROCSTATE_eRUNNING) w) /\
     (state <$> procs (snd (Run E w h)) !! h) = Some PROCSTATE_eRUNNING /\
     threads (snd (Run E w h)) = threads w /\
     trace (snd (Run E w h)) = trace w /\
     children (snd (Run E w h)) = children w /\
     clock (snd (Run E w h)) = clock w) /\
  (forall c pc, procs w !! c = Some pc ->
     (forall n q, n ∈ pParents pc -> procs w !! n = Some q ->
                  skip q = true \/ state q = PROCSTATE_eRUNNING) ->
     Runnable (Run_skipped E w (pParents pc)) c = EOK /\
     threads (Run_skipped E w (pParents pc)) = threads w /\
     trace (Run_skipped E w (pParents pc)) = trace w).
Proof.
  split.
  - intros h p Hp Hs. rewrite (Run_skip_eq E w h p Hp Hs). cbn [snd].
    repeat split. by rewrite (lookup_update_eq h _ w p Hp).
  - intros c pc Hc Hpar.
    destruct (Run_skipped_quiet E (pParents pc) w) as (Hth & Htr & _).
    repeat split; [|done..].
    apply Runnable_EOK.
    pose proof (Run_skipped_lookup E (pParents pc) w c) as Hlc.
    rewrite Hc in Hlc. simpl in Hlc.
    eexists. split; [exact Hlc|].
    assert (Hpp : forall q : Process,
               pParents (if skip pc && bool_decide (c ∈ pParents pc)
                         then set_state PROCSTATE_eRUNNING pc else pc)
               = pParents pc).
    { intros _. by destruct (skip pc && bool_decide (c ∈ pParents pc)). }
    rewrite (Hpp pc). intros n q' Hin Hq'.
    rewrite Run_skipped_lookup in Hq'.
    destruct (procs w !! n) as [q|] eqn:Hq; simpl in Hq'; [|done].
    injection Hq' as <-.
    rewrite (bool_decide_true (n ∈ pParents pc)) by done.
    destruct (Hpar n q Hin Hq) as [Hs|Hst].
    + by rewrite Hs.
    + by destruct (skip q).
Qed.

(** ** RestartDependents *)



(** ** Descriptors of open files *)

Lemma fresh_fd_ne w : (3 + Z.of_nat (length (fds w)) =? -1) = false.
Proof. apply Z.eqb_neq. lia. Qed.

Lemma fd_path_fds w w' fd : fds w = fds w' -> fd_path w fd = fd_path w' fd.
Proof. unfold fd_path. by intros ->. Qed.

Lemma fd_path_fresh w v path :
  fds v = fds w ++ [Some path] ->
  fd_path v (3 + Z.of_nat (length (fds w))) = Some path.
Proof.
  intros Hv. unfold fd_path. rewrite Hv.
  destruct (Z.ltb_spec (3 + Z.of_nat (length (fds w))) 3); [lia|].
  replace (Z.to_nat (3 + Z.of_nat (length (fds w)) - 3))
    with (length (fds w)) by lia.
  by rewrite list_lookup_middle.
Qed.

Lemma sys_open_found w path f :
  fs w !! path = Some f ->
  sys_open w path
  = (3 + Z.of_nat (length (fds w)),
     log (EvOpen path (3 + Z.of_nat (length (fds w))))
       (set_fds (fds w ++ [Some path]) w)).
Proof. intros H. unfold sys_open. by rewrite H. Qed.

Lemma sys_open_missing w path :
  fs w !! path = None ->
  sys_open w path = (-1, log (EvOpen path (-1)) (set_errno ENOENT w)).
Proof. intros H. unfold sys_open. by rewrite H. Qed.

Lemma sys_close_frame w fd :
  fs (sys_close w fd) = fs w /\ ptab (sys_close w fd) = ptab w /\
  trace (sys_close w fd) = trace w /\ errno (sys_close w fd) = errno w /\
  clock (sys_close w fd) = clock w /\ procs (sys_close w fd) = procs w.
Proof. unfold sys_close. by destruct (fd <? 3). Qed.

Lemma read_ldata_open w path f ldata :
  fs w !! path = Some f ->
  read_ldata (log (EvOpen path (3 + Z.of_nat (length (fds w))))
                (set_fds (fds w ++ [Some path]) w))
             (3 + Z.of_nat (length (fds w))) ldata
  = (f_ldata f, sizeof_LockData).
Proof.
  intros Hf. unfold read_ldata, fd_file.
  rewrite (fd_path_fresh w _ path) by done. simpl. by rewrite Hf.
Qed.

Lemma write_file_open w v path f len upd :
  fds v = fds w ++ [Some path] -> fs v !! path = Some f ->
  write_file v (3 + Z.of_nat (length (fds w))) len upd
  = (len, set_fs (<[path := upd f]> (fs v)) v).
Proof.
  intros Hfd Hf. unfold write_file.
  by rewrite (fd_path_fresh w v path Hfd), Hf.
Qed.

(** ** open_lockfile *)

Lemma open_lockfile_loop_S E fuel path tries fd w :
  open_lockfile_loop E (S fuel) path tries fd w
  = if (tries <? 5) && (fd =? -1) then
      let '(fd, w) := sys_open w path in
      let w := if fd =? -1 then usleep E 100000 w else w in
      open_lockfile_loop E fuel path (tries + 1) fd w
    else Some (fd, w).
Proof. done. Qed.

Lemma open_lockfile_loop_done E fuel path tries fd w :
  fd ≠ -1 -> open_lockfile_loop E (S fuel) path tries fd w = Some (fd, w).
Proof.
  intros Hfd. simpl. apply Z.eqb_neq in Hfd. rewrite Hfd.
  by rewrite andb_false_r.
Qed.

Lemma open_lockfile_loop_spec E path fuel :
  forall tries w,
    0 <= tries <= 5 -> (Z.to_nat (5 - tries) < fuel)%nat ->
    exists (k : nat) fd w',
      open_lockfile_loop E fuel path tries (-1) w = Some (fd, w') /\
      trace w' = trace w
                 ++ concat (replicate k [EvOpen path (-1); EvUsleep 100000])
                 ++ (if fd =? -1 then [] else [EvOpen path fd]) /\
      (fd = -1 -> k = Z.to_nat (5 - tries)) /\
      (fd ≠ -1 -> (k < Z.to_nat (5 - tries))%nat).
Proof.
  induction fuel as [|fuel IH]; intros tries w Ht Hfuel; [lia|].
  simpl open_lockfile_loop.
  destruct (Z.ltb_spec tries 5) as [Hlt|Hge]; simpl.
  - destruct (fs w !! path) as [f|] eqn:Hf.
    + rewrite (sys_open_found w path f Hf), fresh_fd_ne.
      destruct fuel as [|fuel]; [lia|].
      rewrite open_lockfile_loop_done by lia.
      exists 0%nat. eexists _, _. split; [done|]. simpl.
      rewrite fresh_fd_ne. repeat split; lia.
    + rewrite (sys_open_missing w path Hf). simpl.
      destruct (IH (tries + 1)
                  (usleep E 100000
                     (log (EvOpen path (-1)) (set_errno ENOENT w))))
        as (k & fd & w' & Hrun & Htr & Hk1 & Hk2); [lia|lia|].
      exists (S k), fd, w'. split; [done|]. split.
      * rewrite Htr. simpl. by rewrite <- !app_assoc.
      * split; intros Hfd; [rewrite (Hk1 Hfd)|specialize (Hk2 Hfd)]; lia.
  - exists 0%nat, (-1), w. simpl. rewrite app_nil_r.
    repeat split; [lia|done].
Qed.

Lemma open_lockfile_found E w name f :
  fs w !! lockfile_path name = Some f ->
  open_lockfile E w (Some name)
  = (3 + Z.of_nat (length (fds w)),
     log (EvOpen (lockfile_path name) (3 + Z.of_nat (length (fds w))))
       (set_fds (fds w ++ [Some (lockfile_path name)]) w)).
Proof.
  intros Hf. unfold open_lockfile, open_lockfile_fuel.
  rewrite open_lockfile_loop_S. cbn [Z.ltb Z.compare Z.eqb andb].
  rewrite (sys_open_found w _ f Hf), fresh_fd_ne.
  rewrite open_lockfile_loop_done; [done|lia].
Qed.

Lemma open_lockfile_loop_mono E f1 :
  forall f2 path tries fd w r,
    (f1 <= f2)%nat ->
    open_lockfile_loop E f1 path tries fd w = Some r ->
    open_lockfile_loop E f2 path tries fd w = Some r.
Proof.
  induction f1 as [|f1 IH]; intros f2 path tries fd w r Hle; [done|].
  destruct f2 as [|f2]; [lia|]. simpl.
  destruct ((tries <? 5) && (fd =? -1)); [|done].
  destruct (sys_open w path) as [fd1 w1]. apply IH. lia.
Qed.

(** A name of 243 characters is one too long for open_lockfile: its path
    has 256 characters, so that the sprintf of line 2180 writes 257 bytes
    into [char lockfile[256]].  What [open_lockfile] gives for it is not
    what the code does. *)
Lemma open_lockfile_long_name :
  (String.length Scenario.long_name = 243%nat) /\
  (Z.of_nat (String.length (lockfile_path Scenario.long_name)) + 1 = 257) /\
  (bool_decide (fits 256 Scenario.long_name) = false) /\
  (bool_decide (fits 256 (Nat.iter 242 (String.append "x") EmptyString))
   = true).
Proof. vm_compute. repeat split. Qed.

(** C7: for a name of at most 242 characters, whose path the buffer of
    open_lockfile holds, open_lockfile ends, within six rounds of its loop
    whatever happens to the file meanwhile.  Its calls are [k] failed opens
    of the lockfile,
    each followed by a sleep of 100000 microseconds, and then, when a
    descriptor is returned, the one open that succeeded; [k] is 5 when -1
    is returned and less than 5 otherwise, so the file is opened at most
    five times, and -1 is returned exactly when five opens failed. *)
Theorem open_lockfile_bounded (E : Env) (w : World) (name : string) :
  fits 256 name ->
  exists (k : nat) fd w',
    (forall fuel, (6 <= fuel)%nat ->
       open_lockfile_fuel E fuel w (Some name) = Some (fd, w')) /\
    open_lockfile E w (Some name) = (fd, w') /\
    trace w' = trace w
               ++ concat (replicate k [EvOpen (lockfile_path name) (-1);
                                       EvUsleep 100000])
               ++ (if fd =? -1 then [] else [EvOpen (lockfile_path name) fd]) /\
    (fd = -1 <-> k = 5%nat) /\
    (k + (if (fd =? -1)%Z then 0 else 1) <= 5)%nat.
Proof.
  intros _.
  destruct (open_lockfile_loop_spec E (lockfile_path name) 6 0 w)
    as (k & fd & w' & Hrun & Htr & Hk1 & Hk2); [lia|lia|].
  exists k, fd, w'. split; [|split; [|split; [done|]]].
  - intros fuel Hfuel. unfold open_lockfile_fuel.
    by apply (open_lockfile_loop_mono E 6 fuel).
  - unfold open_lockfile, open_lockfile_fuel. by rewrite Hrun.
  - split.
    + split; [intros Hfd; rewrite (Hk1 Hfd); done|].
      intros Hk. destruct (decide (fd = -1)) as [|Hne]; [done|].
      specialize (Hk2 Hne). lia.
    + destruct (Z.eqb_spec fd (-1)) as [Hfd|Hfd].
      * rewrite (Hk1 Hfd). done.
      * specialize (Hk2 Hfd). lia.
Qed.

(** ** get_pid_from_lockfile *)

Lemma get_pid_from_lockfile_found E w name f :
  fs w !! lockfile_path name = Some f ->
  0 < ld_pid (f_ldata f) ->
  fst (get_pid_from_lockfile E w (Some name))
  = if ld_terminate (f_ldata f) =? SUSPEND then -1
    else if ld_terminate (f_ldata f) =? ABORT then -2
    else match ptab w !! ld_pid (f_ldata f) with
         | None => 0
         | Some _ => ld_pid (f_ldata f)
         end.
Proof.
  intros Hf Hpid. unfold get_pid_from_lockfile.
  rewrite (sys_open_found w _ f Hf), fresh_fd_ne. cbn [negb].
  rewrite (read_ldata_open w _ f _ Hf). cbn [fst].
  change 0xDEADBEEF with SUSPEND. change 0xDEAFBABE with ABORT.
  destruct (Z.eqb_spec (ld_terminate (f_ldata f)) ABORT) as [Ha|Ha].
  { rewrite Ha. done. }
  destruct (Z.eqb_spec (ld_terminate (f_ldata f)) SUSPEND) as [Hs|Hs]; [done|].
  destruct (Z.ltb_spec 0 (ld_pid (f_ldata f))) as [_|]; [|lia].
  unfold sys_kill.
  destruct (Z.ltb_spec 0 (ld_pid (f_ldata f))) as [_|]; [|lia].
  destruct (sys_close_frame
              (log (EvOpen (lockfile_path name) (3 + Z.of_nat (length (fds w))))
                 (set_fds (fds w ++ [Some (lockfile_path name)]) w))
              (3 + Z.of_nat (length (fds w)))) as (_ & -> & _).
  cbn [ptab log set_trace set_fds].
  by destruct (ptab w !! ld_pid (f_ldata f)) as [[]|].
Qed.

Lemma get_pid_from_lockfile_trace E w name f :
  fs w !! lockfile_path name = Some f ->
  0 < ld_pid (f_ldata f) ->
  trace (snd (get_pid_from_lockfile E w (Some name)))
  = trace w
    ++ EvOpen (lockfile_path name) (3 + Z.of_nat (length (fds w)))
    :: (if (ld_terminate (f_ldata f) =? SUSPEND)
           || (ld_terminate (f_ldata f) =? ABORT)
        then []
        else [EvKill (ld_pid (f_ldata f)) 0
                (match ptab w !! ld_pid (f_ldata f) with
                 | Some true => 0
                 | _ => -1
                 end)]).
Proof.
  intros Hf Hpid. unfold get_pid_from_lockfile.
  rewrite (sys_open_found w _ f Hf), fresh_fd_ne. cbn [negb].
  rewrite (read_ldata_open w _ f _ Hf). cbn [fst].
  change 0xDEADBEEF with SUSPEND. change 0xDEAFBABE with ABORT.
  pose proof (sys_close_frame
              (log (EvOpen (lockfile_path name) (3 + Z.of_nat (length (fds w))))
                 (set_fds (fds w ++ [Some (lockfile_path name)]) w))
              (3 + Z.of_nat (length (fds w)))) as (_ & Hpt & Htr & _).
  destruct (Z.eqb_spec (ld_terminate (f_ldata f)) ABORT) as [Ha|Ha].
  { rewrite orb_true_r. cbn [Z.ltb Z.compare snd]. by rewrite Htr. }
  destruct (Z.eqb_spec (ld_terminate (f_ldata f)) SUSPEND) as [Hs|Hs].
  { cbn [Z.ltb Z.compare snd orb]. by rewrite Htr. }
  destruct (Z.ltb_spec 0 (ld_pid (f_ldata f))) as [_|]; [|lia].
  unfold sys_kill.
  destruct (Z.ltb_spec 0 (ld_pid (f_ldata f))) as [_|]; [|lia].
  rewrite Hpt. cbn [ptab log set_trace set_fds orb].
  destruct (ptab w !! ld_pid (f_ldata f)) as [[]|]; simpl;
    rewrite Htr; simpl; by rewrite <- app_assoc.
Qed.

(** When the number stored where the pid should be is not positive, no
    process is probed: the number is the answer, unless a command is
    pending. *)
Lemma get_pid_from_lockfile_no_pid E w name f :
  fs w !! lockfile_path name = Some f ->
  ld_pid (f_ldata f) <= 0 ->
  fst (get_pid_from_lockfile E w (Some name))
  = (if ld_terminate (f_ldata f) =? SUSPEND then -1
     else if ld_terminate (f_ldata f) =? ABORT then -2
     else ld_pid (f_ldata f)) /\
  trace (snd (get_pid_from_lockfile E w (Some name)))
  = trace w ++ [EvOpen (lockfile_path name) (3 + Z.of_nat (length (fds w)))].
Proof.
  intros Hf Hpid. unfold get_pid_from_lockfile.
  rewrite (sys_open_found w _ f Hf), fresh_fd_ne. cbn [negb].
  rewrite (read_ldata_open w _ f _ Hf). cbn [fst].
  change 0xDEADBEEF with SUSPEND. change 0xDEAFBABE with ABORT.
  pose proof (sys_close_frame
              (log (EvOpen (lockfile_path name) (3 + Z.of_nat (length (fds w))))
                 (set_fds (fds w ++ [Some (lockfile_path name)]) w))
              (3 + Z.of_nat (length (fds w)))) as (_ & _ & Htr & _).
  destruct (Z.eqb_spec (ld_terminate (f_ldata f)) ABORT) as [Ha|Ha].
  { rewrite Ha. cbn [Z.ltb Z.compare fst snd]. by rewrite Htr. }
  destruct (Z.eqb_spec (ld_terminate (f_ldata f)) SUSPEND) as [Hs|Hs].
  { cbn [Z.ltb Z.compare fst snd]. by rewrite Htr. }
  destruct (Z.ltb_spec 0 (ld_pid (f_ldata f))) as [|_]; [lia|].
  cbn [fst snd]. by rewrite Htr.
Qed.

(** A lockfile whose record holds -1 and no command: the probe answers -1,
    which its callers read as suspended, although the terminate field is
    not SUSPEND; and it makes no kill. *)
Lemma get_pid_from_lockfile_stray :
  fs Scenario.stray !! lockfile_path "web"
  = Some (mkFile (mkLockData (-1) 0 1 1700000000) "/usr/bin/web") /\
  fst (get_pid_from_lockfile Scenario.env Scenario.stray (Some "web")) = -1 /\
  trace (snd (get_pid_from_lockfile Scenario.env Scenario.stray (Some "web")))
  = [EvOpen "/tmp/procmon.web" 3] /\
  (0 =? SUSPEND) = false.
Proof. vm_compute. repeat split. Qed.

(** C4: take a name of at most 242 characters, whose path the buffer of
    get_pid_from_lockfile holds, and whose lockfile exists.  When the
    record holds the pid of a process, a positive number,
    get_pid_from_lockfile returns -1 (suspended) exactly when the terminate
    field is SUSPEND, -2 (aborted) exactly when it is ABORT, 0 (absent)
    exactly when the field is neither and no live process has the stored
    pid, and the stored pid in every other case; the probe kill (pid, 0)
    is made when, and only when, the field holds neither command, so that
    any other value of the field is treated as normal.  When the number
    stored is not positive, no kill is made and the number itself is
    returned unless a command is pending: -1, -2 and 0 then read as
    suspended, aborted and absent whatever the terminate field holds. *)
Theorem get_pid_from_lockfile_status (E : Env) (w : World) (name : string)
    (f : File) :
  fits 256 name ->
  fs w !! lockfile_path name = Some f ->
  let r := fst (get_pid_from_lockfile E w (Some name)) in
  (0 < ld_pid (f_ldata f) ->
   (r = -1 <-> ld_terminate (f_ldata f) = SUSPEND) /\
   (r = -2 <-> ld_terminate (f_ldata f) = ABORT) /\
   (r = 0 <-> ld_terminate (f_ldata f) ≠ SUSPEND /\
              ld_terminate (f_ldata f) ≠ ABORT /\
              ptab w !! ld_pid (f_ldata f) = None) /\
   (r ≠ -1 -> r ≠ -2 -> r ≠ 0 ->
    r = ld_pid (f_ldata f) /\ is_Some (ptab w !! ld_pid (f_ldata f))) /\
   trace (snd (get_pid_from_lockfile E w (Some name)))
   = trace w
     ++ EvOpen (lockfile_path name) (3 + Z.of_nat (length (fds w)))
     :: (if (ld_terminate (f_ldata f) =? SUSPEND)
            || (ld_terminate (f_ldata f) =? ABORT)
         then []
         else [EvKill (ld_pid (f_ldata f)) 0
                 (match ptab w !! ld_pid (f_ldata f) with
                  | Some true => 0
                  | _ => -1
                  end)])) /\
  (ld_pid (f_ldata f) <= 0 ->
   r = (if ld_terminate (f_ldata f) =? SUSPEND then -1
        else if ld_terminate (f_ldata f) =? ABORT then -2
        else ld_pid (f_ldata f)) /\
   trace (snd (get_pid_from_lockfile E w (Some name)))
   = trace w
     ++ [EvOpen (lockfile_path name) (3 + Z.of_nat (length (fds w)))]).
Proof.
  intros _ Hf r. subst r. split; [|apply (get_pid_from_lockfile_no_pid E w name f Hf)].
  intros Hpid.
  rewrite (get_pid_from_lockfile_trace E w name f Hf Hpid).
  rewrite (get_pid_from_lockfile_found E w name f Hf Hpid).
  assert (Hsa : SUSPEND ≠ ABORT) by done.
  destruct (Z.eqb_spec (ld_terminate (f_ldata f)) SUSPEND) as [Hs|Hs];
    [|destruct (Z.eqb_spec (ld_terminate (f_ldata f)) ABORT) as [Ha|Ha];
      [|destruct (ptab w !! ld_pid (f_ldata f)) as [b|] eqn:Hp]];
    repeat split; intros; destruct_and?; try done; try lia; try congruence;
    eauto.
Qed.

Lemma terminate_command_found E w name f cmd :
  fs w !! lockfile_path name = Some f ->
  0 < ld_pid (f_ldata f) ->
  let w' := snd (terminate_command E w (Some name) cmd) in
  fs w' = <[lockfile_path name :=
              mkFile (mkLockData (ld_pid (f_ldata f)) cmd
                        (ld_runcount (f_ldata f)) (time w)) (f_exec f)]>
            (fs w) /\
  ptab w' = match ptab w !! ld_pid (f_ldata f) with
            | Some true => delete (ld_pid (f_ldata f)) (ptab w)
            | _ => ptab w
            end /\
  clock w' = clock w /\ procs w' = procs w /\
  fst (terminate_command E w (Some name) cmd)
  = match ptab w !! ld_pid (f_ldata f) with
    | Some true => EOK
    | Some false => EPERM
    | None => ESRCH
    end.
Proof.
  intros Hf Hpid. unfold terminate_command.
  rewrite (open_lockfile_found E w name f Hf), fresh_fd_ne. cbn [negb].
  rewrite (read_ldata_open w _ f _ Hf). cbn [fst].
  unfold ResetStartTime. rewrite fresh_fd_ne. cbn [negb].
  unfold write_starttime.
  erewrite (write_file_open w); [|done|exact Hf].
  cbn [Z.eqb Pos.eqb negb].
  unfold write_terminate.
  erewrite (write_file_open w); [|done|apply lookup_insert_eq].
  cbn [Z.eqb Pos.eqb negb].
  unfold sys_kill.
  destruct (Z.ltb_spec 0 (ld_pid (f_ldata f))) as [_|]; [|lia].
  cbn [ptab set_fs log set_trace set_fds].
  change (SIGKILL =? 0) with false.
  destruct (ptab w !! ld_pid (f_ldata f)) as [[]|] eqn:Hp;
    unfold EOK; cbn [Z.eqb negb snd fst];
    match goal with
    | |- context [sys_close ?v ?fd] =>
        destruct (sys_close_frame v fd) as (-> & -> & _ & _ & -> & ->)
    end;
    simpl; rewrite insert_insert_eq; done.
Qed.

(** ** terminate *)



(** ** The calls a function makes *)

Lemma emits_refl P w : emits P w w.
Proof. exists []. by rewrite app_nil_r. Qed.

Lemma emits_same P w w' : trace w' = trace w -> emits P w w'.
Proof. intros H. exists []. by rewrite app_nil_r. Qed.

Lemma emits_trans P w1 w2 w3 : emits P w1 w2 -> emits P w2 w3 -> emits P w1 w3.
Proof.
  intros (e1 & H1 & F1) (e2 & H2 & F2). exists (e1 ++ e2).
  split; [by rewrite H2, H1, app_assoc|by apply Forall_app].
Qed.

Lemma emits_usleep E P us w : P (EvUsleep us) -> emits P w (usleep E us w).
Proof. intros H. exists [EvUsleep us]. split; [done|by constructor]. Qed.

Lemma emits_sleep E P sec w : P (EvSleep sec) -> emits P w (sleep E sec w).
Proof. intros H. exists [EvSleep sec]. split; [done|by constructor]. Qed.

Lemma emits_sys_open P w path :
  (forall fd, P (EvOpen path fd)) -> emits P w (snd (sys_open w path)).
Proof.
  intros H. unfold sys_open.
  destruct (fs w !! path); simpl; eexists [_]; (split; [done|by constructor]).
Qed.

Lemma emits_sys_unlink P w path :
  (forall rc, P (EvUnlink path rc)) -> emits P w (snd (sys_unlink w path)).
Proof.
  intros H. unfold sys_unlink.
  destruct (fs w !! path); simpl; eexists [_]; (split; [done|by constructor]).
Qed.

Lemma emits_sys_kill E P w pid_ sig :
  (forall rc, P (EvKill pid_ sig rc)) -> emits P w (snd (sys_kill E w pid_ sig)).
Proof.
  intros H. unfold sys_kill. destruct (0 <? pid_).
  - destruct (ptab w !! pid_) as [[]|]; simpl;
      [destruct (sig =? 0)|..]; eexists [_]; (split; [done|by constructor]).
  - destruct (kill_group E w pid_ sig) as [[rc err] w']. simpl.
    destruct (rc =? 0); eexists [_]; (split; [done|by constructor]).
Qed.

Lemma trace_sys_close w fd : trace (sys_close w fd) = trace w.
Proof. unfold sys_close. by destruct (fd <? 3). Qed.

Lemma trace_write_file w fd len upd :
  trace (snd (write_file w fd len upd)) = trace w.
Proof.
  unfold write_file. destruct (fd_path w fd) as [path|]; [|done].
  by destruct (fs w !! path).
Qed.

(** The calls of open_lockfile: opens of the lockfile and sleeps. *)
Lemma emits_open_lockfile_loop E P path fuel :
  (forall fd, P (EvOpen path fd)) -> (forall us, P (EvUsleep us)) ->
  forall tries fd w r,
    open_lockfile_loop E fuel path tries fd w = Some r -> emits P w (snd r).
Proof.
  intros Hopen Hsleep. induction fuel as [|fuel IH]; intros tries fd w r;
    [done|]. rewrite open_lockfile_loop_S.
  destruct ((tries <? 5) && (fd =? -1)); [|intros [= <-]; apply emits_refl].
  pose proof (emits_sys_open P w path Hopen) as Ho.
  destruct (sys_open w path) as [fd1 w1]. simpl in Ho. intros Hr.
  apply IH in Hr. eapply emits_trans; [exact Ho|].
  eapply emits_trans; [|exact Hr].
  destruct (fd1 =? -1); [by apply emits_usleep|apply emits_refl].
Qed.

Lemma emits_open_lockfile E P w name :
  (forall fd, P (EvOpen (lockfile_path name) fd)) ->
  (forall us, P (EvUsleep us)) ->
  emits P w (snd (open_lockfile E w (Some name))).
Proof.
  intros Hopen Hsleep. unfold open_lockfile, open_lockfile_fuel.
  destruct (open_lockfile_loop E 6 (lockfile_path name) 0 (-1) w)
    as [r|] eqn:Hloop; simpl; [|apply emits_refl].
  by apply (emits_open_lockfile_loop E P _ 6 Hopen Hsleep _ _ _ _ Hloop).
Qed.

(** The calls of terminate_command on [name]: opens of its lockfile,
    sleeps, and one kill. *)
Lemma emits_terminate_command E P w name cmd :
  (forall fd, P (EvOpen (lockfile_path name) fd)) ->
  (forall us, P (EvUsleep us)) ->
  (forall p s rc, P (EvKill p s rc)) ->
  emits P w (snd (terminate_command E w (Some name) cmd)).
Proof.
  intros Hopen Hsleep Hkill. unfold terminate_command.
  pose proof (emits_open_lockfile E P w name Hopen Hsleep) as Ho.
  destruct (open_lockfile E w (Some name)) as [fd w1]. simpl in Ho.
  destruct (negb (fd =? -1)); [|done].
  eapply emits_trans; [exact Ho|]. clear Ho.
  set (pid_ := ld_pid (fst (read_ldata w1 fd (stack_ldata w1)))).
  assert (Hr : emits P w1 (snd (ResetStartTime w1 fd))).
  { apply emits_same. unfold ResetStartTime.
    destruct (negb (fd =? -1)); [|done]. unfold write_starttime.
    pose proof (trace_write_file w1 fd 8
      (fun f => mkFile (mkLockData (ld_pid (f_ldata f))
                          (ld_terminate (f_ldata f))
                          (ld_runcount (f_ldata f)) (time w1)) (f_exec f))) as Ht.
    destruct (write_file w1 fd 8 _) as [n w2]. simpl in Ht.
    by destruct (negb (n =? 8)). }
  destruct (ResetStartTime w1 fd) as [rr w2]. simpl in Hr.
  eapply emits_trans; [exact Hr|]. clear Hr.
  unfold write_terminate.
  pose proof (trace_write_file w2 fd 4
    (fun f => mkFile (mkLockData (ld_pid (f_ldata f)) cmd
                        (ld_runcount (f_ldata f))
                        (ld_starttime (f_ldata f))) (f_exec f))) as Ht.
  destruct (write_file w2 fd 4 _) as [n w3]. simpl in Ht.
  eapply emits_trans; [apply emits_same; exact Ht|].
  destruct (n =? 4).
  - pose proof (emits_sys_kill E P w3 pid_ SIGKILL (Hkill _ _)) as Hk.
    destruct (sys_kill E w3 pid_ SIGKILL) as [result w4]. simpl in Hk.
    eapply emits_trans; [exact Hk|].
    destruct (negb (result =? EOK)); simpl; apply emits_same, trace_sys_close.
  - simpl. apply emits_same, trace_sys_close.
Qed.

Lemma emits_remove_lockfile P w name :
  (forall rc, P (EvUnlink (lockfile_path name) rc)) ->
  emits P w (snd (remove_lockfile w (Some name))).
Proof.
  intros H. unfold remove_lockfile.
  pose proof (emits_sys_unlink P w (lockfile_path name) H) as Hu.
  destruct (sys_unlink w (lockfile_path name)) as [rc w1]. simpl in Hu.
  by destruct (rc =? -1).
Qed.

(** ** ShutdownAllProcesses never reaches the secondary supervisor *)

Lemma lockfile_path_inj a b : lockfile_path a = lockfile_path b -> a = b.
Proof. unfold lockfile_path. simpl. by intros [=]. Qed.

(** Whatever /tmp holds and whatever the rest of the system does, the
    lockfile of procmon2 is not opened by ShutdownAllProcesses: the loop
    passes over every name that begins with "procmon", and the two calls
    after the loop both name procmon1.  With the lockfile never opened, the
    pid in it is never read and terminate-and-delete never reaches the
    secondary. *)
Lemma ShutdownAllProcesses_never_opens_procmon2 E w :
  emits (fun e => forall fd, e ≠ EvOpen (lockfile_path "procmon2") fd)
        w (snd (ShutdownAllProcesses E w)).
Proof.
  set (P := fun e => forall fd, e ≠ EvOpen (lockfile_path "procmon2") fd).
  assert (Hterm : forall w name cmd,
             name ≠ "procmon2" ->
             emits P w (snd (terminate_command E w (Some name) cmd))).
  { intros w0 name cmd Hne. apply emits_terminate_command; try done.
    intros fd fd' [= Heq]. apply Hne. by apply lockfile_path_inj. }
  assert (Hrm : forall w name, emits P w (snd (remove_lockfile w (Some name)))).
  { intros w0 name. by apply emits_remove_lockfile. }
  assert (Hloop : forall entries result w0,
             emits P w0 (snd (ShutdownAllProcesses_loop E entries result w0))).
  { induction entries as [|d_name entries IH]; intros result w0;
      cbn [ShutdownAllProcesses_loop]; [apply emits_refl|].
    destruct (String.prefix "procmon." d_name); [|apply IH].
    destruct (String.prefix "procmon" (string_drop 8 d_name)) eqn:Hpre;
      cbn [negb]; [apply IH|].
    unfold terminate_and_stop_monitoring.
    assert (Hne : string_drop 8 d_name ≠ "procmon2").
    { intros Heq. rewrite Heq in Hpre. discriminate Hpre. }
    pose proof (Hterm w0 _ 0xDEAFBABE Hne) as Ht.
    destruct (terminate_command E w0 _ _) as [rc w1]. simpl in Ht.
    eapply emits_trans; [exact Ht|].
    destruct (negb (rc =? EOK)); [|apply IH].
    pose proof (Hrm w1 (string_drop 8 d_name)) as Hr.
    destruct (remove_lockfile w1 _) as [rr w2]. simpl in Hr.
    eapply emits_trans; [exact Hr|apply IH]. }
  unfold ShutdownAllProcesses, terminate_and_stop_monitoring.
  pose proof (Hloop (readdir w "/tmp") EOK w) as H1.
  destruct (ShutdownAllProcesses_loop E _ _ w) as [result w1]. simpl in H1.
  eapply emits_trans; [exact H1|].
  eapply emits_trans; [by apply (emits_sleep E P 1 w1)|].
  pose proof (Hterm (sleep E 1 w1) "procmon1" 0xDEAFBABE) as H2.
  destruct (terminate_command E (sleep E 1 w1) _ _) as [r2 w2]. simpl in H2.
  eapply emits_trans; [by apply H2|].
  pose proof (Hterm w2 "procmon1" 0xDEAFBABE) as H3.
  destruct (terminate_command E w2 _ _) as [r3 w3]. simpl in H3.
  eapply emits_trans; [by apply H3|].
  eapply emits_trans; [by apply (emits_sleep E P 1 w3)|].
  pose proof (Hrm (sleep E 1 w3) "procmon1") as H4.
  destruct (remove_lockfile (sleep E 1 w3) _) as [r4 w4]. simpl in H4.
  eapply emits_trans; [exact H4|].
  pose proof (Hrm w4 "procmon2") as H5.
  destruct (remove_lockfile w4 _) as [r5 w5]. simpl in H5.
  exact H5.
Qed.

(** ** The start engine launches again what it has launched *)

Lemma emits_get_pid_from_lockfile E P w name :
  (forall e, P e) -> emits P w (snd (get_pid_from_lockfile E w name)).
Proof.
  intros HP. unfold get_pid_from_lockfile.
  destruct name as [n|]; [|apply emits_refl].
  pose proof (emits_sys_open P w (lockfile_path n) (fun _ => HP _)) as Ho.
  destruct (sys_open w (lockfile_path n)) as [fd w1]. simpl in Ho.
  eapply emits_trans; [exact Ho|]. clear Ho.
  destruct (negb (fd =? -1)).
  - match goal with
    | |- context [sys_kill E ?v ?p 0] =>
        pose proof (emits_sys_kill E P v p 0 (fun _ => HP _)) as Hk;
        destruct (sys_kill E v p 0) as [rc w2]
    end.
    simpl in Hk.
    assert (Hc : emits P w1 (sys_close w1 fd))
      by apply emits_same, trace_sys_close.
    destruct (0 <? _); [|exact Hc].
    eapply emits_trans; [exact Hc|].
    destruct (rc =? -1); [destruct (errno w2 =? ESRCH)|]; exact Hk.
  - match goal with
    | |- context [sys_kill E ?v ?p 0] =>
        pose proof (emits_sys_kill E P v p 0 (fun _ => HP _)) as Hk;
        destruct (sys_kill E v p 0) as [rc w2]
    end.
    simpl in Hk. destruct (0 <? _); [|apply emits_refl].
    destruct (rc =? -1); [destruct (errno w2 =? ESRCH)|]; exact Hk.
Qed.

Lemma trace_InitProcess E w h p :
  procs w !! h = Some p ->
  trace (snd (InitProcess E w h))
  = trace w ++ [EvPthreadCreate h (pthread_create_rc E w h)].
Proof.
  intros Hp. unfold InitProcess. rewrite Hp.
  by destruct (pthread_create_rc E w h =? EOK).
Qed.

Lemma emits_WaitProcess E P w h :
  (forall e, P e) -> emits P w (WaitProcess E w h).
Proof.
  intros HP. unfold WaitProcess.
  destruct (procs w !! h) as [p|]; [|apply emits_refl].
  destruct (wait p >? 0); [|apply emits_refl].
  pose proof (emits_get_pid_from_lockfile E P w (id p) HP) as Hg.
  destruct (get_pid_from_lockfile E w (id p)) as [pid_ w1]. simpl in Hg.
  destruct (pid_ =? 0); [|exact Hg].
  destruct (monitored p || (runcount p <? GetParentRuncount w1 h));
    [|exact Hg].
  eapply emits_trans; [exact Hg|].
  eapply emits_trans; [|by apply emits_sleep].
  by apply emits_same.
Qed.

Lemma Run_calls_pthread_create E w h p :
  procs w !! h = Some p -> skip p = false ->
  exists evs,
    trace (snd (Run E w h))
    = trace w ++ EvPthreadCreate h (pthread_create_rc E w h) :: evs.
Proof.
  intros Hp Hs. unfold Run. rewrite Hp, Hs. cbn [negb snd].
  pose proof (trace_InitProcess E w h p Hp) as Hi.
  destruct (InitProcess E w h) as [rc w1]. simpl in Hi.
  destruct (emits_WaitProcess E (fun _ => True) w1 h (fun _ => I))
    as (evs & Ht & _).
  exists evs. cbn [update set_procs trace].
  change (trace (set_procs _ (WaitProcess E w1 h)))
    with (trace (WaitProcess E w1 h)).
  by rewrite Ht, Hi, <- app_assoc.
Qed.

(** What the sweep does with a descriptor whose parents are all RUNNING:
    it calls pthread_create for it, be it in state INIT or RUNNING, with or
    without a thread of its own. *)
Lemma RunProcesses_sweep_launches E w h p :
  procs w !! h = Some p -> skip p = false ->
  (forall n q, n ∈ pParents p -> procs w !! n = Some q ->
               state q = PROCSTATE_eRUNNING) ->
  exists w' evs,
    RunProcesses_sweep E [h] true w = (true, w') /\
    trace w' = trace w ++ EvPthreadCreate h (pthread_create_rc E w h) :: evs.
Proof.
  intros Hp Hs Hpar. cbn [RunProcesses_sweep].
  assert (Hr : Runnable w h = EOK) by (apply Runnable_EOK; eauto).
  rewrite Hr. cbn [Z.eqb EOK].
  destruct (Run_calls_pthread_create E w h p Hp Hs) as (evs & Ht).
  destruct (Run E w h) as [rc w']. simpl in Ht. by exists w', evs.
Qed.

(** ** The scenarios, run *)

(** C1 (the code departs from the claim): with B, which depends on A,
    declared before A, the first sweep launches A and leaves B for later;
    Runnable still answers EOK for A, which has its thread, and the second
    sweep starts A once more. *)
Theorem Runnable_ignores_launch :
  exists w1 w2,
    RunProcesses_sweep Scenario.env (pFirst Scenario.loaded) true
      Scenario.loaded = (false, w1) /\
    threads w1 = [Scenario.A] /\
    (thread <$> procs w1 !! Scenario.A) = Some (Some 0%nat) /\
    Runnable w1 Scenario.A = EOK /\
    RunProcesses_sweep Scenario.env (pFirst w1) true w1 = (true, w2) /\
    trace w2 = [EvPthreadCreate Scenario.A EOK;
                EvPthreadCreate Scenario.B EOK;
                EvPthreadCreate Scenario.A EOK] /\
    ProcessConfigFile Scenario.env 2 Scenario.boot Scenario.child_first
    = Some (EOK, w2).
Proof.
  eexists _, _. split; [vm_compute; reflexivity|].
  repeat split; vm_compute; reflexivity.
Qed.

(** C2 (the code departs from the claim): on the same configuration the
    engine creates two monitor threads for A.  The first forks the child
    and blocks in Monitor; the second finds the child alive and blocks in
    Monitor on the same child: both exist at once, and the descriptor
    remembers only the second. *)
Theorem second_monitor_thread :
  exists w wa wb pid_ fd1 fd2,
    ProcessConfigFile Scenario.env 2 Scenario.boot Scenario.child_first
    = Some (EOK, w) /\
    threads w = [Scenario.A; Scenario.B; Scenario.A] /\
    (thread <$> procs w !! Scenario.A) = Some (Some 2%nat) /\
    MonitorThread Scenario.env 8 w Scenario.A PcEntry
    = (wa, PcMonitor pid_ fd1) /\
    MonitorThread Scenario.env 8 wa Scenario.A PcEntry
    = (wb, PcMonitor pid_ fd2) /\
    MonitorThread_step Scenario.env wb Scenario.A (PcMonitor pid_ fd1) = None /\
    MonitorThread_step Scenario.env wb Scenario.A (PcMonitor pid_ fd2) = None /\
    children wb = [pid_] /\ ptab wb !! pid_ = Some true.
Proof.
  eexists _, _, _, _, _, _. split; [vm_compute; reflexivity|].
  split; [vm_compute; reflexivity|].
  split; [vm_compute; reflexivity|].
  split; [vm_compute; reflexivity|].
  split; [vm_compute; reflexivity|].
  repeat split; vm_compute; reflexivity.
Qed.

(** C3 (the code departs from the claim): with both supervisors and one
    service alive, ShutdownAllProcesses terminates the service, then opens
    the lockfile of procmon1 twice and kills its pid twice, the second
    time in vain; the lockfile of procmon2 is never opened and its process
    is never signalled: procmon2 is alive when the function returns, and
    only its lockfile is gone. *)
Theorem ShutdownAllProcesses_spares_procmon2 :
  exists w,
    ShutdownAllProcesses Scenario.env Scenario.at_shutdown = (EOK, w) /\
    trace w = [EvOpen "/tmp/procmon.web" 3; EvKill 12 SIGKILL 0;
               EvSleep 1;
               EvOpen "/tmp/procmon.procmon1" 4; EvKill 10 SIGKILL 0;
               EvOpen "/tmp/procmon.procmon1" 5; EvKill 10 SIGKILL (-1);
               EvSleep 1;
               EvUnlink "/tmp/procmon.procmon1" 0;
               EvUnlink "/tmp/procmon.procmon2" 0] /\
    ptab w !! 11 = Some true /\
    ptab w !! 10 = None /\ ptab w !! 12 = None /\
    fs w !! "/tmp/procmon.procmon2" = None.
Proof.
  eexists. split; [vm_compute; reflexivity|].
  repeat split; vm_compute; reflexivity.
Qed.

(** ** Witnesses *)

Lemma GetProcessTime_since_holds :
  0 <= 304537 < since_overflow /\
  GetProcessTime 304537 (Some "") 64 = (EOK, Some "3d12h35m37s").
Proof.
  split; [vm_compute; split; congruence|].
  change (Some "3d12h35m37s") with (Some (since_spec 304537)).
  apply GetProcessTime_since; vm_compute; [split; congruence | done].
Defined.

Lemma get_pid_from_lockfile_status_holds :
  fst (get_pid_from_lockfile Scenario.env Scenario.at_shutdown (Some "web"))
  = 12.
Proof.
  destruct (get_pid_from_lockfile_status Scenario.env Scenario.at_shutdown
              "web" (Scenario.lockfile_of 12 "/usr/bin/web"))
    as [H _]; [vm_compute; reflexivity|reflexivity|].
  destruct H as (H1 & H2 & H3 & H4 & _); [simpl; lia|].
  apply H4.
  - intros Hr. apply H1 in Hr. discriminate Hr.
  - intros Hr. apply H2 in Hr. discriminate Hr.
  - intros Hr. apply H3 in Hr. destruct Hr as (_ & _ & Hr). discriminate Hr.
Defined.

Lemma MonitorThread_suppressed_holds :
  MonitorThread Scenario.env 4 Scenario.one_shot_done 1%nat PcEntry
  = (Scenario.one_shot_done, PcReturn).
Proof.
  refine (proj1 (MonitorThread_suppressed Scenario.env Scenario.one_shot_done
                   1%nat _ _ _ _) _ 3%nat).
  - reflexivity.
  - reflexivity.
  - simpl. lia.
  - intros n q Hin Hq. simpl in Hin. apply list_elem_of_singleton in Hin.
    subst n. injection Hq as <-. simpl. lia.
Defined.


Lemma open_lockfile_bounded_holds :
  exists k fd w',
    open_lockfile Scenario.env Scenario.boot (Some "web") = (fd, w') /\
    (k + (if (fd =? -1)%Z then 0 else 1) <= 5)%nat.
Proof.
  destruct (open_lockfile_bounded Scenario.env Scenario.boot "web")
    as (k & fd & w' & _ & Hrun & _ & _ & Hk); [vm_compute; reflexivity|].
  exists k, fd, w'. by split.
Defined.

Lemma Run_skip_holds :
  Runnable (Run_skipped Scenario.env Scenario.skipped_parent [0%nat]) 1%nat
  = EOK /\
  threads (Run_skipped Scenario.env Scenario.skipped_parent [0%nat]) = [].
Proof.
  destruct (proj2 (Run_skip Scenario.env Scenario.skipped_parent) 1%nat _
              eq_refl) as (Hr & Ht & _).
  - intros n q Hin Hq. simpl in Hin. apply list_elem_of_singleton in Hin.
    subst n. injection Hq as <-. by left.
  - split; [exact Hr|exact Ht].
Defined.


(** * Further properties *)

(** ** start, restart and the terminate commands *)

Lemma start_found E w name f :
  fs w !! lockfile_path name = Some f ->
  fst (start E w (Some name)) = EOK /\
  fs (snd (start E w (Some name)))
  = <[lockfile_path name :=
        mkFile (mkLockData (ld_pid (f_ldata f)) 0 (ld_runcount (f_ldata f))
                  (ld_starttime (f_ldata f))) (f_exec f)]> (fs w) /\
  ptab (snd (start E w (Some name))) = ptab w /\
  trace (snd (start E w (Some name)))
  = trace w ++ [EvOpen (lockfile_path name) (3 + Z.of_nat (length (fds w)))].
Proof.
  intros Hf. unfold start.
  rewrite (open_lockfile_found E w name f Hf), fresh_fd_ne. cbn [negb].
  unfold write_terminate.
  erewrite (write_file_open w); [|done|exact Hf].
  cbn [Z.eqb Pos.eqb fst snd].
  match goal with
  | |- context [sys_close ?v ?fd] =>
      destruct (sys_close_frame v fd) as (-> & -> & -> & _)
  end.
  done.
Qed.

(** X1: for a name of at most 242 characters, whose path the buffer of
    open_lockfile holds: on a lockfile that exists, start returns EOK after
    a single open; it sets the terminate field to 0 and leaves every other
    field of the header, the command line, every other file and every
    process as they were. *)
Theorem start_clears_terminate (E : Env) (w : World) (name : string)
    (f : File) :
  fits 256 name ->
  fs w !! lockfile_path name = Some f ->
  fst (start E w (Some name)) = EOK /\
  fs (snd (start E w (Some name)))
  = <[lockfile_path name :=
        mkFile (mkLockData (ld_pid (f_ldata f)) 0 (ld_runcount (f_ldata f))
                  (ld_starttime (f_ldata f))) (f_exec f)]> (fs w) /\
  ptab (snd (start E w (Some name))) = ptab w /\
  trace (snd (start E w (Some name)))
  = trace w ++ [EvOpen (lockfile_path name) (3 + Z.of_nat (length (fds w)))].
Proof. intros _. apply start_found. Qed.

Lemma start_clears_terminate_holds :
  (ld_terminate <$>
     (f_ldata <$>
        fs (snd (start Scenario.env
                   (snd (terminate Scenario.env Scenario.at_shutdown
                           (Some "web"))) (Some "web")))
        !! "/tmp/procmon.web")) = Some 0.
Proof.
  destruct (start_clears_terminate Scenario.env
              (snd (terminate Scenario.env Scenario.at_shutdown (Some "web")))
              "web"
              (mkFile (mkLockData 12 SUSPEND 1 1700000100) "/usr/bin/web"))
    as (_ & Hfs & _); [vm_compute; reflexivity|vm_compute; reflexivity|].
  rewrite Hfs. change (lockfile_path "web") with "/tmp/procmon.web".
  by rewrite lookup_insert_eq.
Defined.

(** X2: suspend and resume.  For a name of at most 242 characters whose
    lockfile holds a positive pid: after terminate the probe of the
    lockfile answers -1 (suspended), whether or not the process could be
    killed; after a start that follows, the probe answers 0 (absent), which
    is what makes the monitor spawn the process again, when no live process
    has the stored pid, and the stored pid as long as one has; the pid and
    the run counter in the lockfile are the same throughout. *)
Theorem start_resumes_after_terminate (E : Env) (w : World) (name : string)
    (f : File) :
  fits 256 name ->
  fs w !! lockfile_path name = Some f ->
  0 < ld_pid (f_ldata f) ->
  let w1 := snd (terminate E w (Some name)) in
  let w2 := snd (start E w1 (Some name)) in
  fst (get_pid_from_lockfile E w1 (Some name)) = -1 /\
  fst (get_pid_from_lockfile E w2 (Some name))
  = match ptab w2 !! ld_pid (f_ldata f) with
    | None => 0
    | Some _ => ld_pid (f_ldata f)
    end /\
  (ld_runcount <$> (f_ldata <$> fs w2 !! lockfile_path name))
  = Some (ld_runcount (f_ldata f)) /\
  (ld_pid <$> (f_ldata <$> fs w2 !! lockfile_path name))
  = Some (ld_pid (f_ldata f)).
Proof.
  intros _ Hf Hpid w1 w2. subst w1 w2. unfold terminate.
  destruct (terminate_command_found E w name f 0xDEADBEEF Hf Hpid)
    as (Hfs1 & Hpt1 & _).
  set (w1 := snd (terminate_command E w (Some name) 0xDEADBEEF)) in *.
  set (f1 := mkFile (mkLockData (ld_pid (f_ldata f)) 0xDEADBEEF
                       (ld_runcount (f_ldata f)) (time w)) (f_exec f)) in *.
  assert (Hf1 : fs w1 !! lockfile_path name = Some f1)
    by (rewrite Hfs1; apply lookup_insert_eq).
  destruct (start_found E w1 name f1 Hf1) as (_ & Hfs2 & Hpt2 & _).
  set (w2 := snd (start E w1 (Some name))) in *.
  cbn [f1 f_ldata ld_pid ld_runcount ld_starttime f_exec] in Hfs2.
  split.
  { rewrite (get_pid_from_lockfile_found E w1 name f1 Hf1 Hpid). done. }
  assert (Hf2 : fs w2 !! lockfile_path name
                = Some (mkFile (mkLockData (ld_pid (f_ldata f)) 0
                                  (ld_runcount (f_ldata f)) (time w))
                          (f_exec f)))
    by (rewrite Hfs2; apply lookup_insert_eq).
  split.
  { rewrite (get_pid_from_lockfile_found E w2 name _ Hf2 Hpid).
    cbn [f_ldata ld_terminate ld_pid]. done. }
  by rewrite Hf2.
Qed.

Lemma start_resumes_after_terminate_holds :
  fst (get_pid_from_lockfile Scenario.env
         (snd (terminate Scenario.env Scenario.at_shutdown (Some "web")))
         (Some "web")) = -1.
Proof.
  destruct (start_resumes_after_terminate Scenario.env Scenario.at_shutdown
              "web" (Scenario.lockfile_of 12 "/usr/bin/web"))
    as (H & _); [vm_compute; reflexivity|reflexivity|simpl; lia|exact H].
Defined.

(** ** Commands on a lockfile that does not exist *)

Lemma fs_usleep E us w : fs (usleep E us w) = fs (yield E
  (set_clock (clock w + us) (log (EvUsleep us) w))).
Proof. done. Qed.

Lemma open_lockfile_loop_missing E path :
  never_creates E path ->
  forall fuel tries w r,
    fs w !! path = None ->
    (tries < 5 \/ errno w = ENOENT) ->
    open_lockfile_loop E fuel path tries (-1) w = Some r ->
    fst r = -1 /\ fs (snd r) !! path = None /\ errno (snd r) = ENOENT /\
    emits (fun e => forall p s rc, e ≠ EvKill p s rc) w (snd r).
Proof.
  intros Hnc. induction fuel as [|fuel IH]; intros tries w r Hf Herr; [done|].
  rewrite open_lockfile_loop_S.
  destruct (Z.ltb_spec tries 5) as [Hlt|Hge]; cbn [andb Z.eqb Pos.eqb].
  - rewrite (sys_open_missing w path Hf). cbn [Z.eqb Pos.eqb].
    intros Hr. apply IH in Hr as (H1 & H2 & H3 & H4).
    + repeat split; [done..|].
      eapply emits_trans; [|exact H4].
      exists [EvOpen path (-1); EvUsleep 100000].
      split; [simpl; by rewrite <- app_assoc|by repeat constructor].
    + rewrite fs_usleep. by apply Hnc.
    + by right.
  - intros [= <-]. cbn [fst snd]. destruct Herr as [|Herr]; [lia|].
    repeat split; [done..|apply emits_refl].
Qed.

Lemma open_lockfile_missing E w name :
  never_creates E (lockfile_path name) ->
  fs w !! lockfile_path name = None ->
  fst (open_lockfile E w (Some name)) = -1 /\
  fs (snd (open_lockfile E w (Some name))) !! lockfile_path name = None /\
  errno (snd (open_lockfile E w (Some name))) = ENOENT /\
  emits (fun e => forall p s rc, e ≠ EvKill p s rc) w
        (snd (open_lockfile E w (Some name))).
Proof.
  intros Hnc Hf.
  destruct (open_lockfile_loop_spec E (lockfile_path name) 6 0 w)
    as (k & fd & w' & Hrun & _); [lia|lia|].
  unfold open_lockfile, open_lockfile_fuel. rewrite Hrun. cbn [default].
  eapply (open_lockfile_loop_missing E _ Hnc 6 0 w (fd, w')); [done| |done].
  left. lia.
Qed.

(** X3: for a name of at most 242 characters, whose path the buffer of
    open_lockfile holds: when its lockfile does not exist, and nobody
    creates it meanwhile, terminate_command (hence terminate and
    terminate_and_stop_monitoring), start and restart each return ENOENT
    after the five failed opens, send no signal, and leave the lockfile
    missing. *)
Theorem commands_without_lockfile (E : Env) (w : World) (name : string)
    (cmd : Z) :
  fits 256 name ->
  never_creates E (lockfile_path name) ->
  fs w !! lockfile_path name = None ->
  forall op,
    op ∈ [terminate_command E w (Some name) cmd;
          start E w (Some name);
          restart E w (Some name)] ->
    fst op = ENOENT /\
    fs (snd op) !! lockfile_path name = None /\
    emits (fun e => forall p s rc, e ≠ EvKill p s rc) w (snd op).
Proof.
  intros _ Hnc Hf op Hop.
  destruct (open_lockfile_missing E w name Hnc Hf) as (Hfd & Hfs & Herr & Hem).
  assert (Hop' : op = (ENOENT, snd (open_lockfile E w (Some name)))).
  { unfold terminate_command, start, restart in Hop.
    destruct (open_lockfile E w (Some name)) as [fd w'].
    cbn [fst snd] in *. subst fd. cbn [Z.eqb Pos.eqb negb] in Hop.
    rewrite Herr in Hop.
    repeat (apply elem_of_cons in Hop as [->|Hop]; [done|]).
    by apply elem_of_nil in Hop. }
  subst op. by repeat split.
Qed.

Lemma commands_without_lockfile_holds :
  fst (terminate Scenario.env Scenario.boot (Some "web")) = ENOENT.
Proof.
  unfold terminate.
  refine (proj1 (commands_without_lockfile Scenario.env Scenario.boot "web"
                   0xDEADBEEF _ _ _ _ _)).
  - vm_compute. reflexivity.
  - intros v Hv. exact Hv.
  - reflexivity.
  - apply elem_of_cons. by left.
Defined.

(** ** The monitor and the commands in the lockfile *)








(** ** The monitor and a process that is alive *)

Lemma procs_sys_kill_pos E w pid_ sig :
  0 < pid_ -> procs (snd (sys_kill E w pid_ sig)) = procs w.
Proof.
  intros H. unfold sys_kill. destruct (Z.ltb_spec 0 pid_); [|lia].
  destruct (ptab w !! pid_) as [[]|]; [destruct (sig =? 0)|..]; done.
Qed.

Lemma procs_get_pid_from_lockfile E w name :
  procs (snd (get_pid_from_lockfile E w name)) = procs w.
Proof.
  unfold get_pid_from_lockfile. destruct name as [n|]; [|done].
  unfold sys_open.
  destruct (fs w !! lockfile_path n) as [f|]; cbn [negb fst snd].
  - rewrite fresh_fd_ne. cbn [negb].
    match goal with
    | |- context [sys_close ?v ?fd] =>
        destruct (sys_close_frame v fd) as (_ & _ & _ & _ & _ & Hpr);
        set (w1 := sys_close v fd) in *
    end.
    match goal with
    | |- context [sys_kill E w1 ?x 0] => set (q := x)
    end.
    destruct (Z.ltb_spec 0 q) as [Hq|]; [|done].
    pose proof (procs_sys_kill_pos E w1 q 0 Hq) as Hk.
    destruct (sys_kill E w1 q 0) as [rc w2]. cbn [snd] in Hk.
    destruct (rc =? -1); [destruct (errno w2 =? ESRCH)|]; cbn [snd];
      by rewrite Hk, Hpr.
  - cbn [Z.eqb Pos.eqb negb].
    match goal with
    | |- context [sys_kill E ?v ?x 0] => set (q := x); set (w1 := v)
    end.
    destruct (Z.ltb_spec 0 q) as [Hq|]; [|done].
    pose proof (procs_sys_kill_pos E w1 q 0 Hq) as Hk.
    destruct (sys_kill E w1 q 0) as [rc w2]. cbn [snd] in Hk.
    destruct (rc =? -1); [destruct (errno w2 =? ESRCH)|]; cbn [snd];
      by rewrite Hk.
Qed.

Section NoFork.

Variable E : Env.
Variable P : Event -> Prop.
Hypothesis Hnf : forall e, (forall rc, e ≠ EvFork rc) -> P e.

Lemma nf_kill p s rc : P (EvKill p s rc).
Proof. apply Hnf. discriminate. Qed.

Lemma nf_open_lockfile w name : emits P w (snd (open_lockfile E w name)).
Proof.
  destruct name as [n|]; [|apply emits_refl].
  apply emits_open_lockfile; intros; by apply Hnf.
Qed.

Lemma nf_restart w name : emits P w (snd (restart E w name)).
Proof.
  unfold restart. destruct name as [n|]; [|apply emits_refl].
  pose proof (nf_open_lockfile w (Some n)) as Ho.
  destruct (open_lockfile E w (Some n)) as [fd w1]. cbn [snd] in Ho.
  destruct (negb (fd =? -1)); [|exact Ho].
  eapply emits_trans; [exact Ho|].
  eapply emits_trans; [apply emits_same, trace_sys_close|].
  match goal with
  | |- context [sys_kill E ?v ?x SIGKILL] =>
      pose proof (emits_sys_kill E P v x SIGKILL (nf_kill x SIGKILL)) as Hk;
      destruct (sys_kill E v x SIGKILL) as [result w2]
  end.
  cbn [snd] in Hk. by destruct (negb (result =? EOK)).
Qed.

Lemma nf_InitProcess w h : emits P w (snd (InitProcess E w h)).
Proof.
  unfold InitProcess. destruct (procs w !! h); [|apply emits_refl].
  destruct (pthread_create_rc E w h =? EOK); cbn [snd];
    (eexists [_]; split; [done|constructor; [|done]]);
    apply Hnf; discriminate.
Qed.

Lemma nf_RestartDependent w h wait_ :
  emits P w (snd (RestartDependent E w h wait_)).
Proof.
  unfold RestartDependent. destruct (procs w !! h) as [p|]; [|apply emits_refl].
  destruct (_ && _); [|apply emits_refl].
  destruct (monitored p).
  - eapply emits_trans; [|apply nf_restart]. by apply emits_same.
  - eapply emits_trans; [|apply nf_InitProcess]. by apply emits_same.
Qed.

Lemma nf_RestartDependents_loop h nodes :
  forall result w,
    emits P w (snd (RestartDependents_loop E h nodes result w)).
Proof.
  induction nodes as [|n nodes IH]; intros result w;
    cbn [RestartDependents_loop]; [apply emits_refl|].
  pose proof (nf_RestartDependent w n (from_option wait 0 (procs w !! h)))
    as Hd.
  destruct (RestartDependent E w n _) as [rc w1]. cbn [snd] in Hd.
  eapply emits_trans; [exact Hd|apply IH].
Qed.

Lemma nf_RestartDependents w h : emits P w (snd (RestartDependents E w h)).
Proof.
  unfold RestartDependents. destruct (procs w !! h) as [p|]; [|apply emits_refl].
  apply nf_RestartDependents_loop.
Qed.

Lemma nf_MonitorThread_parent w h pid_ :
  emits P w (fst (MonitorThread_parent E w h pid_)).
Proof.
  unfold MonitorThread_parent.
  destruct (procs w !! h) as [p|]; [|apply emits_refl].
  destruct (monitored p); [|apply emits_refl].
  pose proof (nf_RestartDependents w h) as Hr.
  destruct (RestartDependents E w h) as [rr w1]. cbn [snd] in Hr.
  eapply emits_trans; [exact Hr|].
  eapply emits_trans; [apply emits_usleep, Hnf; discriminate|].
  unfold Monitor_open. destruct (id p) as [n|]; [|apply emits_refl].
  cbn [Z.eqb Pos.eqb].
  pose proof (nf_open_lockfile (usleep E 500000 w1) (Some n)) as Ho.
  destruct (open_lockfile E (usleep E 500000 w1) (Some n)) as [fd w2].
  cbn [snd] in Ho. by destruct (negb (fd =? -1)).
Qed.

End NoFork.

Lemma MonitorThread_parent_pc E w h p pid_ :
  procs w !! h = Some p ->
  if monitored p
  then (exists fd, snd (MonitorThread_parent E w h pid_) = PcMonitor pid_ fd)
       \/ snd (MonitorThread_parent E w h pid_) = PcWaitpid pid_
  else snd (MonitorThread_parent E w h pid_) = PcWaitpidOnce pid_.
Proof.
  intros Hp. unfold MonitorThread_parent. rewrite Hp.
  destruct (monitored p); [|done].
  destruct (RestartDependents E w h) as [rr w1].
  destruct (Monitor_open E (usleep E 500000 w1) (id p) (-1)) as [fd w2].
  destruct (negb (fd =? -1)); [left; by exists fd|by right].
Qed.

(** X6: no second child.  Let every descriptor have an id of at most 242
    characters.  When the lockfile of a descriptor holds no command and
    the pid of a live process, the pass of the monitor thread
    through its loop does not fork: it goes on to watch the process that is
    there, in Monitor or in waitpid with that pid when the descriptor is
    monitored, in waitpid when it is not. *)
Theorem monitor_keeps_live_process (E : Env) (w : World) (h : handle)
    (p : Process) (name : string) (f : File) :
  ids_fit w ->
  procs w !! h = Some p -> id p = Some name ->
  fs w !! lockfile_path name = Some f ->
  0 < ld_pid (f_ldata f) ->
  ld_terminate (f_ldata f) ≠ SUSPEND -> ld_terminate (f_ldata f) ≠ ABORT ->
  is_Some (ptab w !! ld_pid (f_ldata f)) ->
  exists w' pc,
    MonitorThread_step E w h PcLoop = Some (w', pc) /\
    emits (fun e => forall rc, e ≠ EvFork rc) w w' /\
    if monitored p
    then (exists fd, pc = PcMonitor (ld_pid (f_ldata f)) fd)
         \/ pc = PcWaitpid (ld_pid (f_ldata f))
    else pc = PcWaitpidOnce (ld_pid (f_ldata f)).
Proof.
  intros _ Hp Hid Hf Hpid Hs Ha [b Hb]. cbn [MonitorThread_step].
  rewrite Hp, Hid.
  pose proof (get_pid_from_lockfile_found E w name f Hf Hpid) as Hr.
  pose proof (procs_get_pid_from_lockfile E w (Some name)) as Hpr.
  pose proof (get_pid_from_lockfile_trace E w name f Hf Hpid) as Htr.
  destruct (get_pid_from_lockfile E w (Some name)) as [pid_ w1].
  cbn [fst snd] in Hr, Hpr, Htr.
  apply Z.eqb_neq in Hs, Ha. rewrite Hs, Ha, Hb in Hr. subst pid_.
  rewrite (proj2 (Z.eqb_neq (ld_pid (f_ldata f)) (-2))) by lia.
  rewrite (proj2 (Z.eqb_neq (ld_pid (f_ldata f)) (-1))) by lia.
  rewrite !(proj2 (Z.eqb_neq (ld_pid (f_ldata f)) 0)) by lia.
  exists (fst (MonitorThread_parent E w1 h (ld_pid (f_ldata f)))),
         (snd (MonitorThread_parent E w1 h (ld_pid (f_ldata f)))).
  split; [by destruct (MonitorThread_parent E w1 h _)|]. split.
  - eapply emits_trans; [|by apply nf_MonitorThread_parent].
    eexists. split; [exact Htr|]. rewrite Hs, Ha. cbn [orb].
    by repeat constructor.
  - apply MonitorThread_parent_pc. by rewrite Hpr.
Qed.

Lemma monitor_keeps_live_process_holds :
  exists w' fd,
    MonitorThread_step Scenario.env Cases.supervising 0%nat PcLoop
    = Some (w', PcMonitor 12 fd).
Proof.
  destruct (monitor_keeps_live_process Scenario.env Cases.supervising 0%nat
              Cases.web "web" (Scenario.lockfile_of 12 "/usr/bin/web"))
    as (w' & pc & Hstep & _ & Hpc);
    [constructor; [vm_compute; reflexivity|constructor]
    |reflexivity|reflexivity|reflexivity|simpl; lia|discriminate|discriminate
    |exists true; reflexivity|].
  destruct Hpc as [[fd ->]|Hpc].
  - by exists w', fd.
  - rewrite Hpc in Hstep. vm_compute in Hstep. discriminate Hstep.
Defined.

(** ** makelock *)

(** X7: for a descriptor whose id has at most 242 characters, so that the
    buffer of open_lockfile holds its path: on a lockfile that exists,
    makelock opens it once and rewrites
    the header: the pid of the descriptor, the run counter incremented
    (modulo 2^64) and the current time; the terminate field and the command
    line recorded in the file stay as they were.  It returns the answer to
    a non-blocking lock request (F_SETLK) on the descriptor, which is left
    open. *)
Theorem makelock_reuses_lockfile (E : Env) (w : World) (p : Process)
    (name : string) (f : File) :
  fits 256 name ->
  id p = Some name ->
  fs w !! lockfile_path name = Some f ->
  exists w1,
    makelock E w p
    = (fcntl_lock E w1 (3 + Z.of_nat (length (fds w))) F_SETLK,
       log (EvFcntl (3 + Z.of_nat (length (fds w))) F_SETLK) w1) /\
    fs w1 = <[lockfile_path name :=
                mkFile (mkLockData (pid p) (ld_terminate (f_ldata f))
                          (CInt.to_size_t (ld_runcount (f_ldata f) + 1))
                          (time w)) (f_exec f)]> (fs w) /\
    fd_path w1 (3 + Z.of_nat (length (fds w))) = Some (lockfile_path name) /\
    ptab w1 = ptab w /\ procs w1 = procs w /\
    trace w1 = trace w ++ [EvOpen (lockfile_path name)
                             (3 + Z.of_nat (length (fds w)))].
Proof.
  intros _ Hid Hf. unfold makelock. rewrite Hid.
  rewrite (open_lockfile_found E w name f Hf), fresh_fd_ne.
  rewrite (read_ldata_open w _ f _ Hf).
  change (sizeof_LockData =? sizeof_LockData) with true. cbn match.
  unfold write_ldata.
  erewrite (write_file_open w); [|done|exact Hf].
  change (negb (sizeof_LockData =? sizeof_LockData)) with false. cbn match.
  change (EOK =? EOK) with true. cbn match.
  unfold lock. rewrite fresh_fd_ne. cbn [negb].
  change ((F_SETLK =? F_SETLKW) || (F_SETLK =? F_SETLK) || (F_SETLK =? F_UNLCK))
    with true. cbn match.
  eexists. split; [reflexivity|].
  split; [done|]. split; [by apply fd_path_fresh|]. done.
Qed.

Lemma makelock_reuses_lockfile_holds :
  (ld_runcount <$>
     (f_ldata <$>
        fs (snd (makelock Scenario.env Cases.supervising
                   (set_pid 13 Cases.web))) !! "/tmp/procmon.web")) = Some 2.
Proof.
  destruct (makelock_reuses_lockfile Scenario.env Cases.supervising
              (set_pid 13 Cases.web) "web"
              (Scenario.lockfile_of 12 "/usr/bin/web"))
    as (w1 & Hm & Hfs & _); [vm_compute; reflexivity|reflexivity|reflexivity|].
  rewrite Hm. cbn [snd log set_trace fs]. rewrite Hfs.
  change (lockfile_path "web") with "/tmp/procmon.web".
  by rewrite lookup_insert_eq.
Defined.

Lemma open_lockfile_loop_missing_fds E path :
  never_creates E path ->
  forall fuel tries w r,
    fs w !! path = None ->
    open_lockfile_loop E fuel path tries (-1) w = Some r ->
    fds (snd r) = fds w.
Proof.
  intros Hnc. induction fuel as [|fuel IH]; intros tries w r Hf; [done|].
  rewrite open_lockfile_loop_S.
  destruct (tries <? 5); cbn [andb Z.eqb Pos.eqb].
  - rewrite (sys_open_missing w path Hf). cbn [Z.eqb Pos.eqb].
    intros Hr. apply IH in Hr; [exact Hr|].
    rewrite fs_usleep. by apply Hnc.
  - by intros [= <-].
Qed.

Lemma open_lockfile_missing_trace E w name :
  never_creates E (lockfile_path name) ->
  fs w !! lockfile_path name = None ->
  exists w1,
    open_lockfile E w (Some name) = (-1, w1) /\
    fs w1 !! lockfile_path name = None /\
    fds w1 = fds w /\
    trace w1 = trace w
               ++ concat (replicate 5 [EvOpen (lockfile_path name) (-1);
                                       EvUsleep 100000]).
Proof.
  intros Hnc Hf.
  destruct (open_lockfile_loop_spec E (lockfile_path name) 6 0 w)
    as (k & fd & w' & Hrun & Htr & Hk & _); [lia|lia|].
  destruct (open_lockfile_loop_missing E _ Hnc 6 0 w (fd, w') Hf)
    as (Hfd & Hfs & _); [left; lia|done|].
  pose proof (open_lockfile_loop_missing_fds E _ Hnc 6 0 w (fd, w') Hf Hrun)
    as Hfds.
  cbn [fst snd] in *. subst fd. exists w'.
  unfold open_lockfile, open_lockfile_fuel. rewrite Hrun.
  rewrite Hk in Htr by done. cbn [Z.eqb Pos.eqb] in Htr.
  rewrite app_nil_r in Htr. done.
Qed.

Lemma substring_nil n m : String.substring n m "" = "".
Proof. by destruct n, m. Qed.

Lemma string_app_nil_r (s : string) : s +:+ "" = s.
Proof.
  induction s as [|a s IH]; [done|].
  change (String a (s +:+ "") = String a s). by f_equal.
Qed.

Lemma create_lockfile_fresh w p name :
  id p = Some name ->
  fs w !! lockfile_path name = None ->
  exists w1,
    create_lockfile w p = (3 + Z.of_nat (length (fds w)), w1) /\
    fs w1 = <[lockfile_path name :=
                mkFile (mkLockData (pid p) 0 1 (time w)) (default "" (exec p))]>
              (fs w) /\
    fd_path w1 (3 + Z.of_nat (length (fds w))) = Some (lockfile_path name) /\
    ptab w1 = ptab w /\ procs w1 = procs w /\
    trace w1 = trace w ++ [EvCreat (lockfile_path name)
                             (3 + Z.of_nat (length (fds w)))].
Proof.
  intros Hid Hf. unfold create_lockfile, sys_creat. rewrite Hid, Hf.
  rewrite fresh_fd_ne. cbn [negb]. unfold write_ldata.
  erewrite (write_file_open w); [|done|apply lookup_insert_eq].
  change (sizeof_LockData =? sizeof_LockData) with true. cbn match.
  destruct (exec p) as [e|]; cbn [default].
  - unfold write_exec. erewrite (write_file_open w); [|done|apply lookup_insert_eq].
    eexists. split; [reflexivity|]. unfold time.
    cbn [snd fs fds clock set_fs set_fds set_trace log f_ldata f_exec].
    rewrite !insert_insert_eq, substring_nil, string_app_nil_r.
    split; [done|]. split; [by apply fd_path_fresh|]. done.
  - eexists. split; [reflexivity|]. unfold time.
    cbn [snd fs fds clock set_fs set_fds set_trace log f_ldata f_exec].
    rewrite !insert_insert_eq.
    split; [done|]. split; [by apply fd_path_fresh|]. done.
Qed.

Lemma makelock_missing E w p name :
  never_creates E (lockfile_path name) ->
  id p = Some name ->
  fs w !! lockfile_path name = None ->
  exists w0 w1,
    open_lockfile E w (Some name) = (-1, w0) /\
    makelock E w p
    = (fcntl_lock E w1 (3 + Z.of_nat (length (fds w))) F_SETLK,
       log (EvFcntl (3 + Z.of_nat (length (fds w))) F_SETLK) w1) /\
    fs w1 = <[lockfile_path name :=
                mkFile (mkLockData (pid p) 0 1 (time w0)) (default "" (exec p))]>
              (fs w0) /\
    fd_path w1 (3 + Z.of_nat (length (fds w))) = Some (lockfile_path name) /\
    trace w1 = trace w
               ++ concat (replicate 5 [EvOpen (lockfile_path name) (-1);
                                       EvUsleep 100000])
               ++ [EvCreat (lockfile_path name)
                     (3 + Z.of_nat (length (fds w)))].
Proof.
  intros Hnc Hid Hf.
  destruct (open_lockfile_missing_trace E w name Hnc Hf)
    as (w0 & Hopen & Hf0 & Hfds & Htr0).
  destruct (create_lockfile_fresh w0 p name Hid Hf0)
    as (w1 & Hcr & Hfs1 & Hfd1 & _ & _ & Htr1).
  exists w0, w1. split; [done|].
  unfold makelock. rewrite Hid, Hopen. cbn [Z.eqb Pos.eqb].
  rewrite Hcr, Hfds in *.
  change (EOK =? EOK) with true. cbn match.
  unfold lock. rewrite fresh_fd_ne. cbn [negb].
  change ((F_SETLK =? F_SETLKW) || (F_SETLK =? F_SETLK) || (F_SETLK =? F_UNLCK))
    with true. cbn match.
  split; [done|]. split; [done|]. split; [done|].
  by rewrite Htr1, Htr0, <- app_assoc.
Qed.

(** X8: for a descriptor whose id has at most 242 characters, so that the
    buffers of open_lockfile and create_lockfile hold its path: when the
    lockfile does not exist, and nobody creates it meanwhile, makelock
    first goes through the five failed opens of
    open_lockfile, 100 ms apart, and only then creates the file: a header
    with the pid of the descriptor, no command, run counter 1 and the time
    of the creation, followed by the command line of the descriptor.  It
    returns the answer to a non-blocking lock request on the new
    descriptor. *)
Theorem makelock_creates_lockfile (E : Env) (w : World) (p : Process)
    (name : string) :
  fits 256 name ->
  never_creates E (lockfile_path name) ->
  id p = Some name ->
  fs w !! lockfile_path name = None ->
  exists w0 w1,
    open_lockfile E w (Some name) = (-1, w0) /\
    makelock E w p
    = (fcntl_lock E w1 (3 + Z.of_nat (length (fds w))) F_SETLK,
       log (EvFcntl (3 + Z.of_nat (length (fds w))) F_SETLK) w1) /\
    fs w1 = <[lockfile_path name :=
                mkFile (mkLockData (pid p) 0 1 (time w0)) (default "" (exec p))]>
              (fs w0) /\
    fd_path w1 (3 + Z.of_nat (length (fds w))) = Some (lockfile_path name) /\
    trace w1 = trace w
               ++ concat (replicate 5 [EvOpen (lockfile_path name) (-1);
                                       EvUsleep 100000])
               ++ [EvCreat (lockfile_path name)
                     (3 + Z.of_nat (length (fds w)))].
Proof. intros _. apply makelock_missing. Qed.

Lemma makelock_creates_lockfile_holds :
  fs (snd (makelock Scenario.env Cases.idle (set_pid 13 Cases.web)))
     !! "/tmp/procmon.web"
  = Some (mkFile (mkLockData 13 0 1 1700000100) "/usr/bin/web").
Proof.
  destruct (makelock_creates_lockfile Scenario.env Cases.idle
              (set_pid 13 Cases.web) "web")
    as (w0 & w1 & Ho & Hm & Hfs & _);
    [vm_compute; reflexivity|intros v Hv; exact Hv|reflexivity|reflexivity|].
  rewrite Hm. cbn [snd log set_trace fs]. rewrite Hfs.
  change (lockfile_path "web") with "/tmp/procmon.web".
  rewrite lookup_insert_eq.
  vm_compute in Ho. injection Ho as <-. reflexivity.
Defined.

(** ** The monitor and a process that is gone *)

Lemma sys_fork_trace E w h :
  fst (sys_fork E w h) = fork_rc E w /\
  trace (snd (sys_fork E w h)) = trace w ++ [EvFork (fork_rc E w)].
Proof.
  unfold sys_fork. destruct (0 <? fork_rc E w); [|done].
  destruct (RunProcess E _ h) as [r wc]. done.
Qed.

Section NoFork2.

Variable E : Env.
Variable P : Event -> Prop.
Hypothesis Hnf : forall e, (forall rc, e ≠ EvFork rc) -> P e.

Lemma nf_create_lockfile w p : emits P w (snd (create_lockfile w p)).
Proof.
  unfold create_lockfile. destruct (id p) as [name|]; [|apply emits_refl].
  assert (Hc : emits P w (snd (sys_creat w (lockfile_path name)))).
  { unfold sys_creat. destruct (fs w !! lockfile_path name);
      (eexists [_]; split; [done|]; constructor; [|done]);
      apply Hnf; discriminate. }
  destruct (sys_creat w (lockfile_path name)) as [fd w1]. cbn [snd] in Hc.
  destruct (negb (fd =? -1)); [|exact Hc].
  pose proof (trace_write_file w1 fd sizeof_LockData
                (fun f => mkFile (mkLockData (pid p) 0 1 (time w1)) (f_exec f)))
    as Hw.
  unfold write_ldata.
  destruct (write_file w1 fd sizeof_LockData _) as [n w2]. cbn [snd] in Hw.
  assert (H2 : emits P w w2)
    by (eapply emits_trans; [exact Hc|by apply emits_same]).
  destruct (n =? sizeof_LockData); [|exact H2].
  destruct (exec p) as [e|]; [|exact H2]. cbn [snd].
  eapply emits_trans; [exact H2|]. apply emits_same, trace_write_file.
Qed.

Lemma nf_makelock w p : emits P w (snd (makelock E w p)).
Proof.
  unfold makelock.
  pose proof (nf_open_lockfile E P Hnf w (id p)) as Ho.
  destruct (open_lockfile E w (id p)) as [fd w1]. cbn [snd] in Ho.
  assert (Hl : forall v fd', emits P w v ->
                 emits P w (snd (lock E v fd' F_SETLK))).
  { intros v fd' Hv. unfold lock. destruct (negb (fd' =? -1)); [|exact Hv].
    destruct (_ || _); [|exact Hv]. cbn [snd].
    eapply emits_trans; [exact Hv|].
    eexists [_]. split; [done|]. constructor; [|done]. apply Hnf. discriminate. }
  destruct (fd =? -1).
  - pose proof (nf_create_lockfile w1 p) as Hc.
    destruct (create_lockfile w1 p) as [fd2 w2]. cbn [snd] in Hc.
    change (EOK =? EOK) with true. cbn match.
    apply Hl. by eapply emits_trans.
  - destruct (read_ldata w1 fd _) as [ld n].
    destruct (n =? sizeof_LockData).
    + unfold write_ldata.
      match goal with
      | |- context [write_file w1 fd ?len ?upd] =>
          pose proof (trace_write_file w1 fd len upd) as Hw;
          destruct (write_file w1 fd len upd) as [m w2]
      end.
      cbn [snd] in Hw.
      assert (H2 : emits P w w2)
        by (eapply emits_trans; [exact Ho|by apply emits_same]).
      destruct (negb (m =? sizeof_LockData)).
      * destruct (errno w2 =? EOK); [by apply Hl|exact H2].
      * change (EOK =? EOK) with true. cbn match. by apply Hl.
    + change (EOK =? EOK) with true. cbn match. by apply Hl.
Qed.

Lemma nf_RunProcess w h : emits P w (snd (RunProcess E w h)).
Proof.
  unfold RunProcess. destruct (procs w !! h) as [p|]; [|apply emits_refl].
  assert (H : emits P w
                (if monitored p
                 then snd (makelock E (update h (set_pid (self w)) w)
                             (set_pid (self w) p))
                 else w)).
  { destruct (monitored p); [|apply emits_refl].
    eapply emits_trans; [|apply nf_makelock]. by apply emits_same. }
  by destruct (execvp_ok E _ h).
Qed.

End NoFork2.

(** X9: let every descriptor have an id of at most 242 characters.  When
    the probe of the lockfile answers 0 (no such process), the pass of the
    monitor thread through its loop forks exactly once, and before the fork
    it sleeps for the restart delay of the descriptor when that is not
    zero: the delay is an int and sleep takes an unsigned int, so that a
    negative delay d is a sleep of 2^32 + d seconds. *)
Theorem monitor_spawns_once (E : Env) (w : World) (h : handle)
    (p : Process) :
  ids_fit w ->
  procs w !! h = Some p ->
  fst (get_pid_from_lockfile E w (id p)) = 0 ->
  exists w' pc rc evs,
    MonitorThread_step E w h PcLoop = Some (w', pc) /\
    trace w' = trace (snd (get_pid_from_lockfile E w (id p)))
               ++ (if restart_delay p =? 0 then []
                   else [EvSleep (restart_delay p mod 2 ^ 32)])
               ++ EvFork rc :: evs /\
    Forall (fun e => forall rc, e ≠ EvFork rc) evs.
Proof.
  intros _ Hp H0. cbn [MonitorThread_step]. rewrite Hp.
  change (restart_delay p mod 2 ^ 32) with (CInt.to_uint (restart_delay p)).
  destruct (get_pid_from_lockfile E w (id p)) as [pid_ w1].
  cbn [fst snd] in *. subst pid_. cbn [Z.eqb].
  set (w2 := update h _ w1).
  set (w3 := if negb (restart_delay p =? 0)
             then sleep E (CInt.to_uint (restart_delay p)) w2
             else w2).
  assert (H3 : trace w3
               = trace w1
                 ++ (if restart_delay p =? 0 then []
                     else [EvSleep (CInt.to_uint (restart_delay p))])).
  { unfold w3. destruct (restart_delay p =? 0); cbn [negb].
    - by rewrite app_nil_r.
    - done. }
  destruct (sys_fork_trace E w3 h) as [Hrc Htr].
  destruct (sys_fork E w3 h) as [rc w4]. cbn [fst snd] in Hrc, Htr.
  rewrite <- Hrc in Htr.
  set (Q := fun e : Event => forall rc, e ≠ EvFork rc).
  destruct (rc =? 0).
  - pose proof (nf_RunProcess E Q (fun e He => He) w4 h) as (evs & He & HQ).
    destruct (RunProcess E w4 h) as [[r|] w5]; cbn [snd] in He;
      (eexists _, _, rc, evs; split; [reflexivity|]; split; [|exact HQ]);
      rewrite He, Htr, H3, <- !app_assoc; done.
  - pose proof (nf_MonitorThread_parent E Q (fun e He => He) w4 h rc)
      as (evs & He & HQ).
    destruct (MonitorThread_parent E w4 h rc) as [w5 pc]. cbn [fst] in He.
    eexists _, _, rc, evs. split; [reflexivity|]. split; [|exact HQ].
    rewrite He, Htr, H3, <- !app_assoc. done.
Qed.

Lemma monitor_spawns_once_holds :
  exists w' pc rc evs,
    MonitorThread_step Scenario.env Cases.crashed 0%nat PcLoop
    = Some (w', pc) /\
    trace w' = trace (snd (get_pid_from_lockfile Scenario.env Cases.crashed
                             (Some "web")))
               ++ EvFork rc :: evs.
Proof.
  destruct (monitor_spawns_once Scenario.env Cases.crashed 0%nat Cases.web)
    as (w' & pc & rc & evs & Hstep & Htr & _);
    [constructor; [vm_compute; reflexivity|constructor]
    |reflexivity|reflexivity|].
  exists w', pc, rc, evs. split; [exact Hstep|exact Htr].
Defined.

(** ** Dependents with nothing to restart *)

(** X10: RestartDependents does nothing at all when no dependent of the
    descriptor is eligible, that is, when each of them has
    restart_on_parent_death off, or is skipped, or has never been
    started. *)
Theorem RestartDependents_spares (E : Env) (w : World) (h : handle)
    (p : Process) :
  procs w !! h = Some p ->
  (forall c q, c ∈ pChildren p -> procs w !! c = Some q ->
     restart_on_parent_death q = false \/ skip q = true \/
     state q = PROCSTATE_eINIT) ->
  RestartDependents E w h = (EOK, w).
Proof.
  intros Hp Hc. unfold RestartDependents. rewrite Hp.
  induction (pChildren p) as [|c rest IH]; [done|].
  cbn [RestartDependents_loop].
  assert (Hr : RestartDependent E w c (from_option wait 0 (procs w !! h))
               = (EOK, w) \/
               RestartDependent E w c (from_option wait 0 (procs w !! h))
               = (EINVAL, w)).
  { unfold RestartDependent. destruct (procs w !! c) as [q|] eqn:Hq; [|by right].
    left. destruct (Hc c q) as [H|[H|H]]; [by left|done|..]; rewrite H.
    - done.
    - by rewrite andb_false_r.
    - rewrite bool_decide_eq_true_2 by done. by rewrite andb_false_r. }
  destruct Hr as [-> | ->]; cbn [negb Z.eqb];
    apply IH; intros c' q' Hc'; apply Hc; by right.
Qed.

Lemma RestartDependents_spares_holds :
  RestartDependents Scenario.env Scenario.skipped_parent 0%nat
  = (EOK, Scenario.skipped_parent).
Proof.
  apply (RestartDependents_spares Scenario.env Scenario.skipped_parent 0%nat
           (mkProcess (Some "S") PROCSTATE_eINIT (Some "/bin/s") 3 0 false true
                      false true 0 0 None [] [] [1%nat])); [reflexivity|].
  intros c q Hc Hq. apply list_elem_of_singleton in Hc as ->.
  injection Hq as <-. left. reflexivity.
Defined.

(** ** Looking up a descriptor *)

Lemma FindProcess_scan_spec w name nodes :
  match FindProcess_scan w name nodes with
  | Some h =>
      exists pre post p,
        nodes = pre ++ h :: post /\ procs w !! h = Some p /\
        id p = Some name /\
        forall n q, n ∈ pre -> procs w !! n = Some q -> id q ≠ Some name
  | None =>
      forall n q, n ∈ nodes -> procs w !! n = Some q -> id q ≠ Some name
  end.
Proof.
  induction nodes as [|node rest IH]; cbn [FindProcess_scan].
  { intros n q Hn. by apply elem_of_nil in Hn. }
  assert (Hskip :
    (forall q, procs w !! node = Some q -> id q ≠ Some name) ->
    match FindProcess_scan w name rest with
    | Some h =>
        exists pre post p,
          node :: rest = pre ++ h :: post /\ procs w !! h = Some p /\
          id p = Some name /\
          forall n q, n ∈ pre -> procs w !! n = Some q -> id q ≠ Some name
    | None =>
        forall n q, n ∈ node :: rest -> procs w !! n = Some q ->
                    id q ≠ Some name
    end).
  { intros Hne. destruct (FindProcess_scan w name rest) as [h|].
    - destruct IH as (pre & post & p & -> & Hp & Hid & Hpre).
      exists (node :: pre), post, p. repeat split; [done..|].
      intros n q [->|Hn]%elem_of_cons Hq; [by apply Hne|by eapply Hpre].
    - intros n q [->|Hn]%elem_of_cons Hq; [by apply Hne|by eapply IH]. }
  destruct (procs w !! node) as [p|] eqn:Hp; [|by apply Hskip].
  destruct (id p) as [i|] eqn:Hid;
    [|apply Hskip; intros q [= <-]; by rewrite Hid].
  destruct (String.eqb_spec name i) as [->|Hne].
  - exists [], rest, p. repeat split; [done..|].
    intros n q Hn. by apply elem_of_nil in Hn.
  - apply Hskip. intros q [= <-]. rewrite Hid. congruence.
Qed.

(** X11: FindProcess returns the first descriptor of the process list
    that carries the id, so of two descriptors with the same id only the one
    declared first can be found; it returns NULL exactly when no descriptor
    of the list carries the id. *)
Theorem FindProcess_first (w : World) (name : string) :
  match FindProcess w (Some name) with
  | Some h =>
      exists pre post p,
        pFirst w = pre ++ h :: post /\ procs w !! h = Some p /\
        id p = Some name /\
        forall n q, n ∈ pre -> procs w !! n = Some q -> id q ≠ Some name
  | None =>
      forall n q, n ∈ pFirst w -> procs w !! n = Some q -> id q ≠ Some name
  end.
Proof. apply FindProcess_scan_spec. Qed.

(** ** Building the dependency lists *)

Lemma unlinked_set_pParents v p : unlinked (set_pParents v p) = unlinked p.
Proof. done. Qed.

Lemma unlinked_set_pChildren v p : unlinked (set_pChildren v p) = unlinked p.
Proof. done. Qed.

Lemma same_but_links_refl w : same_but_links w w.
Proof. done. Qed.

Lemma same_but_links_trans w1 w2 w3 :
  same_but_links w1 w2 -> same_but_links w2 w3 -> same_but_links w1 w3.
Proof. unfold same_but_links. congruence. Qed.

Lemma same_but_links_update w h f :
  (forall p, unlinked (f p) = unlinked p) -> same_but_links w (update h f w).
Proof.
  intros Hf. unfold same_but_links, update, set_procs. cbn.
  rewrite (list_fmap_alter unlinked f (fun x => x))
    by (apply Forall_forall; intros; apply Hf).
  by rewrite list_alter_id.
Qed.

Lemma same_but_links_lookup w w' n :
  same_but_links w w' -> unlinked <$> procs w' !! n = unlinked <$> procs w !! n.
Proof.
  intros H. apply (f_equal procs) in H. cbn in H.
  by rewrite <- !list_lookup_fmap, H.
Qed.

Lemma same_but_links_pFirst w w' : same_but_links w w' -> pFirst w' = pFirst w.
Proof. intros H. by apply (f_equal pFirst) in H. Qed.

Lemma same_but_links_field {A} (g : Process -> A) w w' n :
  (forall p, g (unlinked p) = g p) ->
  same_but_links w w' -> g <$> procs w' !! n = g <$> procs w !! n.
Proof.
  intros Hg H. apply (same_but_links_lookup _ _ n) in H.
  destruct (procs w' !! n) as [a|], (procs w !! n) as [b|]; try done.
  apply (inj Some) in H. cbn. by rewrite <- (Hg a), <- (Hg b), H.
Qed.

Lemma FindProcess_scan_links w w' name nodes :
  same_but_links w w' ->
  FindProcess_scan w' name nodes = FindProcess_scan w name nodes.
Proof.
  intros H. induction nodes as [|node rest IH]; [done|].
  cbn [FindProcess_scan]. rewrite IH.
  pose proof (same_but_links_field id w w' node (fun _ => eq_refl) H) as Hid.
  destruct (procs w' !! node) as [a|], (procs w !! node) as [b|]; try done.
  injection Hid as ->. done.
Qed.

Lemma FindProcess_links w w' name :
  same_but_links w w' -> FindProcess w' name = FindProcess w name.
Proof.
  intros H. destruct name as [n|]; [|done]. unfold FindProcess.
  rewrite (same_but_links_pFirst w w' H). by apply FindProcess_scan_links.
Qed.

Lemma FindProcess_Some w name q :
  FindProcess w (Some name) = Some q -> is_Some (procs w !! q).
Proof.
  intros H. pose proof (FindProcess_scan_spec w name (pFirst w)) as Hs.
  unfold FindProcess in H. rewrite H in Hs.
  destruct Hs as (_ & _ & p & _ & Hp & _). by exists p.
Qed.

Lemma AddParent_EOK w c p pc pp :
  procs w !! c = Some pc -> procs w !! p = Some pp -> c ≠ p ->
  AddParent w c p
  = (EOK, update p (set_pChildren (c :: pChildren pp))
            (update c (set_pParents (p :: pParents pc)) w)).
Proof.
  intros Hc Hp Hne. unfold AddParent, AddChild. rewrite Hp, Hc.
  assert (Hb : (p =? c)%nat = false) by (apply Nat.eqb_neq; congruence).
  rewrite Hb. cbn [negb].
  rewrite (lookup_update_ne c _ w p Hne), Hp.
  by rewrite (lookup_update_eq c _ w pc Hc).
Qed.

Lemma AddParent_self w c : AddParent w c c = (EINVAL, w).
Proof.
  unfold AddParent. destruct (procs w !! c); [|done].
  by rewrite Nat.eqb_refl.
Qed.

Lemma same_but_links_AddParent w c p :
  same_but_links w (snd (AddParent w c p)).
Proof.
  destruct (decide (c = p)) as [->|Hne];
    [rewrite AddParent_self; apply same_but_links_refl|].
  destruct (procs w !! c) as [pc|] eqn:Hc, (procs w !! p) as [pp|] eqn:Hp.
  - rewrite (AddParent_EOK w c p pc pp Hc Hp Hne). cbn [snd].
    eapply same_but_links_trans; by apply same_but_links_update.
  - unfold AddParent. rewrite Hp. apply same_but_links_refl.
  - unfold AddParent. rewrite Hp, Hc. apply same_but_links_refl.
  - unfold AddParent. rewrite Hp. apply same_but_links_refl.
Qed.

Lemma same_but_links_AddParents_loop h names :
  forall r w, same_but_links w (snd (AddParents_loop h names r w)).
Proof.
  induction names as [|name rest IH]; intros r w; cbn [AddParents_loop];
    [apply same_but_links_refl|].
  destruct (FindProcess w (Some name)) as [q|]; [|apply same_but_links_refl].
  pose proof (same_but_links_AddParent w h q) as H1.
  destruct (AddParent w h q) as [rc w1]. cbn [snd] in H1.
  eapply same_but_links_trans; [exact H1|apply IH].
Qed.

Lemma same_but_links_AddParents w h :
  same_but_links w (snd (AddParents w h)).
Proof.
  unfold AddParents. destruct (procs w !! h); [|apply same_but_links_refl].
  apply same_but_links_AddParents_loop.
Qed.

(** The dependencies of [h] resolve, to descriptors other than [h]. *)
Lemma AddParents_loop_EOK h names :
  forall r w,
    is_Some (procs w !! h) ->
    fst (AddParents_loop h names r w) = EOK <->
    r = EOK /\
    forall name, name ∈ names ->
      exists q, FindProcess w (Some name) = Some q /\ q ≠ h.
Proof.
  induction names as [|name rest IH]; intros r w Hh; cbn [AddParents_loop].
  { cbn [fst]. split; [intros ->; split; [done|]|by intros [-> _]].
    intros n Hn. by apply elem_of_nil in Hn. }
  destruct (FindProcess w (Some name)) as [q|] eqn:Hq.
  - pose proof (same_but_links_AddParent w h q) as Hl.
    destruct (decide (q = h)) as [->|Hne].
    + rewrite AddParent_self. change (negb (EINVAL =? EOK)) with true.
      cbn match. rewrite (IH EINVAL w) by done.
      split; [by intros [? _]|]. intros [_ H].
      destruct (H name) as (q' & Hq' & Hne'); [by left|]. congruence.
    + destruct Hh as [ph Hh]. destruct (FindProcess_Some w name q Hq) as [pq Hpq].
      rewrite (AddParent_EOK w h q ph pq Hh Hpq) in * by done.
      cbn [snd] in Hl. change (negb (EOK =? EOK)) with false. cbn match.
      rewrite (IH r _).
      * split; intros [-> H]; (split; [done|]).
        -- intros n [->|Hn]%elem_of_cons; [by exists q|].
           destruct (H n Hn) as (q' & Hq' & ?). exists q'. split; [|done].
           by rewrite <- (FindProcess_links _ _ (Some n) Hl).
        -- intros n Hn. destruct (H n) as (q' & Hq' & ?); [by right|].
           exists q'. split; [|done].
           by rewrite (FindProcess_links _ _ (Some n) Hl).
      * rewrite lookup_update_ne by done. rewrite (lookup_update_eq _ _ _ ph) by done.
        by eexists.
  - cbn [fst]. split; [done|]. intros [_ H].
    destruct (H name) as (q' & Hq' & _); [by left|]. congruence.
Qed.

Lemma resolves_links w w' h :
  same_but_links w w' -> resolves w' h <-> resolves w h.
Proof.
  intros Hl.
  assert (Hd : forall p p', procs w !! h = Some p -> procs w' !! h = Some p' ->
                 pDepends p' = pDepends p).
  { intros p p' Hp Hp'.
    pose proof (same_but_links_field pDepends w w' h (fun _ => eq_refl) Hl) as H.
    rewrite Hp, Hp' in H. by injection H. }
  pose proof (same_but_links_lookup w w' h Hl) as Hx.
  split; intros (p & Hp & Hn).
  - destruct (procs w !! h) as [p0|] eqn:Hp0; [|by rewrite Hp in Hx].
    exists p0. split; [done|]. intros name Hname.
    destruct (Hn name) as (q & Hq & Hne); [by rewrite (Hd p0 p)|].
    exists q. split; [|done]. by rewrite <- (FindProcess_links w w' _ Hl).
  - destruct (procs w' !! h) as [p0|] eqn:Hp0; [|by rewrite Hp in Hx].
    exists p0. split; [done|]. intros name Hname.
    destruct (Hn name) as (q & Hq & Hne); [by rewrite <- (Hd p p0)|].
    exists q. split; [|done]. by rewrite (FindProcess_links w w' _ Hl).
Qed.

Lemma AddParents_EOK w h : fst (AddParents w h) = EOK <-> resolves w h.
Proof.
  unfold AddParents, resolves. destruct (procs w !! h) as [p|] eqn:Hp.
  - rewrite AddParents_loop_EOK by (by rewrite Hp). split.
    + intros [_ H]. by exists p.
    + intros (p' & [= <-] & H). done.
  - split; [done|]. by intros (p & ? & _).
Qed.

Lemma BuildDependencyLists_fold nodes :
  forall r w,
    let r' := foldl (fun '(result, w) h =>
                       let '(rc, w) := AddParents w h in
                       (if negb (rc =? EOK) then rc else result, w))
                    (r, w) nodes in
    same_but_links w (snd r') /\
    (fst r' = EOK <-> r = EOK /\ forall h, h ∈ nodes -> resolves w h).
Proof.
  induction nodes as [|h rest IH]; intros r w; cbn [foldl].
  { split; [apply same_but_links_refl|]. cbn [fst].
    split; [intros ->; split; [done|]|by intros [-> _]].
    intros h Hh. by apply elem_of_nil in Hh. }
  pose proof (same_but_links_AddParents w h) as Hl.
  pose proof (AddParents_EOK w h) as He.
  destruct (AddParents w h) as [rc w1]. cbn [fst snd] in Hl, He.
  destruct (IH (if negb (rc =? EOK) then rc else r) w1) as [Hl1 He1].
  split; [by eapply same_but_links_trans|].
  rewrite He1. clear IH He1 Hl1.
  destruct (Z.eqb_spec rc EOK) as [->|Hrc]; cbn [negb].
  - split; intros [-> H]; (split; [done|]).
    + intros h' [->|Hh']%elem_of_cons; [by apply He|].
      apply (resolves_links w w1 h' Hl). by apply H.
    + intros h' Hh'. apply (resolves_links w w1 h' Hl). apply H. by right.
  - split; [by intros [? _]|]. intros [_ H]. destruct Hrc. apply He, H. by left.
Qed.

(** X12: BuildDependencyLists succeeds exactly when the dependencies of
    every descriptor of the process list resolve: each name in a "depends"
    array is the id of a listed descriptor, other than the one that names
    it.  Whether it succeeds or not, it changes nothing but the parent and
    child lists. *)
Theorem BuildDependencyLists_EOK (w : World) :
  (fst (BuildDependencyLists w) = EOK <->
   forall h, h ∈ pFirst w -> resolves w h) /\
  same_but_links w (snd (BuildDependencyLists w)).
Proof.
  destruct (BuildDependencyLists_fold (pFirst w) EOK w) as [Hl He].
  split; [|exact Hl]. unfold BuildDependencyLists. rewrite He.
  split; [by intros [_ ?]|done].
Qed.

(** ** Reading the configuration *)






(** ** The links that are built *)

Lemma parents_of_AddParent w c p pc pp i :
  procs w !! c = Some pc -> procs w !! p = Some pp -> c ≠ p ->
  parents_of (snd (AddParent w c p)) i
  = if decide (i = c) then p :: parents_of w i else parents_of w i.
Proof.
  intros Hc Hp Hne. rewrite (AddParent_EOK w c p pc pp Hc Hp Hne).
  unfold parents_of. cbn [snd]. rewrite !lookup_update.
  repeat case_decide; subst; rewrite ?Hc, ?Hp; try done;
    by destruct (procs w !! i).
Qed.

Lemma children_of_AddParent w c p pc pp i :
  procs w !! c = Some pc -> procs w !! p = Some pp -> c ≠ p ->
  children_of (snd (AddParent w c p)) i
  = if decide (i = p) then c :: children_of w i else children_of w i.
Proof.
  intros Hc Hp Hne. rewrite (AddParent_EOK w c p pc pp Hc Hp Hne).
  unfold children_of. cbn [snd]. rewrite !lookup_update.
  repeat case_decide; subst; rewrite ?Hc, ?Hp; try done;
    by destruct (procs w !! i).
Qed.

Lemma AddParent_cases w c p :
  (exists pc pp, procs w !! c = Some pc /\ procs w !! p = Some pp /\ c ≠ p) \/
  AddParent w c p = (EINVAL, w).
Proof.
  destruct (decide (c = p)) as [->|Hne]; [right; apply AddParent_self|].
  destruct (procs w !! c) as [pc|] eqn:Hc, (procs w !! p) as [pp|] eqn:Hp.
  - left. by exists pc, pp.
  - right. unfold AddParent. by rewrite Hp.
  - right. unfold AddParent. by rewrite Hp, Hc.
  - right. unfold AddParent. by rewrite Hp.
Qed.

Lemma linked_both_ways_AddParent w c p :
  linked_both_ways w -> linked_both_ways (snd (AddParent w c p)).
Proof.
  intros Hw.
  destruct (AddParent_cases w c p) as [(pc & pp & Hc & Hp & Hne)| ->]; [|done].
  intros i j.
  rewrite (children_of_AddParent w c p pc pp i Hc Hp Hne).
  rewrite (parents_of_AddParent w c p pc pp j Hc Hp Hne).
  specialize (Hw i j).
  repeat case_decide; subst; rewrite ?elem_of_cons; intuition congruence.
Qed.

Lemma linked_both_ways_AddParents_loop h names :
  forall r w,
    linked_both_ways w -> linked_both_ways (snd (AddParents_loop h names r w)).
Proof.
  induction names as [|name rest IH]; intros r w Hw; cbn [AddParents_loop];
    [done|].
  destruct (FindProcess w (Some name)) as [q|]; [|done].
  pose proof (linked_both_ways_AddParent w h q Hw) as H1.
  destruct (AddParent w h q) as [rc w1]. by apply IH.
Qed.

Lemma linked_both_ways_fold nodes :
  forall r w,
    linked_both_ways w ->
    linked_both_ways
      (snd (foldl (fun '(result, w) h =>
                     let '(rc, w) := AddParents w h in
                     (if negb (rc =? EOK) then rc else result, w))
                  (r, w) nodes)).
Proof.
  induction nodes as [|h rest IH]; intros r w Hw; cbn [foldl]; [done|].
  assert (H1 : linked_both_ways (snd (AddParents w h))).
  { unfold AddParents. destruct (procs w !! h); [|done].
    by apply linked_both_ways_AddParents_loop. }
  destruct (AddParents w h) as [rc w1]. by apply IH.
Qed.

Lemma linked_both_ways_fresh w :
  (forall i p, procs w !! i = Some p -> pParents p = [] /\ pChildren p = []) ->
  linked_both_ways w.
Proof.
  intros H i j. unfold children_of, parents_of.
  destruct (procs w !! i) as [p|] eqn:Hp, (procs w !! j) as [q|] eqn:Hq;
    cbn [from_option];
    try (destruct (H i p Hp) as [_ ->]); try (destruct (H j q Hq) as [-> _]);
    by rewrite !elem_of_nil.
Qed.

(** X14: the child lists are the parent lists read the other way.  If
    every link is entered at both ends before BuildDependencyLists, as it
    is when no descriptor has a parent or a child yet, it is so afterwards,
    whatever the outcome of the function. *)
Theorem BuildDependencyLists_both_ways (w : World) :
  linked_both_ways w -> linked_both_ways (snd (BuildDependencyLists w)).
Proof. apply linked_both_ways_fold. Qed.

Lemma BuildDependencyLists_both_ways_holds :
  Scenario.B ∈ children_of Scenario.loaded Scenario.A /\
  Scenario.A ∈ parents_of Scenario.loaded Scenario.B.
Proof.
  assert (H : Scenario.A ∈ parents_of Scenario.loaded Scenario.B)
    by (vm_compute; left).
  split; [|exact H].
  apply (BuildDependencyLists_both_ways
           (foldl (fun w c => snd (SetupProcess w c)) Scenario.boot
                  Scenario.child_first)); [|exact H].
  apply linked_both_ways_fresh.
  intros i p Hp. destruct i as [|[|i]]; vm_compute in Hp;
    [injection Hp as <-; split; reflexivity..|discriminate Hp].
Defined.

Lemma depends_of_links w w' i :
  same_but_links w w' -> depends_of w' i = depends_of w i.
Proof.
  intros Hl. unfold depends_of.
  pose proof (same_but_links_field pDepends w w' i (fun _ => eq_refl) Hl) as H.
  destruct (procs w' !! i) as [a|], (procs w !! i) as [b|]; try done.
  injection H as H. cbn [from_option]. rewrite H. clear H.
  induction (pDepends b) as [|n l IH]; [done|]. cbn [omap list_omap].
  by rewrite (FindProcess_links w w' (Some n) Hl), IH.
Qed.

Lemma parents_of_AddParents_loop h names :
  forall r w,
    is_Some (procs w !! h) ->
    (forall name, name ∈ names ->
       exists q, FindProcess w (Some name) = Some q /\ q ≠ h) ->
    forall i,
      parents_of (snd (AddParents_loop h names r w)) i
      = if decide (i = h)
        then reverse (omap (fun name => FindProcess w (Some name)) names)
             ++ parents_of w i
        else parents_of w i.
Proof.
  induction names as [|name rest IH]; intros r w Hh Hres i;
    cbn [AddParents_loop omap list_omap].
  { by case_decide. }
  destruct (Hres name) as (q & Hq & Hne); [by left|]. rewrite Hq.
  destruct Hh as [ph Hh]. destruct (FindProcess_Some w name q Hq) as [pq Hpq].
  pose proof (parents_of_AddParent w h q ph pq) as Hpa.
  pose proof (same_but_links_AddParent w h q) as Hl.
  assert (Hh1 : is_Some (procs (snd (AddParent w h q)) !! h)).
  { rewrite (AddParent_EOK w h q ph pq) by done. cbn [snd].
    rewrite lookup_update_ne by done.
    rewrite (lookup_update_eq _ _ _ ph) by done. by eexists. }
  destruct (AddParent w h q) as [rc w1]. cbn [snd] in *.
  rewrite IH; [|done|].
  - rewrite Hpa by done. case_decide; [|done].
    rewrite reverse_cons, <- app_assoc. cbn [app]. f_equal.
    f_equal. clear -Hl. induction rest as [|n l IH]; [done|].
    cbn [omap list_omap]. by rewrite (FindProcess_links w w1 (Some n) Hl), IH.
  - intros n Hn. destruct (Hres n) as (q' & Hq' & ?); [by right|].
    exists q'. split; [|done]. by rewrite (FindProcess_links w w1 (Some n) Hl).
Qed.

Lemma parents_of_AddParents w h i :
  resolves w h ->
  parents_of (snd (AddParents w h)) i
  = if decide (i = h) then reverse (depends_of w h) ++ parents_of w i
    else parents_of w i.
Proof.
  intros (p & Hp & Hres). unfold AddParents, depends_of. rewrite Hp.
  cbn [from_option]. apply parents_of_AddParents_loop; [by rewrite Hp|done].
Qed.

Lemma parents_of_fold nodes :
  forall r w,
    NoDup nodes -> (forall h, h ∈ nodes -> resolves w h) ->
    forall i,
      parents_of
        (snd (foldl (fun '(result, w) h =>
                       let '(rc, w) := AddParents w h in
                       (if negb (rc =? EOK) then rc else result, w))
                    (r, w) nodes)) i
      = if decide (i ∈ nodes) then reverse (depends_of w i) ++ parents_of w i
        else parents_of w i.
Proof.
  induction nodes as [|h rest IH]; intros r w Hnd Hres i; cbn [foldl].
  { case_decide as Hi; [by apply elem_of_nil in Hi|done]. }
  apply NoDup_cons in Hnd as [Hh Hnd].
  pose proof (parents_of_AddParents w h i) as Hpa.
  pose proof (same_but_links_AddParents w h) as Hl.
  destruct (AddParents w h) as [rc w1]. cbn [snd] in *.
  rewrite IH; [|done|].
  - rewrite Hpa by (apply Hres; by left).
    rewrite (depends_of_links w w1 i Hl).
    repeat case_decide; subst; try done; exfalso;
      repeat match goal with
             | H : _ ∉ _ :: _ |- _ => apply not_elem_of_cons in H as [? ?]
             | H : _ ∈ _ :: _ |- _ => apply elem_of_cons in H as [?|?]
             end; subst; done.
  - intros h' Hh'. apply (resolves_links w w1 h' Hl). apply Hres. by right.
Qed.

(** X15: when BuildDependencyLists succeeds on a process list without
    repetition, it has put in front of the parent list of every listed
    descriptor the descriptors that its "depends" array names, the one
    named last coming first; the parent lists of descriptors that are not
    listed are as they were. *)
Theorem BuildDependencyLists_parents (w : World) :
  NoDup (pFirst w) ->
  fst (BuildDependencyLists w) = EOK ->
  forall i,
    parents_of (snd (BuildDependencyLists w)) i
    = if decide (i ∈ pFirst w)
      then reverse (depends_of w i) ++ parents_of w i
      else parents_of w i.
Proof.
  intros Hnd He. apply parents_of_fold; [done|].
  by apply (BuildDependencyLists_fold (pFirst w) EOK w) in He as [_ He].
Qed.

Lemma BuildDependencyLists_parents_holds :
  parents_of Scenario.loaded Scenario.B = [Scenario.A].
Proof.
  unfold Scenario.loaded.
  rewrite (BuildDependencyLists_parents
             (foldl (fun w c => snd (SetupProcess w c)) Scenario.boot
                    Scenario.child_first)).
  - vm_compute. reflexivity.
  - apply (bool_decide_unpack _). vm_compute. exact I.
  - vm_compute. reflexivity.
Defined.

(** ** Starting the processes *)

Lemma start_frame_refl h w : start_frame h w w.
Proof. by split. Qed.

Lemma start_frame_trans h w1 w2 w3 :
  start_frame h w1 w2 -> start_frame h w2 w3 -> start_frame h w1 w3.
Proof.
  intros [H1 H2] [H3 H4]. split; [congruence|]. intros n.
  by rewrite H4, H2.
Qed.

Lemma start_frame_mask h w w' : start_frame None w w' -> start_frame h w w'.
Proof.
  intros [H1 H2]. split; [done|]. intros n. specialize (H2 n).
  destruct (procs w' !! n) as [a|], (procs w !! n) as [b|]; try done.
  injection H2 as Hs Hk Hp. cbn. unfold masked. by rewrite Hs, Hk, Hp.
Qed.

Lemma start_frame_procs h w w' :
  procs w' = procs w -> pFirst w' = pFirst w -> start_frame h w w'.
Proof. intros H1 H2. split; [done|]. intros n. by rewrite H1. Qed.

Lemma start_frame_update_state h s w :
  start_frame (Some h) w (update h (set_state s) w).
Proof.
  split; [done|]. intros n. rewrite lookup_update.
  case_decide as Hn; [|done]. subst n.
  destruct (procs w !! h) as [p|]; [|done]. cbn. unfold masked.
  by destruct (decide (Some h = Some h)).
Qed.

Lemma start_frame_update_thread h' h t w :
  start_frame h' w (update h (set_thread t) w).
Proof.
  split; [done|]. intros n. rewrite lookup_update.
  case_decide; [|done]. by destruct (procs w !! n).
Qed.

Lemma start_frame_sleep E h sec w :
  steady E -> start_frame h w (sleep E sec w).
Proof.
  intros Hs. apply start_frame_mask.
  destruct (Hs (set_clock (clock w + sec * 1000000) (log (EvSleep sec) w)))
    as [H1 H2].
  split; [exact H1|exact H2].
Qed.

Lemma pFirst_sys_kill_pos E w pid_ sig :
  0 < pid_ -> pFirst (snd (sys_kill E w pid_ sig)) = pFirst w.
Proof.
  intros H. unfold sys_kill. destruct (Z.ltb_spec 0 pid_); [|lia].
  destruct (ptab w !! pid_) as [[]|]; [destruct (sig =? 0)|..]; done.
Qed.

Lemma pFirst_sys_close w fd : pFirst (sys_close w fd) = pFirst w.
Proof. unfold sys_close. by destruct (fd <? 3). Qed.

Lemma pFirst_get_pid_from_lockfile E w name :
  pFirst (snd (get_pid_from_lockfile E w name)) = pFirst w.
Proof.
  unfold get_pid_from_lockfile. destruct name as [n|]; [|done].
  unfold sys_open.
  destruct (fs w !! lockfile_path n) as [f|]; cbn [negb fst snd].
  - rewrite fresh_fd_ne. cbn [negb].
    match goal with
    | |- context [sys_close ?v ?fd] =>
        pose proof (pFirst_sys_close v fd) as Hpr;
        set (w1 := sys_close v fd) in *
    end.
    match goal with
    | |- context [sys_kill E w1 ?x 0] => set (q := x)
    end.
    destruct (Z.ltb_spec 0 q) as [Hq|]; [|done].
    pose proof (pFirst_sys_kill_pos E w1 q 0 Hq) as Hk.
    destruct (sys_kill E w1 q 0) as [rc w2]. cbn [snd] in Hk.
    destruct (rc =? -1); [destruct (errno w2 =? ESRCH)|]; cbn [snd];
      by rewrite Hk, Hpr.
  - cbn [Z.eqb Pos.eqb negb].
    match goal with
    | |- context [sys_kill E ?v ?x 0] => set (q := x); set (w1 := v)
    end.
    destruct (Z.ltb_spec 0 q) as [Hq|]; [|done].
    pose proof (pFirst_sys_kill_pos E w1 q 0 Hq) as Hk.
    destruct (sys_kill E w1 q 0) as [rc w2]. cbn [snd] in Hk.
    destruct (rc =? -1); [destruct (errno w2 =? ESRCH)|]; cbn [snd];
      by rewrite Hk.
Qed.

Lemma start_frame_InitProcess E h w :
  start_frame (Some h) w (snd (InitProcess E w h)).
Proof.
  unfold InitProcess. destruct (procs w !! h); [|apply start_frame_refl].
  destruct (pthread_create_rc E w h =? EOK); [|by apply start_frame_procs].
  cbn [snd]. eapply start_frame_trans; [|apply start_frame_update_state].
  eapply start_frame_trans; [|apply start_frame_update_thread].
  by apply start_frame_procs.
Qed.

Lemma start_frame_WaitProcess E h w :
  steady E -> start_frame (Some h) w (WaitProcess E w h).
Proof.
  intros Hs. unfold WaitProcess.
  destruct (procs w !! h) as [p|]; [|apply start_frame_refl].
  destruct (wait p >? 0); [|apply start_frame_refl].
  pose proof (procs_get_pid_from_lockfile E w (id p)) as H1.
  pose proof (pFirst_get_pid_from_lockfile E w (id p)) as H2.
  destruct (get_pid_from_lockfile E w (id p)) as [pid_ w1]. cbn [snd] in *.
  assert (H : start_frame (Some h) w w1) by (by apply start_frame_procs).
  destruct (pid_ =? 0); [|exact H].
  destruct (_ || _); [|exact H].
  eapply start_frame_trans; [exact H|].
  eapply start_frame_trans; [apply start_frame_update_state|].
  by apply start_frame_sleep.
Qed.

Lemma start_frame_Run E h w :
  steady E -> start_frame (Some h) w (snd (Run E w h)).
Proof.
  intros Hs. unfold Run.
  destruct (procs w !! h) as [p|]; [|apply start_frame_refl].
  cbn [snd]. eapply start_frame_trans; [|apply start_frame_update_state].
  destruct (negb (skip p)); [|apply start_frame_refl].
  pose proof (start_frame_InitProcess E h w) as H1.
  destruct (InitProcess E w h) as [rc w1]. cbn [snd] in H1.
  eapply start_frame_trans; [exact H1|]. by apply start_frame_WaitProcess.
Qed.

Lemma start_frame_lookup h w w' n p :
  start_frame h w w' -> procs w !! n = Some p ->
  exists p', procs w' !! n = Some p' /\ skip p' = skip p /\
             pParents p' = pParents p /\ (h ≠ Some n -> state p' = state p).
Proof.
  intros [_ H] Hp. specialize (H n). rewrite Hp in H.
  destruct (procs w' !! n) as [p'|]; [|done]. exists p'.
  injection H as Hs Hk Hpa. repeat split; [done..|].
  intros Hn. by destruct (decide (h = Some n)).
Qed.



Lemma RunProcesses_sweep_false E nodes :
  forall w, fst (RunProcesses_sweep E nodes false w) = false.
Proof.
  induction nodes as [|h rest IH]; intros w; cbn [RunProcesses_sweep]; [done|].
  destruct (Runnable w h =? EOK); [|apply IH].
  destruct (Run E w h) as [rc w1]. apply IH.
Qed.

Lemma pFirst_RunProcesses_sweep E nodes :
  steady E ->
  forall running w,
    pFirst (snd (RunProcesses_sweep E nodes running w)) = pFirst w.
Proof.
  intros Hs. induction nodes as [|h rest IH]; intros running w;
    cbn [RunProcesses_sweep]; [done|].
  destruct (Runnable w h =? EOK); [|apply IH].
  pose proof (start_frame_Run E h w Hs) as [H _].
  destruct (Run E w h) as [rc w1]. cbn [snd] in H. by rewrite IH.
Qed.

Section Stuck.

Variable E : Env.
Variable S : handle -> Prop.
Hypothesis Hsteady : steady E.

Lemma stuck_not_Runnable w h : stuck S w -> S h -> Runnable w h ≠ EOK.
Proof.
  intros Hw Hh Hr. apply Runnable_EOK in Hr as (p & Hp & Hall).
  destruct (Hw h Hh) as (p' & Hp' & _ & n & Hn & HSn).
  rewrite Hp in Hp'. injection Hp' as <-.
  destruct (Hw n HSn) as (q & Hq & Hst & _). by apply Hst, (Hall n q).
Qed.

Lemma stuck_frame w w' h :
  stuck S w -> ~ S h -> start_frame (Some h) w w' -> stuck S w'.
Proof.
  intros Hw Hh Hf x Hx. destruct (Hw x Hx) as (p & Hp & Hst & n & Hn & HSn).
  destruct (start_frame_lookup _ _ _ x p Hf Hp) as (p' & Hp' & _ & Hpa & Hs).
  exists p'. split; [done|]. split.
  - rewrite Hs; [done|]. intros [= ->]. done.
  - exists n. by rewrite Hpa.
Qed.

Lemma RunProcesses_sweep_stuck nodes :
  forall running w,
    stuck S w ->
    stuck S (snd (RunProcesses_sweep E nodes running w)) /\
    ((exists h, h ∈ nodes /\ S h) ->
     fst (RunProcesses_sweep E nodes running w) = false).
Proof.
  induction nodes as [|h rest IH]; intros running w Hw;
    cbn [RunProcesses_sweep].
  { split; [done|]. intros (h & Hh & _). by apply elem_of_nil in Hh. }
  destruct (Z.eqb_spec (Runnable w h) EOK) as [Hr|Hr].
  - assert (Hh : ~ S h) by (intros Hh; by apply (stuck_not_Runnable w h)).
    pose proof (start_frame_Run E h w Hsteady) as Hf.
    destruct (Run E w h) as [rc w1]. cbn [snd] in Hf.
    destruct (IH running w1 (stuck_frame w w1 h Hw Hh Hf)) as [H1 H2].
    split; [done|]. intros (x & [->|Hx]%elem_of_cons & HSx); [done|].
    apply H2. by exists x.
  - destruct (IH false w Hw) as [H1 _]. split; [done|].
    intros _. apply RunProcesses_sweep_false.
Qed.

Lemma RunProcesses_loop_stuck fuel :
  forall w,
    stuck S w -> (exists h, h ∈ pFirst w /\ S h) ->
    RunProcesses_loop E fuel false w = None.
Proof.
  induction fuel as [|fuel IH]; intros w Hw Hex; cbn [RunProcesses_loop];
    [done|].
  destruct (RunProcesses_sweep_stuck (pFirst w) true w Hw) as [H1 H2].
  pose proof (pFirst_RunProcesses_sweep E (pFirst w) Hsteady true w) as H3.
  specialize (H2 Hex).
  destruct (RunProcesses_sweep E (pFirst w) true w) as [running w1].
  cbn [fst snd] in *. subst running. apply IH; [done|]. by rewrite H3.
Qed.

End Stuck.

(** X16: a dependency cycle hangs the start.  Let S be a set of
    descriptors, one of them in the process list, each of them short of
    RUNNING and with a parent in S (stuck), as on a cycle of dependencies
    and on everything that depends on one.  Then, as long as the other threads
    leave states and parent lists alone, RunProcesses never returns: its
    outer loop goes round without an end, however much fuel it is given. *)
Theorem RunProcesses_cycle (E : Env) (S : handle -> Prop) (w : World) :
  steady E ->
  (exists h, h ∈ pFirst w /\ S h) ->
  stuck S w ->
  forall fuel, RunProcesses E fuel w = None.
Proof.
  intros Hs Hex Hw fuel. unfold RunProcesses.
  by rewrite (RunProcesses_loop_stuck E S Hs fuel w Hw Hex).
Qed.

Lemma RunProcesses_cycle_holds :
  RunProcesses Scenario.env 1000 Cases.cyclic = None.
Proof.
  apply (RunProcesses_cycle Scenario.env (fun h => h = 0%nat \/ h = 1%nat)).
  - intros w. split; [reflexivity|intros n; reflexivity].
  - exists 0%nat. split; [left|left; reflexivity].
  - intros h [-> | ->].
    + eexists. split; [reflexivity|]. split; [discriminate|].
      exists 1%nat. split; [left|right; reflexivity].
    + eexists. split; [reflexivity|]. split; [discriminate|].
      exists 0%nat. split; [left|left; reflexivity].
Defined.

Section StartCalls.

Variable E : Env.
Variable P : Event -> Prop.
Hypothesis HPo : forall path fd, P (EvOpen path fd).
Hypothesis HPk : forall p s rc, P (EvKill p s rc).
Hypothesis HPs : forall sec, P (EvSleep sec).



End StartCalls.








(** ** Shutdown *)

Lemma fs_remove_lockfile w name path :
  fs (snd (remove_lockfile w (Some name))) !! path
  = if decide (path = lockfile_path name) then None else fs w !! path.
Proof.
  unfold remove_lockfile, sys_unlink.
  destruct (fs w !! lockfile_path name) as [f|] eqn:Hf; cbn [snd fs log
    set_trace set_fs set_errno Z.eqb]; case_decide as Hp; subst.
  - apply lookup_delete_eq.
  - by apply lookup_delete_ne.
  - change (-1 =? -1) with true. cbn [snd fs log set_trace set_errno]. done.
  - change (-1 =? -1) with true. cbn [snd fs log set_trace set_errno]. done.
Qed.

(** X18: names that begin with "procmon" are out of reach of the
    shutdown.  Let every lockfile in /tmp have a name of at most 50
    characters, so that the buffer of remove_lockfile holds its path.
    Whatever else /tmp holds and whatever the rest of the system does,
    ShutdownAllProcesses never opens the lockfile of a name that
    begins with "procmon", procmon1 excepted, and the only such lockfile it
    unlinks besides is that of procmon2; when it returns, the lockfiles of
    procmon1 and procmon2 are both gone. *)
Theorem ShutdownAllProcesses_procmon_names (E : Env) (w : World)
    (name : string) :
  tmp_fits w ->
  String.prefix "procmon" name = true -> name ≠ "procmon1" ->
  emits (fun e => (forall fd, e ≠ EvOpen (lockfile_path name) fd) /\
                  (name ≠ "procmon2" ->
                   forall rc, e ≠ EvUnlink (lockfile_path name) rc))
        w (snd (ShutdownAllProcesses E w)) /\
  fs (snd (ShutdownAllProcesses E w)) !! lockfile_path "procmon1" = None /\
  fs (snd (ShutdownAllProcesses E w)) !! lockfile_path "procmon2" = None.
Proof.
  intros _ Hpre Hne1.
  set (P := fun e => (forall fd, e ≠ EvOpen (lockfile_path name) fd) /\
                     (name ≠ "procmon2" ->
                      forall rc, e ≠ EvUnlink (lockfile_path name) rc)).
  assert (Hterm : forall w other cmd,
             other ≠ name ->
             emits P w (snd (terminate_command E w (Some other) cmd))).
  { intros w0 other cmd Hne. apply emits_terminate_command; try done.
    intros fd. split; [|done]. intros fd' Heq. apply Hne.
    apply lockfile_path_inj. congruence. }
  assert (Hrm : forall w other,
             (other = name -> name = "procmon2") ->
             emits P w (snd (remove_lockfile w (Some other)))).
  { intros w0 other Hne. apply emits_remove_lockfile. intros rc.
    split; [done|]. intros Hn2 rc' Heq. apply Hn2, Hne.
    apply lockfile_path_inj. congruence. }
  assert (Hloop : forall entries result w0,
             emits P w0 (snd (ShutdownAllProcesses_loop E entries result w0))).
  { induction entries as [|d_name entries IH]; intros result w0;
      cbn [ShutdownAllProcesses_loop]; [apply emits_refl|].
    destruct (String.prefix "procmon." d_name); [|apply IH].
    destruct (String.prefix "procmon" (string_drop 8 d_name)) eqn:Hp;
      cbn [negb]; [apply IH|].
    unfold terminate_and_stop_monitoring.
    assert (Hne : string_drop 8 d_name ≠ name) by congruence.
    pose proof (Hterm w0 _ 0xDEAFBABE Hne) as Ht.
    destruct (terminate_command E w0 _ _) as [rc w1]. cbn [snd] in Ht.
    eapply emits_trans; [exact Ht|].
    destruct (negb (rc =? EOK)); [|apply IH].
    pose proof (Hrm w1 (string_drop 8 d_name)) as Hr.
    destruct (remove_lockfile w1 _) as [rr w2]. cbn [snd] in Hr.
    eapply emits_trans; [by apply Hr|apply IH]. }
  unfold ShutdownAllProcesses, terminate_and_stop_monitoring.
  pose proof (Hloop (readdir w "/tmp") EOK w) as H1.
  destruct (ShutdownAllProcesses_loop E _ _ w) as [result w1]. cbn [snd] in H1.
  pose proof (Hterm (sleep E 1 w1) "procmon1" 0xDEAFBABE) as H2.
  destruct (terminate_command E (sleep E 1 w1) _ _) as [r2 w2]. cbn [snd] in H2.
  pose proof (Hterm w2 "procmon1" 0xDEAFBABE) as H3.
  destruct (terminate_command E w2 _ _) as [r3 w3]. cbn [snd] in H3.
  pose proof (Hrm (sleep E 1 w3) "procmon1") as H4.
  pose proof (fs_remove_lockfile (sleep E 1 w3) "procmon1") as F4.
  destruct (remove_lockfile (sleep E 1 w3) _) as [r4 w4]. cbn [snd] in H4, F4.
  pose proof (Hrm w4 "procmon2") as H5.
  pose proof (fs_remove_lockfile w4 "procmon2") as F5.
  destruct (remove_lockfile w4 _) as [r5 w5]. cbn [snd] in H5, F5.
  split; [|split].
  - eapply emits_trans; [exact H1|].
    eapply emits_trans; [apply (emits_sleep E P 1 w1); by split|].
    eapply emits_trans; [apply H2; congruence|].
    eapply emits_trans; [apply H3; congruence|].
    eapply emits_trans; [apply (emits_sleep E P 1 w3); by split|].
    eapply emits_trans; [apply H4; congruence|]. by apply H5.
  - rewrite F5, F4. by repeat case_decide.
  - rewrite F5. by case_decide.
Qed.

Lemma ShutdownAllProcesses_procmon_names_holds :
  fs (snd (ShutdownAllProcesses Scenario.env Scenario.at_shutdown))
     !! lockfile_path "procmon2" = None.
Proof.
  refine (proj2 (proj2 (ShutdownAllProcesses_procmon_names Scenario.env
                          Scenario.at_shutdown "procmon2" _ _ _))).
  - apply (bool_decide_unpack _). vm_compute. exact I.
  - reflexivity.
  - discriminate.
Defined.

Lemma string_app_cons c s t : String c s +:+ t = String c (s +:+ t).
Proof. done. Qed.

Lemma string_app_nil_l t : "" +:+ t = t.
Proof. done. Qed.

Lemma prefix_app s t : String.prefix s (s +:+ t) = true.
Proof.
  induction s as [|c s IH]; [by destruct t|].
  rewrite string_app_cons. cbn [String.prefix].
  by destruct (Ascii.ascii_dec c c).
Qed.

Lemma string_drop_app s t : string_drop (String.length s) (s +:+ t) = t.
Proof.
  unfold string_drop. induction s as [|c s IH].
  - rewrite string_app_nil_l. apply substring_all. cbn. lia.
  - rewrite string_app_cons. exact IH.
Qed.

Lemma has_slash_procmon name :
  has_slash ("procmon." +:+ name) = has_slash name.
Proof.
  unfold has_slash. rewrite !string_app_cons, string_app_nil_l. cbn.
  by destruct (String.index 0 "/" name).
Qed.

Lemma readdir_lockfile w name f :
  fs w !! lockfile_path name = Some f -> has_slash name = false ->
  "procmon." +:+ name ∈ readdir w "/tmp".
Proof.
  intros Hf Hs. unfold readdir. apply list_elem_of_omap.
  exists (lockfile_path name). split.
  - apply list_elem_of_fmap. exists (lockfile_path name, f). split; [done|].
    by apply elem_of_map_to_list.
  - assert (Hp : String.prefix ("/tmp" +:+ "/") (lockfile_path name) = true)
      by apply (prefix_app "/tmp/" ("procmon." +:+ name)).
    assert (Hd : string_drop (String.length "/tmp" + 1) (lockfile_path name)
                 = "procmon." +:+ name)
      by apply (string_drop_app "/tmp/" ("procmon." +:+ name)).
    rewrite Hp. cbn zeta. by rewrite Hd, has_slash_procmon, Hs.
Qed.

Section Shutdown.

Variable E : Env.
Hypothesis Hla : left_alone E.

Lemma left_alone_never_creates path : never_creates E path.
Proof. intros w Hw. by rewrite (proj1 (Hla w)). Qed.

Lemma left_alone_sleep sec w :
  fs (sleep E sec w) = fs w /\ ptab (sleep E sec w) = ptab w.
Proof.
  destruct (Hla (set_clock (clock w + sec * 1000000) (log (EvSleep sec) w)))
    as [H1 H2].
  split; [exact H1|exact H2].
Qed.

Lemma left_alone_usleep us w :
  fs (usleep E us w) = fs w /\ ptab (usleep E us w) = ptab w.
Proof.
  destruct (Hla (set_clock (clock w + us) (log (EvUsleep us) w))) as [H1 H2].
  split; [exact H1|exact H2].
Qed.

Lemma left_alone_open_lockfile_loop path :
  forall fuel tries w r,
    fs w !! path = None ->
    open_lockfile_loop E fuel path tries (-1) w = Some r ->
    fs (snd r) = fs w /\ ptab (snd r) = ptab w.
Proof.
  induction fuel as [|fuel IH]; intros tries w r Hf; [done|].
  rewrite open_lockfile_loop_S.
  destruct (tries <? 5); cbn [andb Z.eqb Pos.eqb].
  - rewrite (sys_open_missing w path Hf). cbn [Z.eqb Pos.eqb].
    intros Hr. apply IH in Hr as [H1 H2].
    + destruct (left_alone_usleep 100000
                  (log (EvOpen path (-1)) (set_errno ENOENT w))) as [H3 H4].
      split; [by rewrite H1, H3|by rewrite H2, H4].
    + rewrite (proj1 (left_alone_usleep _ _)). exact Hf.
  - by intros [= <-].
Qed.

Lemma terminate_command_missing w other cmd :
  fs w !! lockfile_path other = None ->
  fst (terminate_command E w (Some other) cmd) = ENOENT /\
  fs (snd (terminate_command E w (Some other) cmd)) = fs w /\
  ptab (snd (terminate_command E w (Some other) cmd)) = ptab w.
Proof.
  intros Hf.
  destruct (open_lockfile_missing E w other (left_alone_never_creates _) Hf)
    as (Hfd & _ & Herr & _).
  destruct (open_lockfile_loop_spec E (lockfile_path other) 6 0 w)
    as (k & fd & w' & Hrun & _); [lia|lia|].
  destruct (left_alone_open_lockfile_loop _ 6 0 w (fd, w') Hf Hrun)
    as [H1 H2].
  assert (Hopen : open_lockfile E w (Some other) = (fd, w'))
    by (unfold open_lockfile, open_lockfile_fuel; by rewrite Hrun).
  rewrite Hopen in Hfd, Herr. cbn [fst snd] in *. subst fd.
  unfold terminate_command. rewrite Hopen.
  cbn [Z.eqb Pos.eqb negb fst snd]. by rewrite Herr.
Qed.

Lemma terminate_command_effect w other cmd :
  holds_pids w ->
  let w' := snd (terminate_command E w (Some other) cmd) in
  (forall path, path ≠ lockfile_path other -> fs w' !! path = fs w !! path) /\
  fs w' !! lockfile_path other
  = (fun g => mkFile (mkLockData (ld_pid (f_ldata g)) cmd
                        (ld_runcount (f_ldata g)) (time w)) (f_exec g))
    <$> fs w !! lockfile_path other /\
  (forall pid_, ptab w' !! pid_ = Some true -> ptab w !! pid_ = Some true) /\
  (forall g, fs w !! lockfile_path other = Some g ->
             ptab w' !! ld_pid (f_ldata g) ≠ Some true) /\
  (fs w !! lockfile_path other = None ->
   fst (terminate_command E w (Some other) cmd) = ENOENT).
Proof.
  intros Hpid. destruct (fs w !! lockfile_path other) as [g|] eqn:Hg.
  - destruct (terminate_command_found E w other g cmd Hg (Hpid _ _ Hg))
      as (Hfs & Hpt & _).
    cbn zeta. rewrite Hfs, Hpt. repeat split.
    + intros path Hne. by apply lookup_insert_ne.
    + apply lookup_insert_eq.
    + intros pid_. destruct (ptab w !! ld_pid (f_ldata g)) as [[]|]; [|done..].
      intros H. by apply lookup_delete_Some in H as [_ H].
    + intros g' [= <-].
      destruct (ptab w !! ld_pid (f_ldata g)) as [[]|] eqn:Hp;
        [by rewrite lookup_delete_eq|by rewrite Hp..].
    + done.
  - destruct (terminate_command_missing w other cmd Hg) as (H1 & H2 & H3).
    cbn zeta. rewrite H2, H3, Hg. by repeat split.
Qed.

Lemma ptab_remove_lockfile w other :
  ptab (snd (remove_lockfile w (Some other))) = ptab w.
Proof.
  unfold remove_lockfile, sys_unlink.
  destruct (fs w !! lockfile_path other); cbn [Z.eqb]; [done|].
  by change (-1 =? -1) with true.
Qed.

(** One round of the loop of ShutdownAllProcesses on [other]. *)
Lemma stop_round w other :
  holds_pids w ->
  let r := terminate_and_stop_monitoring E w (Some other) in
  let w' := if negb (fst r =? EOK)
            then snd (remove_lockfile (snd r) (Some other)) else snd r in
  holds_pids w' /\
  (forall path pid_, path ≠ lockfile_path other ->
     (pending w path pid_ -> pending w' path pid_) /\
     (stopped w path pid_ -> stopped w' path pid_)) /\
  (forall pid_, pending w (lockfile_path other) pid_ \/
                stopped w (lockfile_path other) pid_ ->
                stopped w' (lockfile_path other) pid_).
Proof.
  intros Hpid. unfold terminate_and_stop_monitoring.
  destruct (terminate_command_effect w other 0xDEAFBABE Hpid)
    as (Hfr & Hat & Hsh & Hdead & Hmiss).
  destruct (terminate_command E w (Some other) 0xDEAFBABE) as [rc w1].
  cbn [fst snd] in *. cbn zeta.
  set (w' := if negb (rc =? EOK) then snd (remove_lockfile w1 (Some other))
             else w1).
  assert (Hfs : forall path,
             fs w' !! path = fs w1 !! path \/
             (path = lockfile_path other /\ fs w' !! path = None)).
  { intros path. unfold w'. destruct (negb (rc =? EOK)); [|by left].
    rewrite fs_remove_lockfile. case_decide; [by right|by left]. }
  assert (Hpt : ptab w' = ptab w1).
  { unfold w'. destruct (negb (rc =? EOK)); [|done].
    apply ptab_remove_lockfile. }
  assert (Hmiss' : fs w !! lockfile_path other = None ->
                   fs w' !! lockfile_path other = None).
  { intros Hn. destruct (Hfs (lockfile_path other)) as [H|[_ H]]; [|done].
    by rewrite H, Hat, Hn. }
  split; [|split].
  - intros path g Hg. destruct (Hfs path) as [H|[_ H]]; [|congruence].
    rewrite H in Hg. destruct (decide (path = lockfile_path other)) as [->|Hne].
    + rewrite Hat in Hg. destruct (fs w !! lockfile_path other) as [g0|] eqn:Hg0;
        [|done]. injection Hg as <-. by apply (Hpid _ _ Hg0).
    + rewrite Hfr in Hg by done. by apply (Hpid _ _ Hg).
  - intros path pid_ Hne.
    assert (Hsame : fs w' !! path = fs w !! path).
    { destruct (Hfs path) as [H|[? _]]; [|done]. by rewrite H, Hfr. }
    split.
    + intros (g & Hg & Hp). exists g. by rewrite Hsame.
    + intros [H1 H2]. split; [by rewrite Hsame|].
      rewrite Hpt. intros H. by apply H2, Hsh.
  - intros pid_ Hps. unfold stopped.
    destruct (fs w !! lockfile_path other) as [g0|] eqn:Hg0.
    + assert (Hp0 : ld_pid (f_ldata g0) = pid_).
      { destruct Hps as [(g & Hg & Hp)|[H _]].
        - rewrite Hg0 in Hg. by injection Hg as <-.
        - unfold stopped in H. rewrite Hg0 in H. by destruct H. }
      split.
      * destruct (Hfs (lockfile_path other)) as [H|[_ H]]; rewrite H; [|done].
        rewrite Hat. cbn. done.
      * rewrite Hpt, <- Hp0. by apply Hdead.
    + rewrite Hmiss' by done. split; [done|].
      destruct Hps as [(g & Hg & _)|[_ H]]; [rewrite Hg0 in Hg; done|].
      rewrite Hpt. intros Ht. by apply H, Hsh.
Qed.

End Shutdown.

Lemma stopped_same w w' path pid_ :
  fs w' !! path = fs w !! path ->
  (forall p, ptab w' !! p = Some true -> ptab w !! p = Some true) ->
  stopped w path pid_ -> stopped w' path pid_.
Proof.
  intros Hfs Hpt [H1 H2]. split; [by rewrite Hfs|]. intros H. by apply H2, Hpt.
Qed.

Lemma holds_pids_same w w' : fs w' = fs w -> holds_pids w -> holds_pids w'.
Proof. unfold holds_pids. by intros ->. Qed.

Lemma terminate_command_keeps E w other cmd :
  left_alone E -> holds_pids w ->
  holds_pids (snd (terminate_command E w (Some other) cmd)) /\
  forall path pid_,
    path ≠ lockfile_path other -> stopped w path pid_ ->
    stopped (snd (terminate_command E w (Some other) cmd)) path pid_.
Proof.
  intros Hla Hpid.
  destruct (terminate_command_effect E Hla w other cmd Hpid)
    as (Hfr & Hat & Hsh & _).
  split.
  - intros path g Hg. destruct (decide (path = lockfile_path other)) as [->|Hne].
    + rewrite Hat in Hg. destruct (fs w !! lockfile_path other) as [g0|] eqn:Hg0;
        [|done]. injection Hg as <-. by apply (Hpid _ _ Hg0).
    + rewrite Hfr in Hg by done. by apply (Hpid _ _ Hg).
  - intros path pid_ Hne. apply stopped_same; [by apply Hfr|exact Hsh].
Qed.

Lemma ShutdownAllProcesses_loop_stops E path pid_ :
  left_alone E ->
  forall entries result w,
    holds_pids w ->
    pending w path pid_ \/ stopped w path pid_ ->
    let w' := snd (ShutdownAllProcesses_loop E entries result w) in
    holds_pids w' /\
    (pending w' path pid_ \/ stopped w' path pid_) /\
    (stopped w path pid_ \/
     (exists d, d ∈ entries /\ String.prefix "procmon." d = true /\
                String.prefix "procmon" (string_drop 8 d) = false /\
                lockfile_path (string_drop 8 d) = path) ->
     stopped w' path pid_).
Proof.
  intros Hla. induction entries as [|d rest IH]; intros result w Hpid Hps;
    cbn [ShutdownAllProcesses_loop].
  { cbn zeta. cbn [snd]. split; [done|]. split; [done|].
    intros [H|(d & Hd & _)]; [done|]. by apply elem_of_nil in Hd. }
  assert (Hskip :
    (String.prefix "procmon." d = false \/
     String.prefix "procmon" (string_drop 8 d) = true) ->
    let w' := snd (ShutdownAllProcesses_loop E rest result w) in
    holds_pids w' /\
    (pending w' path pid_ \/ stopped w' path pid_) /\
    (stopped w path pid_ \/
     (exists d', d' ∈ d :: rest /\ String.prefix "procmon." d' = true /\
                 String.prefix "procmon" (string_drop 8 d') = false /\
                 lockfile_path (string_drop 8 d') = path) ->
     stopped w' path pid_)).
  { intros Hno. destruct (IH result w Hpid Hps) as (H1 & H2 & H3).
    cbn zeta. split; [done|]. split; [done|].
    intros [H|(d' & [->|Hd']%elem_of_cons & Hp1 & Hp2 & Hp3)].
    - apply H3. by left.
    - destruct Hno; congruence.
    - apply H3. right. by exists d'. }
  destruct (String.prefix "procmon." d) eqn:Hp1; [|apply Hskip; by left].
  destruct (String.prefix "procmon" (string_drop 8 d)) eqn:Hp2; cbn [negb];
    [apply Hskip; by right|]. clear Hskip.
  destruct (stop_round E Hla w (string_drop 8 d) Hpid) as (Hpid2 & Hoth & Hthis).
  destruct (terminate_and_stop_monitoring E w (Some (string_drop 8 d)))
    as [rc w1].
  cbn [fst snd] in Hpid2, Hoth, Hthis.
  assert (Hstep : forall w2 result2,
    holds_pids w2 ->
    (forall path pid_, path ≠ lockfile_path (string_drop 8 d) ->
       (pending w path pid_ -> pending w2 path pid_) /\
       (stopped w path pid_ -> stopped w2 path pid_)) ->
    (forall pid_, pending w (lockfile_path (string_drop 8 d)) pid_ \/
                  stopped w (lockfile_path (string_drop 8 d)) pid_ ->
                  stopped w2 (lockfile_path (string_drop 8 d)) pid_) ->
    let w' := snd (ShutdownAllProcesses_loop E rest result2 w2) in
    holds_pids w' /\
    (pending w' path pid_ \/ stopped w' path pid_) /\
    (stopped w path pid_ \/
     (exists d', d' ∈ d :: rest /\ String.prefix "procmon." d' = true /\
                 String.prefix "procmon" (string_drop 8 d') = false /\
                 lockfile_path (string_drop 8 d') = path) ->
     stopped w' path pid_)).
  { intros w2 result2 G1 G2 G3.
    destruct (decide (path = lockfile_path (string_drop 8 d))) as [->|Hne].
    - pose proof (G3 pid_ Hps) as Hst.
      destruct (IH result2 w2 G1 (or_intror Hst)) as (H1 & H2 & H3).
      cbn zeta. split; [done|]. split; [done|]. intros _. apply H3. by left.
    - destruct (G2 path pid_ Hne) as [Gp Gs].
      assert (Hps2 : pending w2 path pid_ \/ stopped w2 path pid_)
        by (destruct Hps; [left; by apply Gp|right; by apply Gs]).
      destruct (IH result2 w2 G1 Hps2) as (H1 & H2 & H3).
      cbn zeta. split; [done|]. split; [done|].
      intros [H|(d' & [->|Hd']%elem_of_cons & Hq1 & Hq2 & Hq3)].
      + apply H3. left. by apply Gs.
      + by destruct Hne.
      + apply H3. right. by exists d'. }
  destruct (negb (rc =? EOK)).
  - destruct (remove_lockfile w1 (Some (string_drop 8 d))) as [rr w2].
    cbn [snd] in *. by apply Hstep.
  - by apply Hstep.
Qed.

(** X19: what the shutdown does to a service.  Take a lockfile in /tmp
    whose name does not begin with "procmon".  If every lockfile in /tmp
    has a name of at most 50 characters, so that the buffer of
    remove_lockfile holds its path, every lockfile holds a positive pid
    and the rest of the system leaves files and processes
    alone meanwhile, then after ShutdownAllProcesses the lockfile is either
    removed, or it holds the command to stop monitoring for good and the
    pid it held; and that pid is no longer the pid of a process the caller
    may signal. *)
Theorem ShutdownAllProcesses_stops (E : Env) (w : World) (name : string)
    (f : File) :
  tmp_fits w ->
  left_alone E -> holds_pids w ->
  fs w !! lockfile_path name = Some f ->
  String.prefix "procmon" name = false -> has_slash name = false ->
  stopped (snd (ShutdownAllProcesses E w)) (lockfile_path name)
          (ld_pid (f_ldata f)).
Proof.
  intros _ Hla Hpid Hf Hpre Hslash.
  set (L := lockfile_path name). set (pid_ := ld_pid (f_ldata f)).
  assert (Hne : forall other, String.prefix "procmon" other = true ->
                              L ≠ lockfile_path other).
  { intros other Ho Heq. apply lockfile_path_inj in Heq. congruence. }
  destruct (ShutdownAllProcesses_loop_stops E L pid_ Hla (readdir w "/tmp")
              EOK w Hpid) as (Hp1 & _ & Hs1).
  { left. by exists f. }
  assert (H1 : stopped (snd (ShutdownAllProcesses_loop E (readdir w "/tmp")
                               EOK w)) L pid_).
  { assert (Hd : string_drop 8 ("procmon." +:+ name) = name)
      by apply (string_drop_app "procmon." name).
    apply Hs1. right. exists ("procmon." +:+ name). rewrite Hd.
    split; [by eapply readdir_lockfile|].
    split; [apply prefix_app|]. by split. }
  clear Hs1. unfold ShutdownAllProcesses, terminate_and_stop_monitoring.
  destruct (ShutdownAllProcesses_loop E (readdir w "/tmp") EOK w)
    as [result w1]. cbn [snd] in Hp1, H1.
  destruct (left_alone_sleep E Hla 1 w1) as [Hf2 Hpt2].
  set (w2 := sleep E 1 w1) in *.
  assert (Hp2 : holds_pids w2) by (by apply (holds_pids_same w1)).
  assert (H2 : stopped w2 L pid_).
  { apply (stopped_same w1); [by rewrite Hf2|by rewrite Hpt2|done]. }
  destruct (terminate_command_keeps E w2 "procmon1" 0xDEAFBABE Hla Hp2)
    as [Hp3 K3].
  pose proof (K3 L pid_ (Hne "procmon1" eq_refl) H2) as H3. clear K3.
  destruct (terminate_command E w2 (Some "procmon1") 0xDEAFBABE) as [r3 w3].
  cbn [snd] in Hp3, H3.
  destruct (terminate_command_keeps E w3 "procmon1" 0xDEAFBABE Hla Hp3)
    as [Hp4 K4].
  pose proof (K4 L pid_ (Hne "procmon1" eq_refl) H3) as H4. clear K4.
  destruct (terminate_command E w3 (Some "procmon1") 0xDEAFBABE) as [r4 w4].
  cbn [snd] in Hp4, H4.
  destruct (left_alone_sleep E Hla 1 w4) as [Hf5 Hpt5].
  set (w5 := sleep E 1 w4) in *.
  assert (H5 : stopped w5 L pid_).
  { apply (stopped_same w4); [by rewrite Hf5|by rewrite Hpt5|done]. }
  pose proof (fs_remove_lockfile w5 "procmon1" L) as F6.
  pose proof (ptab_remove_lockfile w5 "procmon1") as P6.
  destruct (remove_lockfile w5 (Some "procmon1")) as [r6 w6].
  cbn [snd] in F6, P6.
  pose proof (fs_remove_lockfile w6 "procmon2" L) as F7.
  pose proof (ptab_remove_lockfile w6 "procmon2") as P7.
  destruct (remove_lockfile w6 (Some "procmon2")) as [r7 w7].
  cbn [snd] in F7, P7. cbn [snd].
  rewrite decide_False in F6 by (by apply Hne).
  rewrite decide_False in F7 by (by apply Hne).
  apply (stopped_same w5); [by rewrite F7, F6|by rewrite P7, P6|done].
Qed.

Lemma ShutdownAllProcesses_stops_holds :
  stopped (snd (ShutdownAllProcesses Scenario.env Scenario.at_shutdown))
          (lockfile_path "web") 12.
Proof.
  apply (ShutdownAllProcesses_stops Scenario.env Scenario.at_shutdown "web"
           (Scenario.lockfile_of 12 "/usr/bin/web")).
  - apply (bool_decide_unpack _). vm_compute. exact I.
  - intros w. split; reflexivity.
  - apply (bool_decide_unpack _). vm_compute. exact I.
  - reflexivity.
  - reflexivity.
  - reflexivity.
Defined.

(** ** restart *)

(** X20: for a name of at most 242 characters whose lockfile exists and
    holds a positive pid, restart sends SIGKILL to that pid and writes
    nothing: every file is as it was.  It returns EOK when the process
    could be signalled, EPERM when it may not be, ESRCH when there is
    none.  Unless a terminate command is pending in the lockfile, the probe
    of the monitor then answers 0, which is what makes the monitor spawn
    the process anew, when no live process has the pid, and the pid as
    long as one has, as when the caller may not signal it. *)
Theorem restart_respawns (E : Env) (w : World) (name : string) (f : File) :
  fits 256 name ->
  fs w !! lockfile_path name = Some f ->
  0 < ld_pid (f_ldata f) ->
  let r := restart E w (Some name) in
  fst r = match ptab w !! ld_pid (f_ldata f) with
          | Some true => EOK
          | Some false => EPERM
          | None => ESRCH
          end /\
  fs (snd r) = fs w /\
  ptab (snd r) = match ptab w !! ld_pid (f_ldata f) with
                 | Some true => delete (ld_pid (f_ldata f)) (ptab w)
                 | _ => ptab w
                 end /\
  trace (snd r)
  = trace w ++ [EvOpen (lockfile_path name) (3 + Z.of_nat (length (fds w)));
                EvKill (ld_pid (f_ldata f)) SIGKILL
                  (match ptab w !! ld_pid (f_ldata f) with
                   | Some true => 0
                   | _ => -1
                   end)] /\
  (ld_terminate (f_ldata f) ≠ SUSPEND -> ld_terminate (f_ldata f) ≠ ABORT ->
   fst (get_pid_from_lockfile E (snd r) (Some name))
   = match ptab (snd r) !! ld_pid (f_ldata f) with
     | None => 0
     | Some _ => ld_pid (f_ldata f)
     end) /\
  (ptab w !! ld_pid (f_ldata f) = Some false ->
   ptab (snd r) !! ld_pid (f_ldata f) = Some false).
Proof.
  intros _ Hf Hpid r.
  assert (H : fst r = match ptab w !! ld_pid (f_ldata f) with
                      | Some true => EOK
                      | Some false => EPERM
                      | None => ESRCH
                      end /\
              fs (snd r) = fs w /\
              ptab (snd r) = match ptab w !! ld_pid (f_ldata f) with
                             | Some true => delete (ld_pid (f_ldata f)) (ptab w)
                             | _ => ptab w
                             end /\
              trace (snd r)
              = trace w ++ [EvOpen (lockfile_path name)
                              (3 + Z.of_nat (length (fds w)));
                            EvKill (ld_pid (f_ldata f)) SIGKILL
                              (match ptab w !! ld_pid (f_ldata f) with
                               | Some true => 0
                               | _ => -1
                               end)]).
  { unfold r, restart.
    rewrite (open_lockfile_found E w name f Hf), fresh_fd_ne. cbn [negb].
    rewrite (read_ldata_open w _ f _ Hf). cbn [fst].
    match goal with
    | |- context [sys_close ?v ?fd] =>
        destruct (sys_close_frame v fd) as (Hfs & Hpt & Htr & _);
        set (w1 := sys_close v fd) in *
    end.
    cbn [fs ptab trace log set_trace set_fds] in Hfs, Hpt, Htr.
    unfold sys_kill. destruct (Z.ltb_spec 0 (ld_pid (f_ldata f))); [|lia].
    rewrite Hpt. change (SIGKILL =? 0) with false.
    destruct (ptab w !! ld_pid (f_ldata f)) as [[]|];
      unfold EOK; cbn [Z.eqb negb fst snd fs ptab trace errno log set_trace
                       set_errno set_ptab];
      rewrite Hfs, Htr, ?Hpt, <- app_assoc; done. }
  destruct H as (H1 & H2 & H3 & H4).
  split; [exact H1|]. split; [exact H2|]. split; [exact H3|].
  split; [exact H4|]. split.
  - intros Hs Ha.
    assert (Hf' : fs (snd r) !! lockfile_path name = Some f)
      by (by rewrite H2).
    rewrite (get_pid_from_lockfile_found E (snd r) name f Hf' Hpid).
    apply Z.eqb_neq in Hs, Ha. by rewrite Hs, Ha.
  - intros Hp. rewrite H3, Hp. exact Hp.
Qed.

Lemma restart_respawns_holds :
  fst (restart Scenario.env Cases.supervising (Some "web")) = EOK /\
  trace (snd (restart Scenario.env Cases.supervising (Some "web")))
  = [EvOpen "/tmp/procmon.web" 3; EvKill 12 SIGKILL 0].
Proof.
  destruct (restart_respawns Scenario.env Cases.supervising "web"
              (Scenario.lockfile_of 12 "/usr/bin/web"))
    as (H1 & _ & _ & H4 & _); [vm_compute; reflexivity|reflexivity|simpl; lia|].
  split; [exact H1|exact H4].
Defined.

(** ** The two supervisors *)

(** X21: the two supervisors agree on each other.  A supervisor whose
    lockfile does not exist creates it under its own name, procmon1 for the
    primary and procmon2 for the secondary, with its own pid and with the
    command line of its role.  The descriptor that the supervisor of the
    other role sets up in MonitorProcmon has this name and this command
    line, is monitored, is not entered in the process list, and gets one
    call to pthread_create. *)
Theorem supervisors_agree (E : Env) (w v : World) (ps : ProcmonState) :
  let own := if primary ps then "procmon1" else "procmon2" in
  let cmd := procmon_cmd ps (if primary ps then "-F" else "-f") in
  let h := length (procs v) in
  never_creates E (lockfile_path own) ->
  fs w !! lockfile_path own = None ->
  (exists w0 w1 rc,
     open_lockfile E w (Some own) = (-1, w0) /\
     MakeOwnLock E w ps
     = (rc, log (EvFcntl (3 + Z.of_nat (length (fds w))) F_SETLK) w1) /\
     fs w1 = <[lockfile_path own :=
                 mkFile (mkLockData (self w) 0 1 (time w0)) cmd]> (fs w0)) /\
  (exists p,
     procs (snd (MonitorProcmon E v (peer_of ps))) !! h = Some p /\
     id p = Some own /\ exec p = Some cmd /\ monitored p = true) /\
  pFirst (snd (MonitorProcmon E v (peer_of ps))) = pFirst v /\
  trace (snd (MonitorProcmon E v (peer_of ps)))
  = trace v ++ [EvPthreadCreate h (fst (MonitorProcmon E v (peer_of ps)))].
Proof.
  intros own cmd h Hnc Hf. split; [|split; [|split]].
  - destruct (makelock_missing E w
                (mkProcess (Some own) PROCSTATE_eINIT (Some cmd) 0 0 false
                           false (ps_verbose ps) false (self w) 0 None [] [] [])
                own Hnc eq_refl Hf)
      as (w0 & w1 & Ho & Hm & Hfs & _).
    exists w0, w1. eexists. split; [exact Ho|]. split; [exact Hm|exact Hfs].
  - unfold MonitorProcmon, InitProcess, peer_of. cbn [primary ps_verbose].
    fold h. cbn [procs set_procs]. rewrite list_lookup_middle by done.
    assert (Hown : (if negb (primary ps) then "procmon2" else "procmon1") = own)
      by (unfold own; by destruct (primary ps)).
    assert (Hcmd : procmon_cmd
                     (mkProcmonState (ps_verbose ps) (argv0 ps) (configFile ps)
                        (negb (primary ps)))
                     (if negb (primary ps) then "-f" else "-F") = cmd)
      by (unfold cmd, procmon_cmd; by destruct (primary ps)).
    rewrite Hown, Hcmd.
    destruct (pthread_create_rc E _ h =? EOK); cbn [snd].
    + eexists. split.
      * apply lookup_update_eq, lookup_update_eq.
        cbn [procs log set_trace set_threads set_procs].
        by apply list_lookup_middle.
      * done.
    + eexists. split.
      * cbn [procs log set_trace set_procs]. by apply list_lookup_middle.
      * done.
  - unfold MonitorProcmon, InitProcess. fold h. cbn [procs set_procs].
    rewrite list_lookup_middle by done.
    by destruct (pthread_create_rc E _ h =? EOK).
  - unfold MonitorProcmon, InitProcess. fold h. cbn [procs set_procs].
    rewrite list_lookup_middle by done.
    by destruct (pthread_create_rc E _ h =? EOK).
Qed.

Lemma supervisors_agree_holds :
  exists p,
    procs (snd (MonitorProcmon Scenario.env Scenario.boot
                  (peer_of Cases.as_primary))) !! 0%nat = Some p /\
    id p = Some "procmon1" /\ exec p = Some "procmon -F cfg.json".
Proof.
  destruct (supervisors_agree Scenario.env Scenario.boot Scenario.boot
              Cases.as_primary) as (_ & (p & Hp & Hid & Hex & _) & _).
  - intros u Hu. exact Hu.
  - reflexivity.
  - exists p. split; [exact Hp|]. split; [exact Hid|exact Hex].
Defined.

(** ** A configuration in dependency order *)




